(* ===== verification/_CoqProject ===== *)
-Q . S2P
Prelude.v
PyStr.v
Regex.v
Like.v
Csv.v
Table.v
Db.v
Handlers.v
Files.v
App.v
