(* ===== verification/Prelude.v ===== *)
(** * A verified model of [src/programa_hospital.py]

    The program is a Tkinter desktop application for a small hospital:
    patients, doctors and appointments kept in the SQLite file
    [hospital.db].  Every operation is a Tk callback that reads a form,
    validates it, runs one SQL statement through [sqlite3] and shows a
    message box; the main window's menu opens the forms and lists; three
    callbacks export the appointments to CSV and back up or restore the
    database file.  This development models the program's state and every
    callback that changes it, and proves what they do.

    ** Files, in dependency order

    - [Prelude] (this file): the exception monad [py] standing for Python
      code that may raise, the string vocabulary, the [hosp] hint
      databases and tactics.
    - [PyStr]: the Python built-ins the callbacks call on form text:
      [str.strip], truthiness, [int()] (signs, underscores, whitespace,
      the 4300-digit limit of CPython >= 3.11), [str()] of an [int],
      [s.split(":")[0]] and the combobox option [f"{id}: {name}"].
    - [Regex]: the subset of [re] the two checks of [save_appointment] use
      (lines 365 and 370): a parser of the pattern and a matcher with
      Python's [$]; both patterns are decided by reference predicates.
    - [Like]: SQLite's [LIKE] as [perform_search] (lines 828-844) uses it:
      wildcards, ASCII case folding, the 50000-byte pattern limit.
    - [Csv]: [csv.writer] in the [excel] dialect (lines 101-103) and an
      RFC 4180 reader, with the round trip.
    - [Table]: one SQLite table with [INTEGER PRIMARY KEY AUTOINCREMENT]:
      rows in rowid order and the [sqlite_sequence] counter; [INSERT],
      [SELECT], [UPDATE], [DELETE]; an abstract store ([gmap]) that each
      statement refines; runs of operations as an inductive relation.
    - [Db]: the four tables of [setup_database] (lines 11-43), parameter
      binding of 64-bit integers, the appointment join of
      [view_appointments] and of the export.
    - [Handlers]: every state-changing callback (save, edit, update and
      delete of patients and doctors, the search, scheduling and
      deleting appointments), each a function from the form's inputs and
      the database to [py (db * list dialog)]; the data invariant
      [db_ok] and its preservation by every event.
    - [Files]: the file system ([fsys]) and the export, backup and
      restore callbacks with the errors of [open] and [shutil.copy].
    - [App]: the module namespace (the second [def view_doctors] replaces
      the first), the menu, the windows with the rows their trees show,
      the interface as a labelled step relation [ui_step], and [main],
      the [__main__] block: the setup, then the main loop.

    ** What the theorems show

    - Invariants: [db_ok] (well-formed tables, stripped non-empty texts,
      64-bit integers, checked dates and times) holds after every
      sequence of callbacks and in every reachable state of the
      interface, stale windows and file operations included; AUTOINCREMENT
      never reuses an id.
    - Functional behaviour of each callback on each branch, error dialogs
      and escaping exceptions included; refinement of the SQL statements
      by the abstract store, and of the handler model by the whole
      interface ([App.ui_refines_handles]); an update and a delete of
      the same patient commute up to the table equivalence
      [Table.tequiv]; equivalence of the regex and [LIKE] matchers with
      reference predicates; round trips (the combobox id, the edit form,
      the CSV file, backup then restore); the entry point starts the
      interface on a set-up database, after which the invariant holds in
      every reachable state.
    - What the code does that its messages, comments or intent do not
      say: the stub [view_doctors] makes the doctor list unreachable; the
      date check accepts trailing text; updates and deletes of missing
      rows report success; search wildcards are not escaped; deleting a
      doctor leaves dangling appointments hidden by the join; an age
      overflow escapes [save_patient]; the export can overwrite
      [hospital.db], after which no form or list callback can run.

    ** Bounds and fuel

    Integers are [Z] with the bounds the code meets written out: SQLite
    binds 64-bit integers ([Db.bind_int], [OverflowError] outside
    [-2^63, 2^63)); rowids stop at [2^63 - 1] ([Table.max_rowid],
    [SQLITE_FULL]); [int()] refuses more than 4300 digits; [LIKE] patterns
    stop at 50000 bytes.  The only fuel is the digit loop of [str()],
    [S (log2 n)] rounds, proved enough ([PyStr.decimal_digits_spec]: the
    loop returns the digits of its argument); every other function is
    structurally recursive.

    ** Not modelled

    Widget layout, styles and icons ([configure_styles], the grid and
    pack calls) change no state.  Strings are Latin-1 code points: Unicode
    case folding and whitespace beyond it are not modelled; literals are
    written as UTF-8 and decoded ([latin1_of_utf8]) where the program
    writes them as data.  [sqlite3.connect] creates a missing
    [hospital.db] as an empty file; the model creates it only in the
    setup of [main]: after a callback that failed on a missing file the
    model has no file where the program has an empty one, which only a
    later backup could tell apart.  [CREATE TABLE IF NOT EXISTS] on an
    existing database is modelled for a file that holds all four tables
    or none (a missing or empty file); a file with some of the tables is
    not represented.  Scans return
    rows in rowid order, the plan SQLite uses for these statements.  When
    [hospital.db] is not a database file, a callback is modelled by the
    [DatabaseError] of its first statement, without the validation dialogs
    it may show before it connects; the interface state does not record
    dialogs, so no theorem depends on that order. *)

From stdpp Require Export base list strings gmap.
From Stdlib Require Export ZArith Lia Ascii.

(** ** Shared vocabulary of the development

    The [hosp_scope] holds the notations of the development; the [hosp]
    hint database holds the rewriting and resolution lemmas that the
    component files share. *)

Declare Scope hosp_scope.
Delimit Scope hosp_scope with hosp.
Create HintDb hosp.
Create Rewrite HintDb hosp_rw.

(** ** Python exceptions

    The handlers of the program run inside Tk callbacks; an exception that
    escapes a handler is printed by Tk and the handler's remaining
    statements (the commit, the dialogs) do not run.  A computation that may
    raise is a value of [py]. *)

Inductive PyExc :=
  | ValueError (msg : string)
  | OverflowError (msg : string)
  | IndexError
  | OperationalError (msg : string)   (** [sqlite3.OperationalError] *)
  | DatabaseError (msg : string)      (** [sqlite3.DatabaseError] *)
  | OSError (msg : string).           (** [OSError] and its subclasses, [shutil.SameFileError] *)

Inductive py (A : Type) : Type :=
  | PyOk (a : A)
  | PyRaise (e : PyExc).
Arguments PyOk {A} a.
Arguments PyRaise {A} e.

#[export] Instance py_ret : MRet py := @PyOk.
#[export] Instance py_bind : MBind py := fun A B f m =>
  match m with
  | PyOk a => f a
  | PyRaise e => PyRaise e
  end.

#[export] Instance py_fmap : FMap py := fun A B f m =>
  match m with
  | PyOk a => PyOk (f a)
  | PyRaise e => PyRaise e
  end.

Notation "'raise' e" := (PyRaise e) (at level 10) : hosp_scope.

(** Forget which exception was raised. *)
Definition to_option {A} (m : py A) : option A :=
  match m with PyOk a => Some a | PyRaise _ => None end.

Lemma py_bind_ok {A B} (a : A) (f : A -> py B) : (PyOk a ≫= f) = f a.
Proof. reflexivity. Qed.

Lemma py_bind_raise {A B} (e : PyExc) (f : A -> py B) : (PyRaise e ≫= f) = PyRaise e.
Proof. reflexivity. Qed.

Lemma py_bind_eq_ok {A B} (m : py A) (f : A -> py B) (b : B) :
  (m ≫= f) = PyOk b <-> exists a, m = PyOk a /\ f a = PyOk b.
Proof.
  destruct m as [a|e]; simpl; split.
  - eauto.
  - intros (a' & [= ->] & Hf). exact Hf.
  - discriminate.
  - intros (a' & Hm & _). discriminate.
Qed.

#[export] Hint Rewrite @py_bind_ok @py_bind_raise : hosp_rw.

(** ** Strings

    A Python [str] is modelled as a Stdlib [string] whose characters are the
    code points 0..255 (the Latin-1 block of Unicode); [code] reads the code
    point of a character. *)

Definition code (c : ascii) : nat := Ascii.nat_of_ascii c.

(** stdpp makes [String.append] opaque to [simpl]; its two computation
    rules are the first lemmas of the rewrite base. *)
Lemma sapp_nil_l (t : string) : "" +:+ t = t.
Proof. reflexivity. Qed.

Lemma sapp_cons (c : ascii) (s t : string) : String c s +:+ t = String c (s +:+ t).
Proof. reflexivity. Qed.

#[export] Hint Rewrite sapp_nil_l sapp_cons : hosp_rw.

Lemma sapp_nil_r (s : string) : s +:+ "" = s.
Proof. induction s; [done | rewrite !sapp_cons; congruence]. Qed.

Lemma sapp_assoc (s t u : string) : s +:+ (t +:+ u) = (s +:+ t) +:+ u.
Proof. induction s; [done | rewrite !sapp_cons; congruence]. Qed.

Lemma slength_app (s t : string) :
  String.length (s +:+ t) = String.length s + String.length t.
Proof. induction s; [done | rewrite sapp_cons; simpl; lia]. Qed.

Lemma sapp_nil_inv (s t : string) : s +:+ t = "" -> s = "" /\ t = "".
Proof. destruct s; [done | discriminate]. Qed.

(** [sforall p s]: every character of [s] satisfies [p]. *)
Fixpoint sforall (p : ascii -> bool) (s : string) : bool :=
  match s with
  | EmptyString => true
  | String c t => p c && sforall p t
  end.

(** [n] copies of the character [c]. *)
Fixpoint srepeat (n : nat) (c : ascii) : string :=
  match n with O => EmptyString | S k => String c (srepeat k c) end.

(** A literal of this development is stored as the UTF-8 bytes of its
    text.  [latin1_of_utf8] turns it into the [str] the source literal
    denotes: each two-byte sequence [0xC2 xx] or [0xC3 xx] becomes the code
    point [U+0080..U+00FF] it encodes; every other byte is kept.  It is
    used where the program writes a literal as data (the CSV header);
    the texts of the message boxes are only shown and are kept as
    written. *)
Fixpoint latin1_of_utf8 (s : string) : string :=
  match s with
  | String a (String b t as u) =>
      if Nat.eqb (code a) 194 then String b (latin1_of_utf8 t)
      else if Nat.eqb (code a) 195 then String (Ascii.ascii_of_nat (code b + 64)) (latin1_of_utf8 t)
      else String a (latin1_of_utf8 u)
  | _ => s
  end.

Lemma sforall_app (p : ascii -> bool) (s t : string) :
  sforall p (s +:+ t) = sforall p s && sforall p t.
Proof. induction s; [done | rewrite sapp_cons; simpl; rewrite IHs; apply andb_assoc]. Qed.

#[export] Hint Rewrite sapp_nil_r slength_app sforall_app : hosp_rw.
#[export] Hint Resolve sapp_nil_inv : hosp.

(** ** Lists *)

Lemma Forall_filter_sub {A} (P : A -> Prop) `{!forall x, Decision (P x)} (Q : A -> Prop) (l : list A) :
  Forall Q l -> Forall Q (filter P l).
Proof. induction 1; [done|]. rewrite filter_cons. case_decide; auto. Qed.

#[export] Hint Resolve Forall_filter_sub : hosp.

(** ** Tactics *)

Ltac invc H := inversion H; subst; clear H.

(** [hosp_simpl] unfolds the monad and rewrites with the shared lemmas. *)
Ltac hosp_simpl :=
  repeat first [ progress (simpl in * ) | progress (autorewrite with hosp_rw in * ) ].
