(* ===== verification/PyStr.v ===== *)
(** * Python string built-ins used by the form handlers

    The handlers of [src/programa_hospital.py] read every form field with
    [entry.get().strip()], test it for truthiness, convert the age with
    [int(age)] and the combobox selection with
    [int(selected.split(":")[0])], and build the combobox options with
    [f"{row[0]}: {row[1]}"].  This file models those built-ins on strings of
    Latin-1 code points: [str.isspace], [str.strip], [int(str)] (CPython
    3.11 or later, with its 4300-digit limit), [str(int)] and the first
    piece of [str.split(":")].

    Theorem: the id of a combobox option is recovered from the option's
    text.  The lemmas ([py_int_str], [decimal_digits_spec]) show that
    [int()] inverts [str()] within the digit limit and that the digit
    loop of [str()] computes the digits of its argument within its
    fuel. *)

From S2P Require Import Prelude.

Module PyStr.

Local Open Scope Z_scope.

(** ** Whitespace and [str.strip] *)

(** [str.isspace] on a code point 0..255: the controls 9..13 and 28..31,
    the space, NEL (133) and NO-BREAK SPACE (160). *)
Definition is_space (c : ascii) : bool :=
  let n := code c in
  (((9 <=? n) && (n <=? 13)) || ((28 <=? n) && (n <=? 32)) || (n =? 133) || (n =? 160))%nat.

Fixpoint lstrip (s : string) : string :=
  match s with
  | EmptyString => EmptyString
  | String c t => if is_space c then lstrip t else s
  end.

Fixpoint rstrip (s : string) : string :=
  match s with
  | EmptyString => EmptyString
  | String c t =>
      match rstrip t with
      | EmptyString => if is_space c then EmptyString else String c EmptyString
      | r => String c r
      end
  end.

(** [str.strip()] with no argument removes whitespace at both ends. *)
Definition strip (s : string) : string := rstrip (lstrip s).

(** Truthiness of a [str]: only the empty string is false. *)
Definition truthy (s : string) : bool :=
  match s with EmptyString => false | _ => true end.

(** ** Decimal digits *)

Definition is_digit (c : ascii) : bool := ((48 <=? code c) && (code c <=? 57))%nat.
Definition digit_val (c : ascii) : Z := Z.of_nat (code c) - 48.
Definition digit_char (d : Z) : ascii := Ascii.ascii_of_nat (Z.to_nat (48 + d)).

(** The digits of an [int] literal in base 10: a digit, then digits each
    optionally preceded by one underscore ([1_000]); leading, trailing and
    doubled underscores are refused. *)
Fixpoint scan_more (s : string) : option (list Z) :=
  match s with
  | EmptyString => Some []
  | String c t =>
      if is_digit c then cons (digit_val c) <$> scan_more t
      else if Ascii.eqb c "_" then
        match t with
        | String d u => if is_digit d then cons (digit_val d) <$> scan_more u else None
        | EmptyString => None
        end
      else None
  end.

Definition scan_digits (s : string) : option (list Z) :=
  match s with
  | String c t => if is_digit c then cons (digit_val c) <$> scan_more t else None
  | EmptyString => None
  end.

Definition horner (ds : list Z) : Z := fold_left (fun a d => a * 10 + d) ds 0.

(** CPython >= 3.11 refuses to convert a decimal string of more than
    [sys.int_info.default_max_str_digits] digits. *)
Definition max_str_digits : nat := 4300.

(** The optional sign of an [int] literal. *)
Definition split_sign (t : string) : Z * string :=
  match t with
  | String "-"%char u => (-1, u)
  | String "+"%char u => (1, u)
  | _ => (1, t)
  end.

(** [int(s)] for a [str] argument and base 10: surrounding whitespace, an
    optional sign, the digits. *)
Definition py_int (s : string) : py Z :=
  let '(sign, body) := split_sign (strip s) in
  match scan_digits body with
  | Some ds =>
      if Nat.leb (List.length ds) max_str_digits then PyOk (sign * horner ds)
      else PyRaise (ValueError "Exceeds the limit (4300 digits) for integer string conversion")
  | None => PyRaise (ValueError "invalid literal for int() with base 10")
  end.

(** [str(n)]: the decimal digits of [|n|], most significant first, with a
    leading ["-"] for a negative [n].  [fuel] bounds the number of
    divisions by ten; [digits_fuel n] bits are always enough. *)
Fixpoint decimal_go (fuel : nat) (n : Z) : list Z :=
  match fuel with
  | O => [n]
  | S f => if n <? 10 then [n] else decimal_go f (n / 10) ++ [n mod 10]
  end.

Definition digits_fuel (n : Z) : nat := S (Z.to_nat (Z.log2 n)).

Definition decimal_digits (n : Z) : list Z := decimal_go (digits_fuel n) n.

Definition digits_string (ds : list Z) : string :=
  foldr (fun d s => String (digit_char d) s) EmptyString ds.

(** CPython 3.11 and later also refuse [str()] of an [int] of more than
    4300 digits; the program applies [str()] only to integers read from
    SQLite (ids and ages), which have at most 19 digits, so the limit is
    left out. *)
Definition py_str_int (z : Z) : string :=
  if z <? 0 then String "-" (digits_string (decimal_digits (- z)))
  else digits_string (decimal_digits z).

(** ** [str.split(":")[0]] *)

(** The first piece of [s.split(":")]: the text before the first colon, or
    all of [s].  [split] always returns at least one piece, so the
    [IndexError] that [save_appointment] catches cannot occur. *)
Fixpoint split_colon_head (s : string) : string :=
  match s with
  | EmptyString => EmptyString
  | String c t => if Ascii.eqb c ":" then EmptyString else String c (split_colon_head t)
  end.

(** [f"{row[0]}: {row[1]}"], an option of the patient or doctor combobox. *)
Definition format_option (id : Z) (name : string) : string :=
  py_str_int id +:+ String ":" (String " " name).

(** ** Lemmas *)

Lemma lstrip_idem (s : string) : lstrip (lstrip s) = lstrip s.
Proof. induction s as [|c t IH]; simpl; [done|]. destruct (is_space c) eqn:E; simpl; rewrite ?E; done. Qed.

Lemma rstrip_cons (c : ascii) (t : string) :
  rstrip (String c t) =
  match rstrip t with
  | EmptyString => if is_space c then EmptyString else String c EmptyString
  | r => String c r
  end.
Proof. reflexivity. Qed.

Lemma rstrip_idem (s : string) : rstrip (rstrip s) = rstrip s.
Proof.
  induction s as [|c t IH]; [done|]. rewrite (rstrip_cons c t).
  destruct (rstrip t) as [|c' r] eqn:E.
  - destruct (is_space c) eqn:Ec; [done|]. simpl. by rewrite Ec.
  - rewrite rstrip_cons, IH. done.
Qed.

(** A string that is empty or starts with a non-space character. *)
Definition head_not_space (s : string) : bool :=
  match s with EmptyString => true | String c _ => negb (is_space c) end.

Lemma lstrip_head (s : string) : head_not_space (lstrip s) = true.
Proof. induction s as [|c t IH]; simpl; [done|]. destruct (is_space c) eqn:E; simpl; rewrite ?E; done. Qed.

Lemma lstrip_fix (s : string) : head_not_space s = true -> lstrip s = s.
Proof. destruct s as [|c t]; simpl; [done|]. by destruct (is_space c); intros. Qed.

Lemma rstrip_head (s : string) : head_not_space s = true -> head_not_space (rstrip s) = true.
Proof.
  destruct s as [|c t]; simpl; [done|]. intros Hc.
  destruct (rstrip t); [|exact Hc]. destruct (is_space c) eqn:E; [done|]. simpl. by rewrite E.
Qed.

Lemma rstrip_no_space (s : string) : sforall (fun c => negb (is_space c)) s = true -> rstrip s = s.
Proof.
  induction s as [|c t IH]; simpl; [done|]. intros [Hc Ht]%andb_prop.
  rewrite IH by done. destruct t; [|done]. by destruct (is_space c).
Qed.

Lemma strip_no_space (s : string) : sforall (fun c => negb (is_space c)) s = true -> strip s = s.
Proof.
  intros H. unfold strip. rewrite lstrip_fix; [by apply rstrip_no_space|].
  destruct s; simpl in *; [done|]. by apply andb_prop in H as [? _].
Qed.

Lemma digit_char_spec (d : Z) :
  0 <= d < 10 ->
  is_digit (digit_char d) = true /\ digit_val (digit_char d) = d /\
  is_space (digit_char d) = false /\ Ascii.eqb (digit_char d) ":" = false.
Proof.
  intros Hd. assert (d = 0 \/ d = 1 \/ d = 2 \/ d = 3 \/ d = 4 \/ d = 5 \/ d = 6
    \/ d = 7 \/ d = 8 \/ d = 9) as Hcases by lia.
  repeat destruct Hcases as [-> | Hcases]; subst; vm_compute; auto.
Qed.

Definition digits_ok (ds : list Z) : Prop := Forall (fun d => 0 <= d < 10) ds.

Lemma horner_snoc (ds : list Z) (d : Z) : horner (ds ++ [d]) = horner ds * 10 + d.
Proof. unfold horner. by rewrite fold_left_app. Qed.

Lemma decimal_go_spec (f : nat) (n : Z) :
  0 <= n < 2 ^ Z.of_nat f ->
  horner (decimal_go f n) = n /\ digits_ok (decimal_go f n) /\ decimal_go f n <> [].
Proof.
  revert n. induction f as [|f IH]; intros n Hn; simpl.
  - simpl in Hn. assert (n = 0) as -> by lia. repeat split; [repeat constructor; lia|done].
  - destruct (n <? 10) eqn:Hlt.
    + apply Z.ltb_lt in Hlt. repeat split; [repeat constructor; lia|done].
    + apply Z.ltb_ge in Hlt.
      rewrite Nat2Z.inj_succ, Z.pow_succ_r in Hn by lia.
      pose proof (Z.mul_div_le n 10 ltac:(lia)). pose proof (Z.mod_pos_bound n 10 ltac:(lia)).
      pose proof (Z.div_mod n 10 ltac:(lia)).
      destruct (IH (n / 10)) as (Hh & Hok & _); [lia|].
      rewrite horner_snoc, Hh. repeat split; [lia| |].
      * apply Forall_app. split; [done|]. repeat constructor; lia.
      * by destruct (decimal_go f (n / 10)).
Qed.

Lemma digits_fuel_enough (n : Z) : 0 <= n -> 0 <= n < 2 ^ Z.of_nat (digits_fuel n).
Proof.
  intros Hn. unfold digits_fuel. rewrite Nat2Z.inj_succ, Z2Nat.id by apply Z.log2_nonneg.
  destruct (Z.eq_dec n 0) as [->|Hne]; [simpl; lia|].
  pose proof (Z.log2_spec n ltac:(lia)) as [_ ?]. lia.
Qed.

Lemma decimal_digits_spec (n : Z) :
  0 <= n -> horner (decimal_digits n) = n /\ digits_ok (decimal_digits n) /\ decimal_digits n <> [].
Proof. intros Hn. by apply decimal_go_spec, digits_fuel_enough. Qed.

Lemma decimal_go_length (f : nat) (n : Z) (k : nat) :
  0 <= n < 10 ^ Z.of_nat (S k) -> (List.length (decimal_go f n) <= S k)%nat.
Proof.
  revert n k. induction f as [|f IH]; intros n k Hn; simpl; [lia|].
  destruct (n <? 10) eqn:Hlt; simpl; [lia|]. apply Z.ltb_ge in Hlt.
  destruct k as [|k].
  - simpl in Hn. lia.
  - rewrite length_app. simpl.
    enough (List.length (decimal_go f (n / 10)) <= S k)%nat by lia.
    apply IH. rewrite Nat2Z.inj_succ, Z.pow_succ_r in Hn by lia. split.
    + apply Z.div_pos; lia.
    + apply Z.div_lt_upper_bound; lia.
Qed.

Lemma digits_string_cons (d : Z) (ds : list Z) :
  digits_string (d :: ds) = String (digit_char d) (digits_string ds).
Proof. reflexivity. Qed.

Lemma scan_more_digits (ds : list Z) :
  digits_ok ds -> scan_more (digits_string ds) = Some ds.
Proof.
  induction 1 as [|d ds Hd _ IH]; simpl; [done|].
  destruct (digit_char_spec d Hd) as (-> & -> & _). by rewrite IH.
Qed.

Lemma digits_string_no_space (ds : list Z) :
  digits_ok ds -> sforall (fun c => negb (is_space c)) (digits_string ds) = true.
Proof.
  induction 1 as [|d ds Hd _ IH]; simpl; [done|].
  destruct (digit_char_spec d Hd) as (_ & _ & -> & _). by rewrite IH.
Qed.

Lemma digits_string_no_colon (ds : list Z) :
  digits_ok ds -> sforall (fun c => negb (Ascii.eqb c ":")) (digits_string ds) = true.
Proof.
  induction 1 as [|d ds Hd _ IH]; simpl; [done|].
  destruct (digit_char_spec d Hd) as (_ & _ & _ & ->). by rewrite IH.
Qed.

Lemma split_sign_digit (c : ascii) (t : string) :
  is_digit c = true -> split_sign (String c t) = (1, String c t).
Proof. destruct c as [[] [] [] [] [] [] [] []]; vm_compute; congruence. Qed.

Lemma split_sign_digits (ds : list Z) :
  digits_ok ds -> ds <> [] -> split_sign (digits_string ds) = (1, digits_string ds).
Proof.
  intros Hok Hne. destruct ds as [|d ds]; [done|]. inversion Hok as [|? ? Hd _]; subst.
  rewrite digits_string_cons. apply split_sign_digit, digit_char_spec, Hd.
Qed.

Lemma split_colon_head_app (s t : string) :
  sforall (fun c => negb (Ascii.eqb c ":")) s = true ->
  split_colon_head (s +:+ String ":" t) = s.
Proof.
  induction s as [|c s IH]; [done|]. rewrite sapp_cons. simpl.
  intros [Hc Hs]%andb_prop. destruct (Ascii.eqb c ":"); [done|]. by rewrite IH.
Qed.

Lemma py_str_int_no_colon (z : Z) :
  sforall (fun c => negb (Ascii.eqb c ":")) (py_str_int z) = true.
Proof.
  unfold py_str_int. destruct (z <? 0) eqn:Hz; [apply Z.ltb_lt in Hz | apply Z.ltb_ge in Hz].
  - simpl. apply digits_string_no_colon, decimal_digits_spec. lia.
  - apply digits_string_no_colon, decimal_digits_spec. lia.
Qed.

Lemma scan_digits_digits (ds : list Z) :
  digits_ok ds -> ds <> [] -> scan_digits (digits_string ds) = Some ds.
Proof.
  intros Hok Hne. destruct ds as [|d ds]; [done|]. inversion Hok as [|? ? Hd Hds]; subst.
  simpl. destruct (digit_char_spec d Hd) as (-> & -> & _). by rewrite scan_more_digits.
Qed.

Lemma decimal_digits_length (n : Z) :
  0 <= n < 10 ^ Z.of_nat max_str_digits -> (List.length (decimal_digits n) <= max_str_digits)%nat.
Proof. intros Hn. apply (decimal_go_length _ _ 4299). exact Hn. Qed.

(** The body of [int(s)] once the sign is split off, on a digit string. *)
Lemma py_int_body (sign : Z) (ds : list Z) :
  digits_ok ds -> ds <> [] -> (List.length ds <= max_str_digits)%nat ->
  match scan_digits (digits_string ds) with
  | Some ds' =>
      if Nat.leb (List.length ds') max_str_digits then PyOk (sign * horner ds')
      else PyRaise (ValueError "Exceeds the limit (4300 digits) for integer string conversion")
  | None => PyRaise (ValueError "invalid literal for int() with base 10")
  end = PyOk (sign * horner ds).
Proof.
  intros Hok Hne Hlen. rewrite scan_digits_digits by done.
  by apply Nat.leb_le in Hlen as ->.
Qed.

Lemma strip_strip (s : string) : strip (strip s) = strip s.
Proof.
  unfold strip. rewrite (lstrip_fix (rstrip (lstrip s))).
  - apply rstrip_idem.
  - apply rstrip_head, lstrip_head.
Qed.

Lemma py_int_str (z : Z) :
  Z.abs z < 10 ^ Z.of_nat max_str_digits -> py_int (py_str_int z) = PyOk z.
Proof.
  intros Hz. unfold py_int, py_str_int.
  destruct (z <? 0) eqn:Hneg; [apply Z.ltb_lt in Hneg | apply Z.ltb_ge in Hneg].
  - destruct (decimal_digits_spec (- z)) as (Hh & Hok & Hne); [lia|].
    rewrite strip_no_space by (simpl; by apply digits_string_no_space).
    simpl split_sign. cbv iota beta.
    rewrite py_int_body, Hh by (try apply decimal_digits_length; auto; lia). f_equal. lia.
  - destruct (decimal_digits_spec z) as (Hh & Hok & Hne); [lia|].
    rewrite strip_no_space by (by apply digits_string_no_space).
    rewrite split_sign_digits by done. cbv iota beta.
    rewrite py_int_body, Hh by (try apply decimal_digits_length; auto; lia). f_equal. lia.
Qed.

(** The id of a combobox option is read back. *)
Lemma option_id (id : Z) (name : string) :
  Z.abs id < 10 ^ Z.of_nat max_str_digits ->
  py_int (split_colon_head (format_option id name)) = PyOk id.
Proof.
  intros Hid. unfold format_option.
  rewrite split_colon_head_app by apply py_str_int_no_colon.
  by apply py_int_str.
Qed.

(** Every 64-bit integer has fewer than 4300 digits. *)
Lemma int64_digits (z : Z) : - 2 ^ 63 <= z < 2 ^ 63 -> Z.abs z < 10 ^ Z.of_nat max_str_digits.
Proof.
  intros Hz. assert (2 ^ 63 < 10 ^ Z.of_nat max_str_digits) by (vm_compute; reflexivity). lia.
Qed.

(** [str(z)] is already stripped and never empty. *)
Lemma py_str_int_field (z : Z) : strip (py_str_int z) = py_str_int z /\ truthy (py_str_int z) = true.
Proof.
  unfold py_str_int. destruct (z <? 0) eqn:Hz; [apply Z.ltb_lt in Hz | apply Z.ltb_ge in Hz].
  - destruct (decimal_digits_spec (- z)) as (_ & Hok & _); [lia|].
    split; [|done]. apply strip_no_space. simpl. by apply digits_string_no_space.
  - destruct (decimal_digits_spec z) as (_ & Hok & Hne); [lia|].
    split; [apply strip_no_space; by apply digits_string_no_space|].
    by destruct (decimal_digits z).
Qed.

(** ** Theorems *)


(** C35: the id that [save_appointment] reads back from a combobox option,
    [int(option.split(":")[0])], is the id the option was built from by
    [f"{row[0]}: {row[1]}"] in [schedule_appointment], whatever the name
    (colons included). *)
Theorem option_id_roundtrip (id : Z) (name : string) :
  Z.abs id < 10 ^ Z.of_nat max_str_digits ->
  py_int (split_colon_head (format_option id name)) = PyOk id.
Proof. apply option_id. Qed.

(** ** Witnesses *)

Lemma option_id_roundtrip_witness :
  py_int (split_colon_head (format_option 42 "Ana: filha")) = PyOk 42.
Proof. apply option_id_roundtrip. vm_compute. reflexivity. Defined.

End PyStr.
