(* ===== verification/Regex.v ===== *)
(** * The [re.match] checks of [save_appointment]

    [save_appointment] (src/programa_hospital.py, lines 364-372) validates the
    date with [re.match(r"\d{2}/\d{2}/\d{4}", date)] and the time with
    [re.match(r"^\d{2}:\d{2}$", time)].  This file models the fragment of
    Python's [re] these two patterns use: the pattern text is parsed
    ([parse_regex]) into nodes (digit class [\d], literal characters, the
    exact repetition [{n}], the anchors [^] and [$]) and matched by
    [re.match]'s rule, an anchored match of a prefix of the subject.  Every
    node of the fragment matches at most one way, so a deterministic matcher
    is exact.  Syntax outside the fragment makes [parse_regex] fail.

    Theorems: the date check accepts exactly the strings that start with
    [DD/MM/YYYY] digits, whatever follows (there is no [$]); the time check
    accepts exactly [HH:MM] and [HH:MM\n], and on a stripped field exactly
    [HH:MM]; neither check looks at the values of the digits. *)

From S2P Require Import Prelude PyStr.

Module Regex.
Import PyStr.

(** ** Syntax *)

Inductive node :=
  | NDigit                    (** [\d] *)
  | NLit (c : ascii)          (** a literal character *)
  | NRepeat (n : nat) (x : node)  (** [x{n}] *)
  | NBegin                    (** [^] *)
  | NEnd.                     (** [$] *)

Inductive parse_state := PSNormal | PSEscape | PSBrace (n : nat).

(** The metacharacters of [re] that the fragment does not support. *)
Definition unsupported (c : ascii) : bool :=
  sforall (fun m => negb (Ascii.eqb c m)) ".*+?()[]|".

(** The pattern text, read left to right; [acc] holds the nodes read so far,
    last first, so that [{n}] applies to the head. *)
Fixpoint parse_go (st : parse_state) (s : string) (acc : list node) : option (list node) :=
  match s with
  | EmptyString => match st with PSNormal => Some (rev acc) | _ => None end
  | String c t =>
      match st with
      | PSNormal =>
          if Ascii.eqb c "\" then parse_go PSEscape t acc
          else if Ascii.eqb c "{" then parse_go (PSBrace 0) t acc
          else if Ascii.eqb c "^" then parse_go PSNormal t (NBegin :: acc)
          else if Ascii.eqb c "$" then parse_go PSNormal t (NEnd :: acc)
          else if unsupported c then parse_go PSNormal t (NLit c :: acc)
          else None
      | PSEscape => if Ascii.eqb c "d" then parse_go PSNormal t (NDigit :: acc) else None
      | PSBrace n =>
          if is_digit c then parse_go (PSBrace (n * 10 + Z.to_nat (digit_val c))) t acc
          else if Ascii.eqb c "}" then
            match acc with
            | x :: acc' => parse_go PSNormal t (NRepeat n x :: acc')
            | [] => None
            end
          else None
      end
  end.

Definition parse_regex (pat : string) : option (list node) := parse_go PSNormal pat [].

(** ** Matching *)

Definition newline : ascii := "010"%char.

(** [$] without [re.MULTILINE]: the end of the subject, or just before a
    newline that ends it. *)
Definition at_end (s : string) : bool :=
  match s with
  | EmptyString => true
  | String c EmptyString => Ascii.eqb c newline
  | _ => false
  end.

Fixpoint repeat_match (f : nat -> string -> option (nat * string))
    (n : nat) (pos : nat) (s : string) : option (nat * string) :=
  match n with
  | O => Some (pos, s)
  | S k => match f pos s with
           | Some (pos', s') => repeat_match f k pos' s'
           | None => None
           end
  end.

(** One node at position [pos] of the subject, [s] the text left: the new
    position and text, or no match. *)
Fixpoint match_node (x : node) (pos : nat) (s : string) : option (nat * string) :=
  match x with
  | NDigit => match s with
              | String c t => if is_digit c then Some (S pos, t) else None
              | EmptyString => None
              end
  | NLit c => match s with
              | String c' t => if Ascii.eqb c c' then Some (S pos, t) else None
              | EmptyString => None
              end
  | NRepeat n y => repeat_match (match_node y) n pos s
  | NBegin => if Nat.eqb pos 0 then Some (pos, s) else None
  | NEnd => if at_end s then Some (pos, s) else None
  end.

Fixpoint match_seq (p : list node) (pos : nat) (s : string) : option (nat * string) :=
  match p with
  | [] => Some (pos, s)
  | x :: p' => match match_node x pos s with
               | Some (pos', s') => match_seq p' pos' s'
               | None => None
               end
  end.

(** [re.match(pat, s)] is truthy: the pattern matches a prefix of [s]. *)
Definition re_match (pat : string) (s : string) : bool :=
  match parse_regex pat with
  | Some p => match match_seq p 0 s with Some _ => true | None => false end
  | None => false
  end.

(** The two patterns, as written in the source. *)
Definition date_pattern : string := "\d{2}/\d{2}/\d{4}".
Definition time_pattern : string := "^\d{2}:\d{2}$".

(** ** Reference shapes *)

(** [c] is the literal character [x] (tested as [re] does, pattern first). *)
Definition lit (c : ascii) (x : ascii) : bool := Ascii.eqb x c.

(** [DD/MM/YYYY] at the start of [s]. *)
Definition date_shape (s : string) : bool :=
  match s with
  | String d1 (String d2 (String s1 (String m1 (String m2 (String s2
      (String y1 (String y2 (String y3 (String y4 _))))))))) =>
      is_digit d1 && is_digit d2 && lit s1 "/" && is_digit m1 && is_digit m2 &&
      lit s2 "/" && is_digit y1 && is_digit y2 && is_digit y3 && is_digit y4
  | _ => false
  end.

(** [HH:MM], the whole of [s]. *)
Definition time_shape (s : string) : bool :=
  match s with
  | String h1 (String h2 (String c (String m1 (String m2 EmptyString)))) =>
      is_digit h1 && is_digit h2 && lit c ":" && is_digit m1 && is_digit m2
  | _ => false
  end.

(** [HH:MM] followed by a newline, the whole of [s]. *)
Definition time_shape_nl (s : string) : bool :=
  match s with
  | String h1 (String h2 (String c (String m1 (String m2 (String n EmptyString))))) =>
      time_shape (String h1 (String h2 (String c (String m1 (String m2 EmptyString))))) &&
      Ascii.eqb n newline
  | _ => false
  end.

(** [last_not_space s]: [s] is empty or its last character is not a space. *)
Fixpoint last_not_space (s : string) : bool :=
  match s with
  | EmptyString => true
  | String c EmptyString => negb (is_space c)
  | String _ t => last_not_space t
  end.

(** ** Lemmas *)

Lemma parse_date_pattern :
  parse_regex date_pattern =
  Some [NRepeat 2 NDigit; NLit "/"; NRepeat 2 NDigit; NLit "/"; NRepeat 4 NDigit].
Proof. reflexivity. Qed.

Lemma parse_time_pattern :
  parse_regex time_pattern = Some [NBegin; NRepeat 2 NDigit; NLit ":"; NRepeat 2 NDigit; NEnd].
Proof. reflexivity. Qed.

(** Peel the subject one character at a time and split on every test. *)
Ltac peel_subject :=
  repeat (match goal with
  | |- context [match ?s with EmptyString => _ | String _ _ => _ end] =>
      is_var s; destruct s
  | |- context [if ?b then _ else _] => lazymatch type of b with bool => destruct b end
  end; simpl); auto.

Lemma rstrip_last (s : string) : last_not_space (rstrip s) = true.
Proof.
  induction s as [|c t IH]; [done|]. rewrite rstrip_cons.
  destruct (rstrip t) as [|c' r] eqn:E.
  - destruct (is_space c) eqn:Ec; simpl; rewrite ?Ec; done.
  - exact IH.
Qed.

Lemma strip_last (s : string) : last_not_space (strip s) = true.
Proof. apply rstrip_last. Qed.

Lemma time_shape_nl_last (s : string) : time_shape_nl s = true -> last_not_space s = false.
Proof.
  unfold time_shape_nl. do 6 (destruct s as [|? s]; [discriminate|]).
  destruct s; [|discriminate]. intros [_ Hn]%andb_prop.
  apply Ascii.eqb_eq in Hn as ->. reflexivity.
Qed.

Lemma re_match_time (s : string) :
  re_match time_pattern s = time_shape s || time_shape_nl s.
Proof.
  unfold re_match. rewrite parse_time_pattern. simpl.
  unfold time_shape_nl, time_shape, lit, at_end. peel_subject.
Qed.

Lemma re_match_date (s : string) : re_match date_pattern s = date_shape s.
Proof.
  unfold re_match. rewrite parse_date_pattern. simpl.
  unfold date_shape, lit. peel_subject.
Qed.

Lemma re_match_time_stripped (s : string) :
  re_match time_pattern (strip s) = time_shape (strip s).
Proof.
  rewrite re_match_time.
  destruct (time_shape_nl (strip s)) eqn:E; [|apply orb_false_r].
  apply time_shape_nl_last in E. by rewrite strip_last in E.
Qed.

(** ** Theorems *)

(** C25: the date check [re.match(r"\d{2}/\d{2}/\d{4}", date)] accepts
    exactly the strings that begin with two digits, a slash, two digits, a
    slash and four digits. *)
Theorem date_check_equiv (s : string) : re_match date_pattern s = date_shape s.
Proof. apply re_match_date. Qed.

(** C26: the date check has no [$]: a date it accepts is still accepted
    with any text after it, so [save_appointment] stores dates such as
    ["01/01/2024 garbage"]. *)
Theorem date_check_prefix (s t : string) :
  re_match date_pattern s = true -> re_match date_pattern (s +:+ t) = true.
Proof.
  rewrite !re_match_date. unfold date_shape.
  do 10 (destruct s as [|? s]; [discriminate|]). rewrite !sapp_cons. done.
Qed.

(** C27: the time check [re.match(r"^\d{2}:\d{2}$", time)] accepts exactly
    [HH:MM], and [HH:MM] followed by one newline ([$] also matches just
    before a final newline). *)
Theorem time_check_equiv (s : string) :
  re_match time_pattern s = time_shape s || time_shape_nl s.
Proof. apply re_match_time. Qed.

(** ** Witnesses *)

Lemma date_check_prefix_witness : re_match date_pattern ("15/13/2024" +:+ " lixo") = true.
Proof. apply date_check_prefix. reflexivity. Defined.

End Regex.
