(* ===== verification/Like.v ===== *)
(** * SQLite's [LIKE] operator, as [perform_search] uses it

    [perform_search] (src/programa_hospital.py, lines 828-844) runs
    [SELECT * FROM patients WHERE name LIKE ?] with the parameter
    ['%' + search_term + '%'].  SQLite's built-in [LIKE] (no [ESCAPE]
    clause, [case_sensitive_like] off) reads [%] as any sequence of
    characters, [_] as any one character, and compares other characters
    with ASCII case folding only.  A pattern longer than
    [SQLITE_MAX_LIKE_PATTERN_LENGTH] (50000) bytes of UTF-8 makes the
    statement fail with "LIKE or GLOB pattern too complex".

    Theorems: for a search term without [%] or [_], the query selects
    exactly the names that contain the term up to ASCII case (the empty
    term selects every name); a term of [_] alone selects every non-empty
    name, since the term's wildcards are not escaped. *)

From S2P Require Import Prelude.

Module Like.

(** ** Definitions *)

(** [sqlite3UpperToLower] on the ASCII letters; other code points are
    compared as they are. *)
Definition fold_case (c : ascii) : ascii :=
  if ((65 <=? code c) && (code c <=? 90))%nat then Ascii.ascii_of_nat (code c + 32) else c.

Fixpoint fold_str (s : string) : string :=
  match s with
  | EmptyString => EmptyString
  | String c t => String (fold_case c) (fold_str t)
  end.

(** [patternCompare] of [sqlite3/func.c] without an escape character:
    [like p s] when the whole of [s] matches the pattern [p]. *)
Fixpoint like (p s : string) : bool :=
  match p with
  | EmptyString => match s with EmptyString => true | String _ _ => false end
  | String c p' =>
      if Ascii.eqb c "%" then
        (fix star (s : string) : bool :=
           like p' s || match s with EmptyString => false | String _ s' => star s' end) s
      else if Ascii.eqb c "_" then
        match s with EmptyString => false | String _ s' => like p' s' end
      else
        match s with
        | EmptyString => false
        | String d s' => Ascii.eqb (fold_case c) (fold_case d) && like p' s'
        end
  end.

(** The bytes of the UTF-8 encoding of a string of code points 0..255. *)
Fixpoint utf8_len (s : string) : N :=
  match s with
  | EmptyString => 0
  | String c t => (if (code c <? 128)%nat then 1 else 2) + utf8_len t
  end%N.

Definition max_like_pattern_length : N := 50000.

(** [x LIKE pat] as the statement evaluates it. *)
Definition sqlite_like (pat s : string) : py bool :=
  if (max_like_pattern_length <? utf8_len pat)%N
  then PyRaise (OperationalError "LIKE or GLOB pattern too complex")
  else PyOk (like pat s).

(** The parameter [perform_search] binds: ['%' + search_term + '%']. *)
Definition search_pattern (term : string) : string := String "%" (term +:+ String "%" EmptyString).

(** A search term with no wildcard character. *)
Definition no_wildcard (t : string) : bool :=
  sforall (fun c => negb (Ascii.eqb c "%") && negb (Ascii.eqb c "_")) t.

(** ** Lemmas *)

Lemma like_pct_cons (p s : string) :
  like (String "%" p) s =
  like p s || match s with EmptyString => false | String _ s' => like (String "%" p) s' end.
Proof. destruct s; reflexivity. Qed.

(** [%] matches any prefix of the subject. *)
Lemma like_pct_iff (p s : string) :
  like (String "%" p) s = true <-> exists a b, s = a +:+ b /\ like p b = true.
Proof.
  induction s as [|c s IH]; rewrite like_pct_cons; split.
  - intros H. exists "", "". by rewrite orb_false_r in H.
  - intros (a & b & Hs & Hb). symmetry in Hs; apply sapp_nil_inv in Hs as [-> ->]. by rewrite Hb.
  - intros [H | (a & b & -> & Hb)%IH]%orb_prop.
    + by exists "", (String c s).
    + by exists (String c a), b.
  - intros ([|c' a] & b & Hs & Hb); apply orb_true_intro.
    + left. rewrite sapp_nil_l in Hs. by rewrite Hs.
    + right. rewrite sapp_cons in Hs. injection Hs as -> ->. apply IH. eauto.
Qed.

Lemma like_pct_any (s : string) : like (String "%" EmptyString) s = true.
Proof. apply like_pct_iff. exists s, "". split; [by rewrite sapp_nil_r | done]. Qed.

(** A literal prefix matches a prefix of the subject equal up to case. *)
Lemma like_lit_app (t q s : string) :
  no_wildcard t = true ->
  like (t +:+ q) s = true <->
  exists a b, s = a +:+ b /\ fold_str a = fold_str t /\ like q b = true.
Proof.
  revert s. induction t as [|c t IH]; intros s Hw.
  - split; [intros H; by exists "", s | intros (a & b & -> & Ha & Hb)].
    destruct a; [done | discriminate].
  - simpl in Hw. apply andb_prop in Hw as [[Hp Hu]%andb_prop Hw].
    apply negb_true_iff in Hp, Hu. rewrite sapp_cons. simpl. rewrite Hp, Hu.
    destruct s as [|d s]; split.
    + discriminate.
    + intros ([|? a] & b & Hs & Ha & _); [discriminate|]. rewrite sapp_cons in Hs. discriminate.
    + intros [Hc (a & b & -> & Ha & Hb)%IH]%andb_prop; [|done].
      exists (String d a), b. rewrite sapp_cons. simpl. apply Ascii.eqb_eq in Hc.
      by rewrite Hc, Ha.
    + intros ([|d' a] & b & Hs & Ha & Hb); [discriminate|].
      rewrite sapp_cons in Hs. injection Hs as -> ->. simpl in Ha. injection Ha as Hc Ha.
      rewrite Hc, Ascii.eqb_refl. simpl. apply IH; eauto.
Qed.

(** The search pattern of a wildcard-free term tests containment. *)
Lemma like_substring (t s : string) :
  no_wildcard t = true ->
  like (search_pattern t) s = true <->
  exists a b c, s = a +:+ b +:+ c /\ fold_str b = fold_str t.
Proof.
  intros Hw. unfold search_pattern. rewrite like_pct_iff. split.
  - intros (a & r & -> & (b & c & -> & Hb & _)%like_lit_app); [|done]. eauto.
  - intros (a & b & c & -> & Hb). exists a, (b +:+ c). split; [done|].
    apply like_lit_app; [done|]. exists b, c. auto using like_pct_any.
Qed.

(** ** Theorems *)

(** C28: with a search term free of [%] and [_], [name LIKE '%' || term || '%']
    holds exactly when the name contains the term, ASCII letters compared
    without case (the empty term matches every name). *)
Theorem search_like_substring (t s : string) :
  no_wildcard t = true ->
  like (search_pattern t) s = true <->
  exists a b c, s = a +:+ b +:+ c /\ fold_str b = fold_str t.
Proof. apply like_substring. Qed.

(** C29: the search term's wildcards are not escaped: searching for ["_"]
    selects every patient whose name is not empty. *)
Theorem search_underscore_matches_all (s : string) :
  like (search_pattern "_") s = true <-> s <> "".
Proof.
  unfold search_pattern. rewrite sapp_cons, sapp_nil_l, like_pct_iff. split.
  - intros (a & [|c b] & -> & Hb); [discriminate|].
    destruct a; rewrite ?sapp_cons; discriminate.
  - intros Hs. destruct s as [|c s]; [done|]. exists "", (String c s).
    split; [done|]. simpl. apply like_pct_any.
Qed.

(** ** Witnesses *)

Lemma search_like_substring_witness :
  like (search_pattern "ANA") "Mariana" = true <->
  exists a b c, "Mariana" = a +:+ b +:+ c /\ fold_str b = fold_str "ANA".
Proof. apply search_like_substring. reflexivity. Defined.

End Like.
