(* ===== verification/Csv.v ===== *)
(** * The CSV file written by [export_appointments_to_csv]

    [export_appointments_to_csv] (src/programa_hospital.py, lines 79-106)
    writes the appointment join with [csv.writer] in its default [excel]
    dialect: delimiter [,], quote character (the double quote), doubled quotes inside a
    quoted field, [QUOTE_MINIMAL] (a field is quoted when it contains the
    delimiter, the quote character, a carriage return or a line feed; a
    row made of one empty field is written as two quotes) and the line
    terminator CR LF.  The file is opened with [newline=''], so the text
    reaches the file as written.  [writerow] and [writerows] are modelled
    on the code points of the text; the UTF-8 encoding of the file is the
    one [Like.utf8_len] counts.

    The file is meant to be read back by spreadsheet programs.  [read] is
    the RFC 4180 reading of a CSV text (records ended by CR LF, CR or LF;
    quoted fields with doubled quotes), written as the state machine a
    reader runs.  Theorems: reading what [writerows] wrote gives back the
    rows, for all rows and all field texts; so the exported file reads
    back as the header and the rows of the appointment join. *)

From S2P Require Import Prelude.

Module Csv.

(** ** Characters *)

Definition dq : ascii := "034"%char.
Definition cr : ascii := "013"%char.
Definition lf : ascii := "010"%char.
Definition comma : ascii := ","%char.

(** The characters that make [QUOTE_MINIMAL] quote a field. *)
Definition special (c : ascii) : bool :=
  Ascii.eqb c comma || Ascii.eqb c dq || Ascii.eqb c cr || Ascii.eqb c lf.

Definition plain (s : string) : bool := sforall (fun c => negb (special c)) s.

(** ** The writer *)

Fixpoint double_quotes (s : string) : string :=
  match s with
  | EmptyString => EmptyString
  | String c t => if Ascii.eqb c dq then String dq (String dq (double_quotes t))
                  else String c (double_quotes t)
  end.

Definition quote_field (s : string) : string := String dq (double_quotes s +:+ String dq EmptyString).

(** [join_append] of [_csv.c] under [QUOTE_MINIMAL]. *)
Definition write_field (s : string) : string := if plain s then s else quote_field s.

Fixpoint join_fields (fs : list string) : string :=
  match fs with
  | [] => EmptyString
  | [f] => write_field f
  | f :: fs' => write_field f +:+ String comma (join_fields fs')
  end.

Definition crlf : string := String cr (String lf EmptyString).

(** [writer.writerow(fields)]: a row of one empty field is written quoted,
    so that it is not read back as an empty line. *)
Definition writerow (fs : list string) : string :=
  match fs with
  | [f] => (if String.eqb f EmptyString then quote_field f else write_field f) +:+ crlf
  | _ => join_fields fs +:+ crlf
  end.

Definition writerows (rs : list (list string)) : string :=
  foldr (fun r acc => writerow r +:+ acc) EmptyString rs.

(** ** The reader *)

Inductive rstate :=
  | SRec     (** at the start of a record *)
  | SFld     (** at the start of a field after a delimiter *)
  | SUnq     (** in an unquoted field *)
  | SQuo     (** in a quoted field *)
  | SQQ      (** after a quote in a quoted field *)
  | SCR.     (** after the CR that ended a record *)

(** [read_go st fld row s]: the records of [s], read in state [st] with
    the field [fld] and the fields [row] of the current record read so
    far. *)
Fixpoint read_go (st : rstate) (fld : string) (row : list string) (s : string) : list (list string) :=
  match s with
  | EmptyString =>
      match st with
      | SRec | SCR => []
      | SFld => [row ++ [EmptyString]]
      | SUnq | SQuo | SQQ => [row ++ [fld]]
      end
  | String c s' =>
      match st with
      | SRec | SCR =>
          if (match st with SCR => true | _ => false end) && Ascii.eqb c lf
          then read_go SRec EmptyString [] s'
          else if Ascii.eqb c dq then read_go SQuo EmptyString row s'
          else if Ascii.eqb c comma then read_go SFld EmptyString (row ++ [EmptyString]) s'
          else if Ascii.eqb c cr then [] :: read_go SCR EmptyString [] s'
          else if Ascii.eqb c lf then [] :: read_go SRec EmptyString [] s'
          else read_go SUnq (String c EmptyString) row s'
      | SFld =>
          if Ascii.eqb c dq then read_go SQuo EmptyString row s'
          else if Ascii.eqb c comma then read_go SFld EmptyString (row ++ [EmptyString]) s'
          else if Ascii.eqb c cr then (row ++ [EmptyString]) :: read_go SCR EmptyString [] s'
          else if Ascii.eqb c lf then (row ++ [EmptyString]) :: read_go SRec EmptyString [] s'
          else read_go SUnq (String c EmptyString) row s'
      | SUnq =>
          if Ascii.eqb c comma then read_go SFld EmptyString (row ++ [fld]) s'
          else if Ascii.eqb c cr then (row ++ [fld]) :: read_go SCR EmptyString [] s'
          else if Ascii.eqb c lf then (row ++ [fld]) :: read_go SRec EmptyString [] s'
          else read_go SUnq (fld +:+ String c EmptyString) row s'
      | SQuo =>
          if Ascii.eqb c dq then read_go SQQ fld row s'
          else read_go SQuo (fld +:+ String c EmptyString) row s'
      | SQQ =>
          if Ascii.eqb c dq then read_go SQuo (fld +:+ String dq EmptyString) row s'
          else if Ascii.eqb c comma then read_go SFld EmptyString (row ++ [fld]) s'
          else if Ascii.eqb c cr then (row ++ [fld]) :: read_go SCR EmptyString [] s'
          else if Ascii.eqb c lf then (row ++ [fld]) :: read_go SRec EmptyString [] s'
          else read_go SUnq (fld +:+ String c EmptyString) row s'
      end
  end.

Definition read (s : string) : list (list string) := read_go SRec EmptyString [] s.

(** ** Lemmas *)

Lemma special_spec (c : ascii) :
  special c = false -> c <> comma /\ c <> dq /\ c <> cr /\ c <> lf.
Proof.
  unfold special. intros H. repeat (apply orb_false_elim in H as [H ?%Ascii.eqb_neq]).
  apply Ascii.eqb_neq in H. auto.
Qed.

(** The reader's step on a character that is none of the four special
    ones, by the state it is in. *)
Lemma read_go_plain_char (st : rstate) (c : ascii) fld row s :
  special c = false ->
  read_go st fld row (String c s) =
    match st with
    | SRec | SCR | SFld => read_go SUnq (String c EmptyString) row s
    | SUnq | SQQ => read_go SUnq (fld +:+ String c EmptyString) row s
    | SQuo => read_go SQuo (fld +:+ String c EmptyString) row s
    end.
Proof.
  intros (H1 & H2 & H3 & H4)%special_spec. apply Ascii.eqb_neq in H1, H2, H3, H4.
  destruct st; simpl; rewrite ?H1, ?H2, ?H3, ?H4, ?andb_false_r; reflexivity.
Qed.

(** An unquoted field is read character by character. *)
Lemma read_plain (f fld : string) row w :
  plain f = true -> read_go SUnq fld row (f +:+ w) = read_go SUnq (fld +:+ f) row w.
Proof.
  revert fld. induction f as [|a f IH]; intros fld Hp.
  - by rewrite sapp_nil_l, sapp_nil_r.
  - simpl in Hp. apply andb_prop in Hp as [Ha Hp]. apply negb_true_iff in Ha.
    rewrite sapp_cons, read_go_plain_char by done. rewrite IH by done.
    by rewrite <- sapp_assoc, sapp_cons, sapp_nil_l.
Qed.

(** A quoted field is read back with its doubled quotes undone. *)
Lemma read_quoted (f fld : string) row w :
  read_go SQuo fld row (double_quotes f +:+ String dq w) = read_go SQQ (fld +:+ f) row w.
Proof.
  revert fld. induction f as [|a f IH]; intros fld.
  - rewrite sapp_nil_l, sapp_nil_r. reflexivity.
  - simpl. destruct (Ascii.eqb a dq) eqn:E.
    + apply Ascii.eqb_eq in E as ->. rewrite !sapp_cons. simpl. rewrite IH.
      by rewrite <- sapp_assoc, sapp_cons, sapp_nil_l.
    + rewrite sapp_cons. simpl. rewrite E. rewrite IH.
      by rewrite <- sapp_assoc, sapp_cons, sapp_nil_l.
Qed.

Lemma read_qq_unq fld row (c : ascii) w :
  c <> dq -> read_go SQQ fld row (String c w) = read_go SUnq fld row (String c w).
Proof. intros Hc. apply Ascii.eqb_neq in Hc. simpl. rewrite Hc. reflexivity. Qed.

(** Reading one written field from the start of a field ends in the
    state of an unquoted field holding the field's text, when the field
    is followed by a delimiter or a CR. *)
Lemma read_field (st : rstate) (f : string) row (c : ascii) w :
  st = SRec \/ st = SFld -> c = comma \/ c = cr ->
  (st = SFld \/ c = comma \/ f <> EmptyString \/ plain f = false) ->
  read_go st EmptyString row (write_field f +:+ String c w) = read_go SUnq f row (String c w).
Proof.
  intros Hst Hc Hne. unfold write_field. destruct (plain f) eqn:Hp.
  - destruct f as [|a f].
    + rewrite sapp_nil_l. destruct Hst as [-> | ->], Hc as [-> | ->]; try reflexivity.
      destruct Hne as [? | [? | [? | ?]]]; [discriminate | discriminate | done | discriminate].
    + simpl in Hp. apply andb_prop in Hp as [Ha Hp']. apply negb_true_iff in Ha.
      destruct Hst as [-> | ->]; rewrite sapp_cons, read_go_plain_char, read_plain by done;
        reflexivity.
  - unfold quote_field. rewrite sapp_cons, <- sapp_assoc, sapp_cons, sapp_nil_l.
    replace (read_go st EmptyString row (String dq (double_quotes f +:+ String dq (String c w))))
      with (read_go SQuo EmptyString row (double_quotes f +:+ String dq (String c w)))
      by (destruct Hst as [-> | ->]; reflexivity).
    rewrite read_quoted, sapp_nil_l. apply read_qq_unq.
    destruct Hc as [-> | ->]; discriminate.
Qed.

(** A written record is read back as its fields. *)
Lemma read_join (fs : list string) (st : rstate) row w :
  fs <> [] -> st = SRec \/ st = SFld -> (st = SFld \/ fs <> [EmptyString]) ->
  read_go st EmptyString row (join_fields fs +:+ crlf +:+ w) = (row ++ fs) :: read_go SRec EmptyString [] w.
Proof.
  revert st row. induction fs as [|f fs IH]; intros st row Hne Hst Hone; [done|].
  destruct fs as [|f' fs].
  - simpl join_fields. unfold crlf. rewrite !sapp_cons, sapp_nil_l, read_field; [done | done | by right |].
    destruct Hst as [-> | ->]; [|auto]. destruct Hone as [? | Hf]; [discriminate|].
    destruct (plain f); [|auto]. right; right; left. congruence.
  - change (join_fields (f :: f' :: fs)) with (write_field f +:+ String comma (join_fields (f' :: fs))).
    rewrite <- sapp_assoc, sapp_cons, read_field by auto. simpl. rewrite IH by auto.
    by rewrite <- app_assoc.
Qed.

Lemma read_writerow (r : list string) w :
  read_go SRec EmptyString [] (writerow r +:+ w) = r :: read_go SRec EmptyString [] w.
Proof.
  destruct r as [|f [|f' fs]].
  - reflexivity.
  - unfold writerow. destruct (String.eqb_spec f EmptyString) as [->|Hf]; [reflexivity|].
    rewrite <- sapp_assoc. change (write_field f) with (join_fields [f]).
    rewrite read_join; [done | discriminate | by left | right; congruence].
  - unfold writerow. rewrite <- sapp_assoc, read_join; [done | discriminate | by left | by right].
Qed.

Lemma csv_roundtrip_lemma (rs : list (list string)) : read (writerows rs) = rs.
Proof.
  unfold read. induction rs as [|r rs IH]; [reflexivity|].
  simpl writerows. rewrite read_writerow, IH. reflexivity.
Qed.

(** ** Theorems *)

(** C7: what [writer.writerows] writes reads back, under RFC 4180, as
    the rows written: every row, every field, whatever characters the
    fields hold (delimiters, quotes, line breaks, empty fields). *)
Theorem csv_roundtrip (rs : list (list string)) : read (writerows rs) = rs.
Proof. apply csv_roundtrip_lemma. Qed.

End Csv.
