(* ===== verification/Table.v ===== *)
(** * An SQLite table with [INTEGER PRIMARY KEY AUTOINCREMENT]

    Each of the four tables that [setup_database] creates
    (src/programa_hospital.py, lines 14-37) has an [id INTEGER PRIMARY KEY
    AUTOINCREMENT] column.  Such a table is a rowid table: its rows are kept
    in increasing rowid order, a full scan ([SELECT * FROM t]) returns them
    in that order, and the largest rowid ever used is remembered in
    [sqlite_sequence], so that a deleted id is never given out again.  A new
    rowid is one more than the larger of that counter and the largest
    rowid present; when that would pass [2^63 - 1] the insert fails with
    [SQLITE_FULL], which [sqlite3] raises as an [OperationalError].

    [table R] holds the rows as an association list in storage order and
    the [sqlite_sequence] counter.  The abstract specification is a finite
    map from ids to rows with the counter ([astore]); [abs] maps a table to
    it.  Every operation the program uses implements the corresponding map
    operation: delete, update and the scans by the lemmas [delete_abs],
    [update_abs] and [select_spec], the insert (the one operation whose
    result depends on the counter) by the theorem [insert_refines].  The invariant [table_wf] (ids
    strictly increasing, between 1 and the counter, the counter within
    range) holds of the empty table and is preserved by every operation.
    [tequiv] relates tables with the same abstract store; it is an
    equivalence that delete, update and lookup respect ([Proper]
    instances), so results can be compared by setoid rewriting; deleting
    a row makes an update of it, before or after, invisible. *)

From Stdlib Require Import Sorted.
From S2P Require Import Prelude.

Module Table.

Local Open Scope Z_scope.

(** The largest rowid, [2^63 - 1]. *)
Definition max_rowid : Z := 2 ^ 63 - 1.

Record table (R : Type) := mk_table {
  rows : list (Z * R);   (** the rows, in rowid order *)
  seq : Z                (** the [sqlite_sequence] entry of the table *)
}.
Arguments mk_table {R} rows seq.
Arguments rows {R} t.
Arguments seq {R} t.

(** The abstract store: which id holds which row, and the counter. *)
Record astore (R : Type) := mk_astore {
  amap : gmap Z R;
  aseq : Z
}.
Arguments mk_astore {R} amap aseq.
Arguments amap {R} a.
Arguments aseq {R} a.

Section Ops.
Context {R : Type}.

(** [CREATE TABLE]: no row, no [sqlite_sequence] entry yet. *)
Definition empty_table : table R := mk_table [] 0.

Definition keys (t : table R) : list Z := (rows t).*1.

Definition max_key (ks : list Z) : Z := foldr Z.max 0 ks.

(** [INSERT INTO t (...) VALUES (...)]: the new rowid and the table. *)
Definition insert (r : R) (t : table R) : py (Z * table R) :=
  let base := Z.max (seq t) (max_key (keys t)) in
  if base <? max_rowid
  then PyOk (base + 1, mk_table (rows t ++ [(base + 1, r)]) (base + 1))
  else PyRaise (OperationalError "database or disk is full").

(** [SELECT * FROM t]: a full scan, in rowid order. *)
Definition select_all (t : table R) : list (Z * R) := rows t.

Fixpoint lookup_rows (i : Z) (rs : list (Z * R)) : option R :=
  match rs with
  | [] => None
  | (k, r) :: rs' => if decide (k = i) then Some r else lookup_rows i rs'
  end.

(** [SELECT * FROM t WHERE id = ?] and [fetchone()]. *)
Definition select_by_id (i : Z) (t : table R) : option R := lookup_rows i (rows t).

(** [SELECT * FROM t WHERE <p>]. *)
Definition select_where (p : R -> bool) (t : table R) : list (Z * R) :=
  filter (fun kr => p kr.2 = true) (rows t).

(** [UPDATE t SET ... WHERE id = ?]: a full overwrite of the matching row;
    no row matches an absent id and nothing changes. *)
Definition update_by_id (i : Z) (f : R -> R) (t : table R) : table R :=
  mk_table (map (fun kr => if decide (kr.1 = i) then (kr.1, f kr.2) else kr) (rows t)) (seq t).

(** [DELETE FROM t WHERE id = ?]; the counter is kept. *)
Definition delete_by_id (i : Z) (t : table R) : table R :=
  mk_table (filter (fun kr => kr.1 <> i) (rows t)) (seq t).

(** ** Abstract specification *)

Definition abs (t : table R) : astore R := mk_astore (list_to_map (rows t)) (seq t).

Definition ainsert (r : R) (a : astore R) : option (Z * astore R) :=
  if aseq a <? max_rowid
  then Some (aseq a + 1, mk_astore (<[aseq a + 1 := r]> (amap a)) (aseq a + 1))
  else None.

Definition adelete (i : Z) (a : astore R) : astore R := mk_astore (delete i (amap a)) (aseq a).

Definition aupdate (i : Z) (f : R -> R) (a : astore R) : astore R :=
  mk_astore (alter f i (amap a)) (aseq a).

(** Two tables are equivalent when they refine the same abstract store:
    the same row under each id and the same counter, whatever the order
    of their rows. *)
Definition tequiv (t1 t2 : table R) : Prop := abs t1 = abs t2.

(** ** Invariant *)

Record table_wf (t : table R) : Prop := {
  wf_sorted : StronglySorted Z.lt (keys t);
  wf_range : Forall (fun k => 1 <= k <= seq t) (keys t);
  wf_seq : 0 <= seq t <= max_rowid
}.

(** An operation of the program on one table, labelled with the id an
    insert hands out. *)
Inductive top :=
  | TInsert (r : R)
  | TDelete (i : Z)
  | TUpdate (i : Z) (f : R -> R).

Definition apply_top (o : top) (t : table R) : py (option Z * table R) :=
  match o with
  | TInsert r => (fun '(i, t') => (Some i, t')) <$> insert r t
  | TDelete i => PyOk (None, delete_by_id i t)
  | TUpdate i f => PyOk (None, update_by_id i f t)
  end.

(** [run t ids t']: a sequence of operations that succeed leads from [t] to
    [t'] and the inserts among them hand out [ids], in order. *)
Inductive run : table R -> list Z -> table R -> Prop :=
  | run_nil t : run t [] t
  | run_step t o l t' ids t'' :
      apply_top o t = PyOk (l, t') -> run t' ids t'' ->
      run t (option_list l ++ ids) t''.

(** Every row of [t] satisfies [P]. *)
Definition rows_satisfy (P : R -> Prop) (t : table R) : Prop := Forall (fun kr => P kr.2) (rows t).

(** ** Lemmas *)

Lemma lookup_rows_map (i : Z) (rs : list (Z * R)) :
  lookup_rows i rs = (list_to_map rs : gmap Z R) !! i.
Proof.
  induction rs as [|[k r] rs IH]; simpl; [done|].
  case_decide; subst; [by rewrite lookup_insert_eq | by rewrite lookup_insert_ne].
Qed.

Lemma max_key_le (ks : list Z) (s : Z) :
  0 <= s -> Forall (fun k => k <= s) ks -> max_key ks <= s.
Proof. intros Hs. induction 1; simpl; lia. Qed.

Lemma StronglySorted_snoc (l : list Z) (x : Z) :
  StronglySorted Z.lt l -> Forall (fun y => y < x) l -> StronglySorted Z.lt (l ++ [x]).
Proof.
  induction 1 as [|a l Hl IH Ha]; intros Hx; simpl.
  - repeat constructor.
  - inversion Hx; subst. constructor; [by apply IH|].
    apply Forall_app. split; [done|]. by repeat constructor.
Qed.

Lemma keys_filter_sub (P : Z * R -> Prop) `{!forall x, Decision (P x)} (rs : list (Z * R)) (Q : Z -> Prop) :
  Forall Q rs.*1 -> Forall Q (filter P rs).*1.
Proof. rewrite !Forall_fmap. apply Forall_filter_sub. Qed.

Lemma StronglySorted_filter (P : Z * R -> Prop) `{!forall x, Decision (P x)} (rs : list (Z * R)) :
  StronglySorted Z.lt rs.*1 -> StronglySorted Z.lt (filter P rs).*1.
Proof.
  induction rs as [|[k r] rs IH]; simpl; [done|]. intros Hs. inversion Hs as [|? ? Hs' Hk]; subst.
  rewrite filter_cons. case_decide; simpl; [|by apply IH].
  constructor; [by apply IH | by apply keys_filter_sub].
Qed.

Lemma keys_update (i : Z) (f : R -> R) (rs : list (Z * R)) :
  (map (fun kr => if decide (kr.1 = i) then (kr.1, f kr.2) else kr) rs).*1 = rs.*1.
Proof. induction rs as [|[k r] rs IH]; [done|]. rewrite map_cons, !fmap_cons, IH. simpl. by case_decide. Qed.

Lemma insert_rows (r : R) (t t' : table R) (i : Z) :
  insert r t = PyOk (i, t') -> rows t' = rows t ++ [(i, r)] /\ seq t' = i.
Proof. unfold insert. case_match; [|discriminate]. by intros [= <- <-]. Qed.

Lemma insert_satisfy (P : R -> Prop) (r : R) (t t' : table R) (i : Z) :
  rows_satisfy P t -> P r -> insert r t = PyOk (i, t') -> rows_satisfy P t'.
Proof.
  intros Ht Hr (Hrows & _)%insert_rows. unfold rows_satisfy. rewrite Hrows.
  apply Forall_app. split; [done|]. by repeat constructor.
Qed.

Lemma delete_satisfy (P : R -> Prop) (i : Z) (t : table R) :
  rows_satisfy P t -> rows_satisfy P (delete_by_id i t).
Proof. apply Forall_filter_sub. Qed.

Lemma update_satisfy (P : R -> Prop) (i : Z) (r : R) (t : table R) :
  rows_satisfy P t -> P r -> rows_satisfy P (update_by_id i (fun _ => r) t).
Proof.
  unfold rows_satisfy, update_by_id. simpl. intros Ht Hr. apply Forall_map.
  eapply Forall_impl; [exact Ht|]. intros [k r'] ?. simpl. by case_decide.
Qed.

Lemma select_by_id_satisfy (P : R -> Prop) (i : Z) (r : R) (t : table R) :
  rows_satisfy P t -> select_by_id i t = Some r -> P r.
Proof.
  unfold rows_satisfy, select_by_id. induction (rows t) as [|[k r'] rs IH]; simpl; [done|].
  intros Hf. inversion Hf; subst. case_decide; [by intros [= <-] | auto].
Qed.

Lemma select_by_id_range (i : Z) (r : R) (t : table R) :
  table_wf t -> select_by_id i t = Some r -> 1 <= i <= seq t.
Proof.
  intros [_ Hr _]. unfold keys, select_by_id in *. induction (rows t) as [|[k r'] rs IH];
    simpl in *; [done|].
  inversion Hr; subst. case_decide; [subst; by intros _ | auto].
Qed.

Lemma insert_base (t : table R) : table_wf t -> Z.max (seq t) (max_key (keys t)) = seq t.
Proof.
  intros [_ Hr Hs]. apply Z.max_l, max_key_le; [lia|].
  eapply Forall_impl; [exact Hr|]. simpl. lia.
Qed.

Lemma insert_spec (r : R) (t : table R) :
  table_wf t ->
  insert r t =
  if seq t <? max_rowid
  then PyOk (seq t + 1, mk_table (rows t ++ [(seq t + 1, r)]) (seq t + 1))
  else PyRaise (OperationalError "database or disk is full").
Proof. intros Hwf. unfold insert. by rewrite insert_base. Qed.

Lemma keys_lt_fresh (t : table R) : table_wf t -> Forall (fun k => k < seq t + 1) (keys t).
Proof. intros [_ Hr _]. eapply Forall_impl; [exact Hr|]. simpl. lia. Qed.

Lemma fresh_not_key (t : table R) : table_wf t -> seq t + 1 ∉ keys t.
Proof.
  intros Hwf Hin. pose proof (keys_lt_fresh t Hwf) as H.
  rewrite Forall_forall in H. specialize (H _ Hin). lia.
Qed.

Lemma insert_ok_inv (r : R) (t t' : table R) (i : Z) :
  table_wf t -> insert r t = PyOk (i, t') ->
  seq t < max_rowid /\ i = seq t + 1 /\ t' = mk_table (rows t ++ [(i, r)]) i.
Proof.
  intros Hwf. rewrite insert_spec by done.
  destruct (seq t <? max_rowid) eqn:E; [|discriminate]. apply Z.ltb_lt in E.
  intros [= <- <-]. auto.
Qed.

Lemma insert_wf (r : R) (t t' : table R) (i : Z) :
  table_wf t -> insert r t = PyOk (i, t') -> table_wf t'.
Proof.
  intros Hwf Hins. destruct (insert_ok_inv r t t' i Hwf Hins) as (Hlt & -> & ->).
  pose proof (keys_lt_fresh t Hwf) as Hf.
  pose proof Hwf as [Hs Hr Hq]. unfold keys in *. split; unfold keys; simpl; rewrite ?fmap_app; simpl.
  - by apply StronglySorted_snoc.
  - apply Forall_app. split; [|repeat constructor; lia].
    eapply Forall_impl; [exact Hr|]. simpl. lia.
  - lia.
Qed.

Lemma delete_wf (i : Z) (t : table R) : table_wf t -> table_wf (delete_by_id i t).
Proof.
  intros [Hs Hr Hq]. unfold keys in *. split; unfold keys; simpl.
  - by apply StronglySorted_filter.
  - by apply keys_filter_sub.
  - done.
Qed.

Lemma update_wf (i : Z) (f : R -> R) (t : table R) : table_wf t -> table_wf (update_by_id i f t).
Proof. intros [Hs Hr Hq]. unfold keys in *. split; unfold keys; simpl; rewrite ?keys_update; done. Qed.

Lemma empty_wf : table_wf empty_table.
Proof. split; simpl; [constructor | constructor | unfold max_rowid; lia]. Qed.

(** One operation keeps the invariant, never lowers the counter, and an
    insert hands out an id above the old counter, which becomes the new
    counter. *)
Lemma apply_top_spec (o : top) (t t' : table R) (l : option Z) :
  table_wf t -> apply_top o t = PyOk (l, t') ->
  table_wf t' /\ seq t <= seq t' /\ Forall (fun i => seq t < i /\ i = seq t') (option_list l).
Proof.
  intros Hwf. destruct o as [r|i|i f]; simpl.
  - destruct (insert r t) as [[i t1]|e] eqn:Hins; [|discriminate]. intros [= <- <-].
    destruct (insert_ok_inv r t t1 i Hwf Hins) as (Hlt & -> & ->).
    split; [by eapply insert_wf|]. simpl. split; [lia|]. repeat constructor; lia.
  - intros [= <- <-]. split; [by apply delete_wf|]. simpl. split; [lia | constructor].
  - intros [= <- <-]. split; [by apply update_wf|]. simpl. split; [lia | constructor].
Qed.

Lemma list_to_map_filter_ne (i : Z) (rs : list (Z * R)) :
  (list_to_map (filter (fun kr => kr.1 <> i) rs) : gmap Z R) = delete i (list_to_map rs).
Proof.
  induction rs as [|[k r] rs IH]; simpl.
  - by rewrite delete_empty.
  - rewrite filter_cons. simpl. case_decide as Hk; simpl.
    + rewrite IH. by rewrite delete_insert_ne.
    + assert (k = i) as -> by (destruct (decide (k = i)); naive_solver).
      by rewrite IH, delete_insert_eq.
Qed.

Lemma list_to_map_update (i : Z) (f : R -> R) (rs : list (Z * R)) :
  (list_to_map (map (fun kr => if decide (kr.1 = i) then (kr.1, f kr.2) else kr) rs) : gmap Z R)
  = alter f i (list_to_map rs).
Proof.
  induction rs as [|[k r] rs IH]; simpl.
  - by rewrite alter_empty.
  - rewrite IH. apply map_eq. intros j. case_decide as Hk; simpl in *; [subst k|].
    + destruct (decide (i = j)) as [->|Hij]; by simplify_map_eq.
    + destruct (decide (k = j)) as [->|Hkj]; [by simplify_map_eq|].
      destruct (decide (i = j)) as [->|Hij]; by simplify_map_eq.
Qed.

Lemma run_seq_mono (t t' : table R) (ids : list Z) :
  run t ids t' -> table_wf t -> seq t <= seq t' /\ table_wf t'.
Proof.
  induction 1 as [t|t o l t1 ids t2 Hstep _ IH]; intros Hwf; [split; [lia|done]|].
  destruct (apply_top_spec o t t1 l Hwf Hstep) as (Hwf1 & Hle & _).
  destruct (IH Hwf1). split; [lia|done].
Qed.

Lemma delete_abs (i : Z) (t : table R) : abs (delete_by_id i t) = adelete i (abs t).
Proof. unfold abs, adelete. simpl. f_equal. apply list_to_map_filter_ne. Qed.

Lemma update_abs (i : Z) (f : R -> R) (t : table R) :
  abs (update_by_id i f t) = aupdate i f (abs t).
Proof. unfold abs, aupdate. simpl. f_equal. apply list_to_map_update. Qed.

(** [tequiv] is an equivalence, and the statements the handlers run
    respect it. *)
#[global] Instance tequiv_equivalence : Equivalence tequiv.
Proof. unfold tequiv. split; [done | by intros ?? | by intros ??? -> ->]. Qed.

#[global] Instance delete_by_id_proper (i : Z) : Proper (tequiv ==> tequiv) (delete_by_id i).
Proof. intros t1 t2 H. unfold tequiv in *. by rewrite !delete_abs, H. Qed.

#[global] Instance update_by_id_proper (i : Z) (f : R -> R) : Proper (tequiv ==> tequiv) (update_by_id i f).
Proof. intros t1 t2 H. unfold tequiv in *. by rewrite !update_abs, H. Qed.

#[global] Instance select_by_id_proper (i : Z) : Proper (tequiv ==> eq) (select_by_id i).
Proof.
  intros t1 t2 H. unfold tequiv, abs in H. injection H as Hm _.
  unfold select_by_id. by rewrite !lookup_rows_map, Hm.
Qed.

(** Deleting a row makes an earlier update of it, or a later one,
    invisible. *)
Lemma delete_update_tequiv (i : Z) (f : R -> R) (t : table R) :
  tequiv (delete_by_id i (update_by_id i f t)) (delete_by_id i t).
Proof. unfold tequiv. rewrite !delete_abs, update_abs. unfold adelete, aupdate. simpl. by rewrite delete_alter_eq. Qed.

Lemma update_delete_tequiv (i : Z) (f : R -> R) (t : table R) :
  tequiv (update_by_id i f (delete_by_id i t)) (delete_by_id i t).
Proof. unfold tequiv. rewrite update_abs, delete_abs. unfold adelete, aupdate. simpl. by rewrite alter_delete_eq. Qed.

Lemma abs_eq (t t' : table R) :
  list_to_map (rows t') = (list_to_map (rows t) : gmap Z R) -> seq t' = seq t -> abs t' = abs t.
Proof. unfold abs. by intros -> ->. Qed.

Lemma update_abs_same (i : Z) (r : R) (t : table R) :
  select_by_id i t = Some r -> abs (update_by_id i (fun _ => r) t) = abs t.
Proof.
  unfold select_by_id. rewrite lookup_rows_map. intros Hr. apply abs_eq; [|done].
  unfold update_by_id. cbn [rows].
  etransitivity; [exact (list_to_map_update i (fun _ => r) (rows t))|]. apply alter_id. intros x Hx. congruence.
Qed.

Lemma update_abs_absent (i : Z) (f : R -> R) (t : table R) :
  select_by_id i t = None -> abs (update_by_id i f t) = abs t.
Proof.
  unfold select_by_id. rewrite lookup_rows_map. intros Hr. apply abs_eq; [|done].
  unfold update_by_id. cbn [rows]. rewrite list_to_map_update. apply alter_id. intros x Hx. congruence.
Qed.

Lemma delete_abs_absent (i : Z) (t : table R) :
  select_by_id i t = None -> abs (delete_by_id i t) = abs t.
Proof.
  unfold select_by_id. rewrite lookup_rows_map. intros Hr. apply abs_eq; [|done].
  unfold delete_by_id. cbn [rows]. rewrite list_to_map_filter_ne. by apply delete_id.
Qed.

Lemma select_delete (i j : Z) (t : table R) :
  select_by_id j (delete_by_id i t) = if decide (j = i) then None else select_by_id j t.
Proof.
  unfold select_by_id, delete_by_id. rewrite !lookup_rows_map. cbn [rows]. rewrite list_to_map_filter_ne.
  case_decide; subst; [apply lookup_delete_eq | by apply lookup_delete_ne].
Qed.

Lemma StronglySorted_NoDup (l : list Z) : StronglySorted Z.lt l -> NoDup l.
Proof.
  induction 1 as [|a l _ IH Ha]; [constructor|]. apply NoDup_cons_2; [|done].
  intros Hin. rewrite Forall_forall in Ha. specialize (Ha a Hin). lia.
Qed.

Lemma Forall_lt_StronglySorted (a : Z) (l : list Z) :
  StronglySorted Z.lt l -> Forall (fun i => a < i) l -> StronglySorted Z.lt (a :: l).
Proof. by constructor. Qed.

Lemma select_spec (t : table R) :
  table_wf t ->
  (forall i, select_by_id i t = amap (abs t) !! i) /\
  StronglySorted Z.lt (select_all t).*1 /\
  (forall i r, (i, r) ∈ select_all t <-> amap (abs t) !! i = Some r).
Proof.
  intros Hwf. split; [intros i; apply lookup_rows_map|]. split; [apply Hwf|].
  intros i r. apply elem_of_list_to_map, StronglySorted_NoDup, Hwf.
Qed.

(** ** Theorems *)

(** C14: [INSERT] refines the abstract store: on a well-formed table it
    hands out the id [sqlite_sequence + 1] and stores the row under it, or
    fails exactly when the abstract insert has no id left. *)
Theorem insert_refines (r : R) (t : table R) :
  table_wf t -> prod_map id abs <$> to_option (insert r t) = ainsert r (abs t).
Proof.
  intros Hwf. rewrite insert_spec by done. unfold ainsert. simpl.
  destruct (seq t <? max_rowid); simpl; [|done].
  unfold abs. simpl. do 3 f_equal. apply list_to_map_snoc, fresh_not_key, Hwf.
Qed.

(** C13: AUTOINCREMENT never reuses an id: along any sequence of inserts,
    updates and deletes from a well-formed table, the ids handed out are
    strictly increasing and above the counter (so above every id the table
    ever held, deleted ones included), and the table stays well formed. *)
Theorem run_ids_fresh (t t' : table R) (ids : list Z) :
  run t ids t' -> table_wf t ->
  StronglySorted Z.lt ids /\ Forall (fun i => seq t < i <= seq t') ids /\ table_wf t'.
Proof.
  induction 1 as [t|t o l t1 ids t2 Hstep Hrun IH]; intros Hwf.
  - split; [constructor|]. split; [constructor | done].
  - destruct (apply_top_spec o t t1 l Hwf Hstep) as (Hwf1 & Hle & Hl).
    destruct (IH Hwf1) as (Hs & Hf & Hwf2). split; [|split; [|done]].
    + destruct l as [i|]; simpl in *; [|done]. inversion Hl as [|? ? [Hi ->] _]; subst.
      apply Forall_lt_StronglySorted; [done|]. eapply Forall_impl; [exact Hf|]. simpl. lia.
    + destruct (run_seq_mono _ _ _ Hrun Hwf1) as [Hle2 _]. apply Forall_app. split.
      * eapply Forall_impl; [exact Hl|]. simpl. lia.
      * eapply Forall_impl; [exact Hf|]. simpl. lia.
Qed.

(** C33: an insert into a well-formed table fails with [SQLITE_FULL]
    exactly when the counter has reached [2^63 - 1]. *)
Theorem insert_full (r : R) (t : table R) :
  table_wf t -> (to_option (insert r t) = None <-> seq t = max_rowid).
Proof.
  intros Hwf. pose proof (wf_seq t Hwf). rewrite insert_spec by done.
  destruct (seq t <? max_rowid) eqn:E; simpl; split; try done.
  - apply Z.ltb_lt in E. lia.
  - apply Z.ltb_ge in E. lia.
Qed.

End Ops.

(** ** Witnesses *)

Ltac solve_table_wf :=
  split; unfold keys, max_rowid; cbn; repeat constructor; lia.

Lemma insert_refines_witness :
  prod_map id abs <$> to_option (insert 40 (mk_table [(1, 10); (3, 30)] 5)) =
  ainsert 40 (abs (mk_table [(1, 10); (3, 30)] 5)).
Proof. apply insert_refines. solve_table_wf. Defined.

Lemma run_ids_fresh_witness :
  StronglySorted Z.lt [1; 2] /\
  Forall (fun i => seq (@empty_table Z) < i <= seq (mk_table [(2, 20)] 2)) [1; 2] /\
  table_wf (mk_table [(2, 20)] 2).
Proof.
  apply (run_ids_fresh empty_table (mk_table [(2, 20)] 2) [1; 2]); [|solve_table_wf].
  change [1; 2] with (option_list (Some 1) ++ option_list None ++ option_list (Some 2) ++ []).
  eapply (run_step _ (TInsert 10)); [reflexivity|].
  eapply (run_step _ (TDelete 1)); [reflexivity|].
  eapply (run_step _ (TInsert 20)); [reflexivity|].
  vm_compute. constructor.
Defined.

Lemma insert_full_witness :
  to_option (insert 7 (mk_table [] max_rowid)) = None <-> seq (mk_table (R:=Z) [] max_rowid) = max_rowid.
Proof. apply insert_full. solve_table_wf. Defined.

End Table.
