(* ===== verification/Db.v ===== *)
(** * The database file [hospital.db]: schema, setup and the joins

    [setup_database] (src/programa_hospital.py, lines 11-43) creates the four
    tables [patients], [doctors], [appointments] and [users] if they do not
    exist and inserts the user [admin]/[admin] when [users] is empty.  The
    state of the file is [option db]: [None] before the first run (then
    [sqlite3.connect] creates an empty database), [Some d] afterwards.  A
    database is the record of its four tables ([Table.table]), each row a
    record with the columns of the [CREATE TABLE] statement.

    The appointment list of [view_appointments] (lines 779-789) and of
    [export_appointments_to_csv] (lines 80-89) is an inner join of
    [appointments] with [patients] and [doctors] on the ids; it is modelled
    as a scan of [appointments] in id order with a primary-key lookup of
    each reference (the nested-loop plan SQLite chooses for it).

    Values bound to a statement go through [sqlite3]'s parameter binding:
    a Python [int] outside the 64-bit range raises [OverflowError]
    ([bind_int]).

    Theorems: [setup_database] is idempotent, seeds [admin] exactly once
    and yields well-formed tables; the join lists exactly the appointments
    whose patient and doctor both exist. *)

From S2P Require Import Prelude Table.

Module Db.

Local Open Scope Z_scope.

(** ** Rows *)

Record patient := mk_patient {
  p_name : string; p_age : Z; p_address : string; p_contact : string }.

Record doctor := mk_doctor {
  d_name : string; d_specialty : string; d_schedule : string }.

Record appointment := mk_appointment {
  a_patient_id : Z; a_doctor_id : Z; a_date : string; a_time : string }.

Record user := mk_user { u_username : string; u_password : string }.

Record db := mk_db {
  patients : Table.table patient;
  doctors : Table.table doctor;
  appointments : Table.table appointment;
  users : Table.table user }.

Definition set_patients (t : Table.table patient) (d : db) : db :=
  mk_db t (doctors d) (appointments d) (users d).
Definition set_doctors (t : Table.table doctor) (d : db) : db :=
  mk_db (patients d) t (appointments d) (users d).
Definition set_appointments (t : Table.table appointment) (d : db) : db :=
  mk_db (patients d) (doctors d) t (users d).
Definition set_users (t : Table.table user) (d : db) : db :=
  mk_db (patients d) (doctors d) (appointments d) t.

(** ** Parameter binding *)

(** [sqlite3] binds a Python [int] with [sqlite3_bind_int64]; one outside
    [-2^63, 2^63) raises [OverflowError]. *)
Definition bind_int (n : Z) : py Z :=
  if (- 2 ^ 63 <=? n) && (n <? 2 ^ 63) then PyOk n
  else PyRaise (OverflowError "Python int too large to convert to SQLite INTEGER").

(** ** [setup_database] *)

(** The four [CREATE TABLE IF NOT EXISTS] statements: a new file gets four
    empty tables, an existing one is left as it is. *)
Definition create_tables (f : option db) : db :=
  match f with
  | Some d => d
  | None => mk_db Table.empty_table Table.empty_table Table.empty_table Table.empty_table
  end.

Definition admin : user := mk_user "admin" "admin".

Definition setup_database (f : option db) : py db :=
  let d := create_tables f in
  match Table.select_all (users d) with
  | [] => (fun '(_, us) => set_users us d) <$> Table.insert admin (users d)
  | _ :: _ => PyOk d
  end.

(** ** Well-formed databases *)

Record db_wf (d : db) : Prop := {
  wf_patients : Table.table_wf (patients d);
  wf_doctors : Table.table_wf (doctors d);
  wf_appointments : Table.table_wf (appointments d);
  wf_users : Table.table_wf (users d) }.

(** ** The appointment join *)

(** A row of the join: the appointment's id, the patient's and the
    doctor's names, the date and the time. *)
Record appt_row := mk_appt_row {
  r_id : Z; r_patient : string; r_doctor : string; r_date : string; r_time : string }.

Definition join_row (d : db) (ia : Z * appointment) : option appt_row :=
  let '(i, a) := ia in
  p ← Table.select_by_id (a_patient_id a) (patients d);
  dr ← Table.select_by_id (a_doctor_id a) (doctors d);
  Some (mk_appt_row i (p_name p) (d_name dr) (a_date a) (a_time a)).

Definition appointments_join (d : db) : list appt_row :=
  omap (join_row d) (Table.select_all (appointments d)).

(** An appointment whose patient or doctor is gone. *)
Definition dangling (d : db) (a : appointment) : Prop :=
  Table.select_by_id (a_patient_id a) (patients d) = None \/
  Table.select_by_id (a_doctor_id a) (doctors d) = None.

(** ** Sample files *)

(** The file after the first run of the program. *)
Definition first_run : db := set_users (Table.mk_table [(1, admin)] 1) (create_tables None).

(** A file in which doctor 1 was deleted while appointment 1 still names it. *)
Definition orphan_db : db :=
  mk_db (Table.mk_table [(1, mk_patient "Ana" 30 "Rua A" "555")] 1)
        (Table.mk_table [] 1)
        (Table.mk_table [(1, mk_appointment 1 1 "01/02/2024" "09:30")] 1)
        (Table.mk_table [(1, admin)] 1).

(** ** Lemmas *)

Lemma empty_db_wf : db_wf (create_tables None).
Proof. split; apply Table.empty_wf. Qed.

(** The join row of an appointment exists exactly when both references
    resolve. *)
Lemma join_row_some (d : db) (i : Z) (a : appointment) :
  (exists r, join_row d (i, a) = Some r) <-> ~ dangling d a.
Proof.
  unfold join_row, dangling.
  destruct (Table.select_by_id (a_patient_id a) (patients d)),
           (Table.select_by_id (a_doctor_id a) (doctors d)); simpl;
    split; intros Hx; try naive_solver.
Qed.

Lemma join_row_id (d : db) (ia : Z * appointment) (r : appt_row) :
  join_row d ia = Some r -> r_id r = ia.1.
Proof.
  destruct ia as [i a]. unfold join_row.
  destruct (Table.select_by_id _ _), (Table.select_by_id _ _); simpl; by intros [= <-].
Qed.

Lemma join_resolved (d : db) (i : Z) (a : appointment) :
  db_wf d -> Table.select_by_id i (appointments d) = Some a ->
  (exists r, r ∈ appointments_join d /\ r_id r = i) <-> ~ dangling d a.
Proof.
  intros Hwf Ha. destruct (Table.select_spec (appointments d) (wf_appointments d Hwf))
    as (Hsel & _ & Hall).
  rewrite Hsel in Ha. rewrite <- (join_row_some d i a). unfold appointments_join. split.
  - intros (r & (ia & Hin & Hj)%list_elem_of_omap & <-).
    destruct ia as [i' a']. pose proof (join_row_id _ _ _ Hj) as Hid. simpl in Hid. subst i'.
    apply Hall in Hin. rewrite Hin in Ha. injection Ha as ->. eauto.
  - intros (r & Hj). exists r. split.
    + apply list_elem_of_omap. exists (r_id r, a). pose proof (join_row_id _ _ _ Hj) as Hid.
      simpl in Hid. rewrite Hid. split; [by apply Hall | done].
    + apply (join_row_id _ _ _ Hj).
Qed.

(** What [setup_database] does to the four tables. *)
Lemma setup_spec (f : option db) (d : db) :
  db_wf (create_tables f) -> setup_database f = PyOk d ->
  patients d = patients (create_tables f) /\ doctors d = doctors (create_tables f) /\
  appointments d = appointments (create_tables f) /\
  Table.select_all (users d) =
    match Table.select_all (users (create_tables f)) with
    | [] => [(Table.seq (users (create_tables f)) + 1, admin)]
    | us => us
    end /\
  db_wf d.
Proof.
  intros Hwf. unfold setup_database.
  destruct (Table.select_all (users (create_tables f))) eqn:E.
  - destruct (Table.insert admin (users (create_tables f))) as [[i us]|e] eqn:Hins;
      [|discriminate].
    intros [= <-]. pose proof (Table.insert_wf _ _ _ _ (wf_users _ Hwf) Hins) as Hwf'.
    pose proof Hins as Hins'. apply Table.insert_ok_inv in Hins' as (_ & -> & _); [|apply Hwf].
    apply Table.insert_rows in Hins as [Hrows _].
    unfold Table.select_all in *. simpl. rewrite Hrows, E. do 4 (split; [done|]).
    split; simpl; [apply (wf_patients _ Hwf) | apply (wf_doctors _ Hwf)
                  | apply (wf_appointments _ Hwf) | exact Hwf'].
  - intros [= <-]. do 4 (split; [done|]). exact Hwf.
Qed.

(** ** Theorems *)

(** C30: [setup_database] is idempotent: running it on the file it produced
    changes nothing (the tables exist and [users] is no longer empty). *)
Theorem setup_idempotent (f : option db) (d : db) :
  setup_database f = PyOk d -> setup_database (Some d) = PyOk d.
Proof.
  unfold setup_database. simpl.
  destruct (Table.select_all (users (create_tables f))) eqn:E.
  - destruct (Table.insert admin (users (create_tables f))) as [[i us]|e] eqn:Hins;
      [|discriminate].
    intros [= <-]. apply Table.insert_rows in Hins as [Hrows _].
    simpl. unfold Table.select_all in *. rewrite Hrows, E. done.
  - intros [= <-]. by rewrite E.
Qed.

(** C31: [setup_database] leaves [patients], [doctors] and [appointments] as
    they were, inserts [admin]/[admin] under the next id exactly when
    [users] is empty, and keeps every table well formed. *)
Theorem setup_database_spec (f : option db) (d : db) :
  db_wf (create_tables f) -> setup_database f = PyOk d ->
  patients d = patients (create_tables f) /\ doctors d = doctors (create_tables f) /\
  appointments d = appointments (create_tables f) /\
  Table.select_all (users d) =
    match Table.select_all (users (create_tables f)) with
    | [] => [(Table.seq (users (create_tables f)) + 1, admin)]
    | us => us
    end /\
  db_wf d.
Proof. apply setup_spec. Qed.

(** C32: the appointment list shows an appointment exactly when its patient
    and its doctor both still exist: an appointment left dangling by a
    deletion stays in the table but is no longer listed or exported. *)
Theorem join_lists_resolved (d : db) (i : Z) (a : appointment) :
  db_wf d -> Table.select_by_id i (appointments d) = Some a ->
  (exists r, r ∈ appointments_join d /\ r_id r = i) <-> ~ dangling d a.
Proof. apply join_resolved. Qed.

(** ** Witnesses *)

Lemma setup_idempotent_witness : setup_database (Some first_run) = PyOk first_run.
Proof. apply (setup_idempotent None). reflexivity. Defined.

Lemma setup_database_spec_witness :
  patients first_run = patients (create_tables None) /\ doctors first_run = doctors (create_tables None) /\
  appointments first_run = appointments (create_tables None) /\
  Table.select_all (users first_run) =
    match Table.select_all (users (create_tables None)) with
    | [] => [(Table.seq (users (create_tables None)) + 1, admin)]
    | us => us
    end /\
  db_wf first_run.
Proof. apply setup_database_spec; [apply empty_db_wf | reflexivity]. Defined.

Lemma join_lists_resolved_witness :
  (exists r, r ∈ appointments_join orphan_db /\ r_id r = 1) <->
  ~ dangling orphan_db (mk_appointment 1 1 "01/02/2024" "09:30").
Proof.
  apply join_lists_resolved; [|reflexivity].
  split; split; unfold Table.keys, Table.max_rowid; cbn; repeat constructor; lia.
Defined.

End Db.
