(* ===== verification/Handlers.v ===== *)
(** * The form handlers: the program's operations on the database

    Every operation of [src/programa_hospital.py] is a Tk callback that
    reads its form, validates it, runs one SQL statement on [hospital.db]
    and shows a message box.  Each callback is modelled here as a function
    from its inputs (the raw texts of the form's entries, the selected
    tree row, the answer to the confirmation box) and the database to
    [py (db * list dialog)]: the database after the callback (the one
    statement committed, or nothing) and the dialogs it shows, or the
    exception that escapes it (Tk prints it and nothing is committed).

    - patients: [save_patient] (lines 240-263), [edit_patient] (555-600),
      [update_patient] (523-553), [delete_patient] (489-506),
      [delete_patient_search] (892-909), [view_patients] (472-477),
      [perform_search] (828-844);
    - doctors: [save_doctor] (299-315), [edit_doctor] (706-747),
      [update_doctor] (681-704), [delete_doctor] (647-664),
      [view_doctors] (630-635);
    - appointments: [schedule_appointment] (383-428, the form and its
      combobox options), [save_appointment] (347-381),
      [view_appointments] (779-789), [delete_appointment] (794-811).

    The windows (which one is open, the rows its tree shows, closing it
    on success, the list re-opened after an update) are modelled in
    [App]; here the row a delete acts on is the id of the selected tree
    row ([option Z], [None] when nothing is selected).

    Theorems: each handler's result on every branch (errors included);
    the data invariant [db_ok] is kept by every sequence of events; an
    update and a delete of the same patient commute up to [Table.tequiv]
    (a stale edit form never brings a deleted patient back). *)

From S2P Require Import Prelude PyStr Regex Like Table Db.

Module Handlers.
Import PyStr Db.

Local Open Scope Z_scope.

(** ** Message boxes *)

Inductive dialog :=
  | ShowInfo (title msg : string)     (** [messagebox.showinfo] *)
  | ShowError (title msg : string).   (** [messagebox.showerror] *)

(** [str(e)] of a caught exception. *)
Definition exc_msg (e : PyExc) : string :=
  match e with
  | ValueError m | OverflowError m | OperationalError m | DatabaseError m | OSError m => m
  | IndexError => "list index out of range"
  end.

Definition result := py (db * list dialog).

Definition reject (d : db) (msg : string) : result := PyOk (d, [ShowError "Erro" msg]).

Definition msg_fill : string := "Por favor, preencha todos os campos.".
Definition msg_age : string := "A idade deve ser um número.".

(** [int(age)] inside [try ... except ValueError]: [inl] the error dialog's
    text, [inr] the value; other exceptions escape. *)
Definition parse_age (age : string) : py (string + Z) :=
  match py_int age with
  | PyOk n => PyOk (inr n)
  | PyRaise (ValueError _) => PyOk (inl msg_age)
  | PyRaise e => PyRaise e
  end.

(** ** Patients *)

(** [save_patient]: strip the four fields, require them all, convert the
    age, insert; the insert is outside any [try]. *)
Definition save_patient (name age address contact : string) (d : db) : result :=
  let name := strip name in
  let age := strip age in
  let address := strip address in
  let contact := strip contact in
  if negb (truthy name && truthy age && truthy address && truthy contact)
  then reject d msg_fill
  else
    a ← parse_age age;
    match a with
    | inl m => reject d m
    | inr n =>
        n' ← bind_int n;
        '(_, pt) ← Table.insert (mk_patient name n' address contact) (patients d);
        PyOk (set_patients pt d, [ShowInfo "Sucesso" "Paciente cadastrado com sucesso!"])
    end.

(** The entries of the edit form, as [edit_patient] fills them. *)
Record patient_form := mk_patient_form {
  f_name : string; f_age : string; f_address : string; f_contact : string }.

(** [edit_patient]: look the patient up; the form shows the stored values,
    the age as the text Tk gives the [int]. *)
Definition edit_patient (patient_id : Z) (d : db) : dialog + patient_form :=
  match Table.select_by_id patient_id (patients d) with
  | None => inl (ShowError "Erro" "Paciente não encontrado.")
  | Some p => inr (mk_patient_form (p_name p) (py_str_int (p_age p)) (p_address p) (p_contact p))
  end.

(** [update_patient]: the same checks as [save_patient], then the
    [UPDATE] inside [try ... except Exception], which turns any error of
    the statement into a dialog.  No row is updated when the id is gone. *)
Definition update_patient (patient_id : Z) (name age address contact : string) (d : db) : result :=
  let name := strip name in
  let age := strip age in
  let address := strip address in
  let contact := strip contact in
  if negb (truthy name && truthy age && truthy address && truthy contact)
  then reject d msg_fill
  else
    a ← parse_age age;
    match a with
    | inl m => reject d m
    | inr n =>
        match n' ← bind_int n; pid ← bind_int patient_id;
              PyOk (Table.update_by_id pid (fun _ => mk_patient name n' address contact) (patients d))
        with
        | PyOk pt => PyOk (set_patients pt d, [ShowInfo "Sucesso" "Paciente atualizado com sucesso!"])
        | PyRaise e => reject d ("Ocorreu um erro ao atualizar o paciente: " +:+ exc_msg e)
        end
    end.

(** The delete buttons: nothing selected is an error; otherwise ask, and
    on "yes" run [DELETE ... WHERE id = ?] inside [try ... except
    Exception]; the success message does not depend on a row having been
    deleted. *)
Definition delete_selected {R} (get : db -> Table.table R) (set : Table.table R -> db -> db)
    (msg_none msg_ok msg_err : string)
    (selection : option Z) (confirm : bool) (d : db) : result :=
  match selection with
  | None => reject d msg_none
  | Some i =>
      if confirm then
        match bind_int i with
        | PyOk i' => PyOk (set (Table.delete_by_id i' (get d)) d, [ShowInfo "Sucesso" msg_ok])
        | PyRaise e => reject d (msg_err +:+ exc_msg e)
        end
      else PyOk (d, [])
  end.

Definition delete_patient : option Z -> bool -> db -> result :=
  delete_selected patients set_patients "Por favor, selecione um paciente para deletar."
    "Paciente deletado com sucesso!" "Ocorreu um erro ao deletar o paciente: ".

(** The search window's delete button is the same code. *)
Definition delete_patient_search : option Z -> bool -> db -> result :=
  delete_selected patients set_patients "Por favor, selecione um paciente para deletar."
    "Paciente deletado com sucesso!" "Ocorreu um erro ao deletar o paciente: ".

(** [view_patients]: [SELECT * FROM patients] into the tree. *)
Definition view_patients (d : db) : list (Z * patient) := Table.select_all (patients d).

(** [perform_search]: [name LIKE '%' + term + '%'] evaluated on every row
    (the pattern length is checked at each evaluation), then the rows
    found, or an information box when there is none. *)
Fixpoint like_filter (pat : string) (rs : list (Z * patient)) : py (list (Z * patient)) :=
  match rs with
  | [] => PyOk []
  | (i, p) :: rs' =>
      b ← Like.sqlite_like pat (p_name p);
      rest ← like_filter pat rs';
      PyOk (if (b : bool) then (i, p) :: rest else rest)
  end.

Definition perform_search (search_term : string) (d : db) : py (list (Z * patient) * list dialog) :=
  let term := strip search_term in
  results ← like_filter (Like.search_pattern term) (Table.select_all (patients d));
  match results with
  | [] => PyOk ([], [ShowInfo "Resultado da Busca" "Nenhum paciente encontrado com o nome especificado."])
  | _ :: _ => PyOk (results, [])
  end.

(** ** Doctors *)

Definition save_doctor (name specialty schedule : string) (d : db) : result :=
  let name := strip name in
  let specialty := strip specialty in
  let schedule := strip schedule in
  if negb (truthy name && truthy specialty && truthy schedule)
  then reject d msg_fill
  else
    '(_, dt) ← Table.insert (mk_doctor name specialty schedule) (doctors d);
    PyOk (set_doctors dt d, [ShowInfo "Sucesso" "Médico cadastrado com sucesso!"]).

Record doctor_form := mk_doctor_form {
  f_dname : string; f_specialty : string; f_schedule : string }.

Definition edit_doctor (doctor_id : Z) (d : db) : dialog + doctor_form :=
  match Table.select_by_id doctor_id (doctors d) with
  | None => inl (ShowError "Erro" "Médico não encontrado.")
  | Some dr => inr (mk_doctor_form (d_name dr) (d_specialty dr) (d_schedule dr))
  end.

Definition update_doctor (doctor_id : Z) (name specialty schedule : string) (d : db) : result :=
  let name := strip name in
  let specialty := strip specialty in
  let schedule := strip schedule in
  if negb (truthy name && truthy specialty && truthy schedule)
  then reject d msg_fill
  else
    match did ← bind_int doctor_id;
          PyOk (Table.update_by_id did (fun _ => mk_doctor name specialty schedule) (doctors d))
    with
    | PyOk dt => PyOk (set_doctors dt d, [ShowInfo "Sucesso" "Médico atualizado com sucesso!"])
    | PyRaise e => reject d ("Ocorreu um erro ao atualizar o médico: " +:+ exc_msg e)
    end.

Definition delete_doctor : option Z -> bool -> db -> result :=
  delete_selected doctors set_doctors "Por favor, selecione um médico para deletar."
    "Médico deletado com sucesso!" "Ocorreu um erro ao deletar o médico: ".

(** The first [view_doctors] (lines 603-677): [SELECT * FROM doctors]. *)
Definition view_doctors (d : db) : list (Z * doctor) := Table.select_all (doctors d).

(** ** Appointments *)

(** The scheduling form: the options of the two read-only comboboxes and
    their initial selections ([current(0)]). *)
Record appt_form := mk_appt_form {
  patient_options : list string; doctor_options : list string;
  sel_patient : string; sel_doctor : string }.

Definition id_name_options {R} (name : R -> string) (rs : list (Z * R)) : list string :=
  map (fun '(i, r) => format_option i (name r)) rs.

(** [schedule_appointment]: [SELECT id, name] from both tables; an error
    when either is empty, else the form. *)
Definition schedule_appointment (d : db) : dialog + appt_form :=
  let ps := Table.select_all (patients d) in
  let ds := Table.select_all (doctors d) in
  match ps, ds with
  | [], _ => inl (ShowError "Erro" "Nenhum paciente cadastrado. Por favor, cadastre um paciente primeiro.")
  | _, [] => inl (ShowError "Erro" "Nenhum médico cadastrado. Por favor, cadastre um médico primeiro.")
  | (i, p) :: _, (j, dr) :: _ =>
      inr (mk_appt_form (id_name_options p_name ps) (id_name_options d_name ds)
             (format_option i (p_name p)) (format_option j (d_name dr)))
  end.

(** [int(selected.split(":")[0])] for both selections, inside [try ...
    except (ValueError, IndexError)]. *)
Definition parse_selection (selected_patient selected_doctor : string) : py (string + Z * Z) :=
  match pid ← py_int (split_colon_head selected_patient);
        did ← py_int (split_colon_head selected_doctor);
        PyOk (pid, did)
  with
  | PyOk ids => PyOk (inr ids)
  | PyRaise (ValueError _) | PyRaise IndexError => PyOk (inl "Seleção inválida de paciente ou médico.")
  | PyRaise e => PyRaise e
  end.

Definition save_appointment (selected_patient selected_doctor date time : string) (d : db) : result :=
  let date := strip date in
  let time := strip time in
  if negb (truthy selected_patient && truthy selected_doctor && truthy date && truthy time)
  then reject d msg_fill
  else
    s ← parse_selection selected_patient selected_doctor;
    match s with
    | inl m => reject d m
    | inr (pid, did) =>
        if negb (Regex.re_match Regex.date_pattern date)
        then reject d "Formato de data inválido. Use DD/MM/AAAA."
        else if negb (Regex.re_match Regex.time_pattern time)
        then reject d "Formato de hora inválido. Use HH:MM."
        else
          pid' ← bind_int pid;
          did' ← bind_int did;
          '(_, apt) ← Table.insert (mk_appointment pid' did' date time) (appointments d);
          PyOk (set_appointments apt d, [ShowInfo "Sucesso" "Consulta agendada com sucesso!"])
    end.

(** [view_appointments]: the join of [Db]. *)
Definition view_appointments (d : db) : list appt_row := appointments_join d.

Definition delete_appointment : option Z -> bool -> db -> result :=
  delete_selected appointments set_appointments "Por favor, selecione uma consulta para deletar."
    "Consulta deletada com sucesso!" "Ocorreu um erro ao deletar a consulta: ".

(** ** The data invariant

    What the forms guarantee of every row they write: text fields stripped
    and not empty, integers in the 64-bit range, dates and times that pass
    the two checks.  [db_ok] adds the tables' own invariant. *)

Definition field_ok (s : string) : Prop := strip s = s /\ s <> "".
Definition int64 (n : Z) : Prop := - 2 ^ 63 <= n < 2 ^ 63.

Definition patient_ok (p : patient) : Prop :=
  field_ok (p_name p) /\ int64 (p_age p) /\ field_ok (p_address p) /\ field_ok (p_contact p).

Definition doctor_ok (dr : doctor) : Prop :=
  field_ok (d_name dr) /\ field_ok (d_specialty dr) /\ field_ok (d_schedule dr).

Definition appointment_ok (a : appointment) : Prop :=
  int64 (a_patient_id a) /\ int64 (a_doctor_id a) /\ field_ok (a_date a) /\ field_ok (a_time a) /\
  Regex.re_match Regex.date_pattern (a_date a) = true /\
  Regex.re_match Regex.time_pattern (a_time a) = true.

Record db_ok (d : db) : Prop := {
  ok_wf : db_wf d;
  ok_patients : Table.rows_satisfy patient_ok (patients d);
  ok_doctors : Table.rows_satisfy doctor_ok (doctors d);
  ok_appointments : Table.rows_satisfy appointment_ok (appointments d) }.

(** ** Events

    The callbacks that change the database, as one event type; [handle]
    dispatches an event to its handler. *)
Inductive event :=
  | ESavePatient (name age address contact : string)
  | EUpdatePatient (patient_id : Z) (name age address contact : string)
  | EDeletePatient (selection : option Z) (confirm : bool)
  | EDeletePatientSearch (selection : option Z) (confirm : bool)
  | ESaveDoctor (name specialty schedule : string)
  | EUpdateDoctor (doctor_id : Z) (name specialty schedule : string)
  | EDeleteDoctor (selection : option Z) (confirm : bool)
  | ESaveAppointment (selected_patient selected_doctor date time : string)
  | EDeleteAppointment (selection : option Z) (confirm : bool).

Definition handle (e : event) (d : db) : result :=
  match e with
  | ESavePatient n a ad c => save_patient n a ad c d
  | EUpdatePatient i n a ad c => update_patient i n a ad c d
  | EDeletePatient sel ok => delete_patient sel ok d
  | EDeletePatientSearch sel ok => delete_patient_search sel ok d
  | ESaveDoctor n sp sc => save_doctor n sp sc d
  | EUpdateDoctor i n sp sc => update_doctor i n sp sc d
  | EDeleteDoctor sel ok => delete_doctor sel ok d
  | ESaveAppointment p dr dt tm => save_appointment p dr dt tm d
  | EDeleteAppointment sel ok => delete_appointment sel ok d
  end.

(** [handles d es d']: the events [es], handled in order from [d], all
    return (none raises) and leave [d']. *)
Inductive handles : db -> list event -> db -> Prop :=
  | handles_nil d : handles d [] d
  | handles_cons d e es d' ds d'' :
      handle e d = PyOk (d', ds) -> handles d' es d'' -> handles d (e :: es) d''.

(** A small database in a state the forms can leave it in: one patient,
    two doctors (doctor 1 was deleted), one appointment (used by the
    witnesses below). *)
Definition sample_db : db :=
  mk_db (Table.mk_table [(1, mk_patient "Ana" 30 "Rua A" "555")] 1)
        (Table.mk_table [(2, mk_doctor "Dr Rui" "Cardiologia" "8-12");
                         (3, mk_doctor "Dr Eva" "Pediatria" "13-18")] 3)
        (Table.mk_table [(1, mk_appointment 1 3 "01/02/2024" "09:30")] 1)
        (Table.mk_table [(1, admin)] 1).

(** ** Lemmas *)

Lemma field_ok_strip (s : string) : truthy (strip s) = true -> field_ok (strip s).
Proof. intros H. split; [apply strip_strip | by destruct (strip s)]. Qed.

Lemma bind_int_ok (n n' : Z) : bind_int n = PyOk n' -> n' = n /\ int64 n.
Proof.
  unfold bind_int, int64. destruct (_ && _) eqn:E; [|discriminate].
  intros [= <-]. apply andb_prop in E as [E1 E2]. apply Z.leb_le in E1. apply Z.ltb_lt in E2.
  split; [done | lia].
Qed.

Lemma bind_int_in (n : Z) : int64 n -> bind_int n = PyOk n.
Proof.
  unfold bind_int, int64. intros Hn.
  replace ((- 2 ^ 63 <=? n) && (n <? 2 ^ 63)) with true; [done|].
  symmetry. apply andb_true_intro. split; [apply Z.leb_le | apply Z.ltb_lt]; lia.
Qed.

Lemma truthy4 (a b c e : string) :
  truthy a && truthy b && truthy c && truthy e = true ->
  truthy a = true /\ truthy b = true /\ truthy c = true /\ truthy e = true.
Proof. intros H. repeat (apply andb_prop in H as [H ?]). auto. Qed.

Lemma truthy3 (a b c : string) :
  truthy a && truthy b && truthy c = true -> truthy a = true /\ truthy b = true /\ truthy c = true.
Proof. intros H. repeat (apply andb_prop in H as [H ?]). auto. Qed.

(** A handler's result unfolded: every [match], [if] and bind is split and
    the equations are substituted. *)
Ltac handler_cases H :=
  repeat (simpl in H; first
    [ progress simplify_eq
    | progress (autorewrite with hosp_rw in H)
    | match type of H with
      | context [@mbind py _ _ _ _ ?m] => destruct m eqn:?
      | context [match ?m with PyOk _ => _ | PyRaise _ => _ end] => destruct m eqn:?
      | context [match ?m with inl _ => _ | inr _ => _ end] => destruct m eqn:?
      | context [match ?m with Some _ => _ | None => _ end] => destruct m eqn:?
      | context [match ?m with (_, _) => _ end] => destruct m eqn:?
      | context [if ?b then _ else _] => destruct b eqn:?
      end ]).

(** The facts a successful handler established, as hypotheses. *)
Ltac ok_facts :=
  repeat match goal with
  | H : bind_int _ = PyOk _ |- _ => apply bind_int_ok in H as [-> ?]
  | H : negb _ = false |- _ => apply negb_false_iff in H
  | H : _ && _ = true |- _ => apply andb_prop in H as [? ?]
  end.

Lemma save_patient_inv (n a ad c : string) (d d' : db) (ds : list dialog) :
  save_patient n a ad c d = PyOk (d', ds) ->
  d' = d \/ exists p i pt, patient_ok p /\ Table.insert p (patients d) = PyOk (i, pt) /\
                         d' = set_patients pt d.
Proof.
  intros H. unfold save_patient, reject in H. handler_cases H; auto.
  right. do 3 eexists. split; [|split; [exact Heqp1 | done]].
  ok_facts. unfold patient_ok; simpl. split_and!; auto using field_ok_strip.
Qed.

Lemma update_patient_inv (i : Z) (n a ad c : string) (d d' : db) (ds : list dialog) :
  update_patient i n a ad c d = PyOk (d', ds) ->
  d' = d \/ exists p i', patient_ok p /\
                       d' = set_patients (Table.update_by_id i' (fun _ => p) (patients d)) d.
Proof.
  intros H. unfold update_patient, reject in H. handler_cases H; auto.
  right. do 2 eexists. split; [|done].
  ok_facts. unfold patient_ok; simpl. split_and!; auto using field_ok_strip.
Qed.

Lemma delete_selected_inv {R} (get : db -> Table.table R) set m1 m2 m3 sel ok (d d' : db) ds :
  delete_selected get set m1 m2 m3 sel ok d = PyOk (d', ds) ->
  d' = d \/ exists i, d' = set (Table.delete_by_id i (get d)) d.
Proof. intros H. unfold delete_selected, reject in H. handler_cases H; eauto. Qed.

Lemma save_doctor_inv (n sp sc : string) (d d' : db) (ds : list dialog) :
  save_doctor n sp sc d = PyOk (d', ds) ->
  d' = d \/ exists dr i dt, doctor_ok dr /\ Table.insert dr (doctors d) = PyOk (i, dt) /\
                          d' = set_doctors dt d.
Proof.
  intros H. unfold save_doctor, reject in H. handler_cases H; auto.
  right. do 3 eexists. split; [|split; [eassumption | done]].
  ok_facts. unfold doctor_ok; simpl. split_and!; auto using field_ok_strip.
Qed.

Lemma update_doctor_inv (i : Z) (n sp sc : string) (d d' : db) (ds : list dialog) :
  update_doctor i n sp sc d = PyOk (d', ds) ->
  d' = d \/ exists dr i', doctor_ok dr /\
                        d' = set_doctors (Table.update_by_id i' (fun _ => dr) (doctors d)) d.
Proof.
  intros H. unfold update_doctor, reject in H. handler_cases H; auto.
  right. do 2 eexists. split; [|done].
  ok_facts. unfold doctor_ok; simpl. split_and!; auto using field_ok_strip.
Qed.

Lemma save_appointment_inv (sp sd dt tm : string) (d d' : db) (ds : list dialog) :
  save_appointment sp sd dt tm d = PyOk (d', ds) ->
  d' = d \/ exists a i t, appointment_ok a /\ Table.insert a (appointments d) = PyOk (i, t) /\
                        d' = set_appointments t d.
Proof.
  intros H. unfold save_appointment, reject in H. handler_cases H; auto.
  right. do 3 eexists. split; [|split; [eassumption | done]].
  ok_facts. unfold appointment_ok; simpl. split_and!; auto using field_ok_strip.
Qed.

Lemma ok_set_patients (d : db) (t : Table.table patient) :
  db_ok d -> Table.table_wf t -> Table.rows_satisfy patient_ok t -> db_ok (set_patients t d).
Proof. intros [[] ? ? ?] ? ?. by split; [split|..]. Qed.

Lemma ok_set_doctors (d : db) (t : Table.table doctor) :
  db_ok d -> Table.table_wf t -> Table.rows_satisfy doctor_ok t -> db_ok (set_doctors t d).
Proof. intros [[] ? ? ?] ? ?. by split; [split|..]. Qed.

Lemma ok_set_appointments (d : db) (t : Table.table appointment) :
  db_ok d -> Table.table_wf t -> Table.rows_satisfy appointment_ok t ->
  db_ok (set_appointments t d).
Proof. intros [[] ? ? ?] ? ?. by split; [split|..]. Qed.

Lemma ok_insert_patient (d : db) (p : patient) (i : Z) (t : Table.table patient) :
  db_ok d -> patient_ok p -> Table.insert p (patients d) = PyOk (i, t) -> db_ok (set_patients t d).
Proof.
  intros Hok Hp Hins. apply ok_set_patients; [done | |].
  - eapply Table.insert_wf; [apply Hok | exact Hins].
  - eapply Table.insert_satisfy; [apply Hok | exact Hp | exact Hins].
Qed.

Lemma ok_insert_doctor (d : db) (dr : doctor) (i : Z) (t : Table.table doctor) :
  db_ok d -> doctor_ok dr -> Table.insert dr (doctors d) = PyOk (i, t) -> db_ok (set_doctors t d).
Proof.
  intros Hok Hp Hins. apply ok_set_doctors; [done | |].
  - eapply Table.insert_wf; [apply Hok | exact Hins].
  - eapply Table.insert_satisfy; [apply Hok | exact Hp | exact Hins].
Qed.

Lemma ok_insert_appointment (d : db) (a : appointment) (i : Z) (t : Table.table appointment) :
  db_ok d -> appointment_ok a -> Table.insert a (appointments d) = PyOk (i, t) ->
  db_ok (set_appointments t d).
Proof.
  intros Hok Hp Hins. apply ok_set_appointments; [done | |].
  - eapply Table.insert_wf; [apply Hok | exact Hins].
  - eapply Table.insert_satisfy; [apply Hok | exact Hp | exact Hins].
Qed.

Lemma ok_update_patient (d : db) (p : patient) (i : Z) :
  db_ok d -> patient_ok p -> db_ok (set_patients (Table.update_by_id i (fun _ => p) (patients d)) d).
Proof.
  intros Hok Hp. apply ok_set_patients; [done | apply Table.update_wf, Hok |].
  apply Table.update_satisfy; [apply Hok | exact Hp].
Qed.

Lemma ok_update_doctor (d : db) (dr : doctor) (i : Z) :
  db_ok d -> doctor_ok dr -> db_ok (set_doctors (Table.update_by_id i (fun _ => dr) (doctors d)) d).
Proof.
  intros Hok Hp. apply ok_set_doctors; [done | apply Table.update_wf, Hok |].
  apply Table.update_satisfy; [apply Hok | exact Hp].
Qed.

Lemma ok_delete_patient (d : db) (i : Z) :
  db_ok d -> db_ok (set_patients (Table.delete_by_id i (patients d)) d).
Proof. intros Hok. apply ok_set_patients; [done | apply Table.delete_wf, Hok | apply Table.delete_satisfy, Hok]. Qed.

Lemma ok_delete_doctor (d : db) (i : Z) :
  db_ok d -> db_ok (set_doctors (Table.delete_by_id i (doctors d)) d).
Proof. intros Hok. apply ok_set_doctors; [done | apply Table.delete_wf, Hok | apply Table.delete_satisfy, Hok]. Qed.

Lemma ok_delete_appointment (d : db) (i : Z) :
  db_ok d -> db_ok (set_appointments (Table.delete_by_id i (appointments d)) d).
Proof.
  intros Hok. apply ok_set_appointments;
    [done | apply Table.delete_wf, Hok | apply Table.delete_satisfy, Hok].
Qed.

#[local] Hint Resolve ok_delete_patient ok_delete_doctor ok_delete_appointment ok_update_patient ok_update_doctor ok_set_patients ok_set_doctors ok_set_appointments
  ok_insert_patient ok_insert_doctor ok_insert_appointment
  Table.delete_wf Table.update_wf Table.delete_satisfy Table.update_satisfy
  ok_patients ok_doctors ok_appointments wf_patients wf_doctors wf_appointments ok_wf : hosp.

Lemma handle_ok (e : event) (d d' : db) (ds : list dialog) :
  db_ok d -> handle e d = PyOk (d', ds) -> db_ok d'.
Proof.
  intros Hok. destruct e; simpl; intros H.
  - apply save_patient_inv in H as [-> | (? & ? & ? & ? & ? & ->)]; [done | eauto with hosp].
  - apply update_patient_inv in H as [-> | (? & ? & ? & ->)]; [done | eauto with hosp].
  - apply delete_selected_inv in H as [-> | (? & ->)]; [done | eauto with hosp].
  - apply delete_selected_inv in H as [-> | (? & ->)]; [done | eauto with hosp].
  - apply save_doctor_inv in H as [-> | (? & ? & ? & ? & ? & ->)]; [done | eauto with hosp].
  - apply update_doctor_inv in H as [-> | (? & ? & ? & ->)]; [done | eauto with hosp].
  - apply delete_selected_inv in H as [-> | (? & ->)]; [done | eauto with hosp].
  - apply save_appointment_inv in H as [-> | (? & ? & ? & ? & ? & ->)]; [done | eauto with hosp].
  - apply delete_selected_inv in H as [-> | (? & ->)]; [done | eauto with hosp].
Qed.

Lemma parse_age_ok (s : string) (n : Z) : py_int s = PyOk n -> parse_age s = PyOk (inr n).
Proof. unfold parse_age. by intros ->. Qed.

Lemma bind_int_out (n : Z) :
  ~ int64 n -> bind_int n = PyRaise (OverflowError "Python int too large to convert to SQLite INTEGER").
Proof.
  unfold bind_int, int64. intros Hn. destruct (_ && _) eqn:E; [|done].
  apply andb_prop in E as [E1 E2]. apply Z.leb_le in E1. apply Z.ltb_lt in E2. lia.
Qed.

Lemma seq_int64 {R} (t : Table.table R) (i : Z) (r : R) :
  Table.table_wf t -> Table.select_by_id i t = Some r -> int64 i.
Proof.
  intros Hwf Hi. pose proof (Table.select_by_id_range i r t Hwf Hi). pose proof (Table.wf_seq t Hwf).
  unfold int64, Table.max_rowid in *. lia.
Qed.

Lemma truthy_format_option (i : Z) (name : string) : truthy (format_option i name) = true.
Proof.
  unfold format_option. destruct (py_str_int_field i) as [_ H].
  destruct (py_str_int i); [discriminate | done].
Qed.

Lemma shape_truthy (s : string) :
  Regex.date_shape s = true \/ Regex.time_shape s = true -> truthy s = true.
Proof. destruct s; [by intros [? | ?] | done]. Qed.

(** A row listed first by a scan is in the table. *)
Lemma head_select {R} (t : Table.table R) (i : Z) (r : R) :
  Table.table_wf t -> head (Table.select_all t) = Some (i, r) -> Table.select_by_id i t = Some r.
Proof.
  intros Hwf Hh. destruct (Table.select_spec t Hwf) as (Hsel & _ & Hall).
  rewrite Hsel. apply Hall. destruct (Table.select_all t); simplify_eq/=. by left.
Qed.

Lemma like_filter_ok (pat : string) (rs : list (Z * patient)) :
  (Like.utf8_len pat <= Like.max_like_pattern_length)%N ->
  like_filter pat rs = PyOk (filter (fun ip => Like.like pat (p_name ip.2) = true) rs).
Proof.
  intros Hlen.
  assert (Hok : forall s, Like.sqlite_like pat s = PyOk (Like.like pat s)).
  { intros s. unfold Like.sqlite_like.
    replace (Like.max_like_pattern_length <? Like.utf8_len pat)%N with false
      by (symmetry; apply N.ltb_ge; lia). done. }
  induction rs as [|[i p] rs IH]; [done|]. simpl. rewrite Hok, py_bind_ok, IH, py_bind_ok.
  rewrite filter_cons. simpl. by destruct (Like.like pat (p_name p)).
Qed.

Lemma like_filter_long (pat : string) (rs : list (Z * patient)) :
  (Like.max_like_pattern_length < Like.utf8_len pat)%N -> rs <> [] ->
  like_filter pat rs = PyRaise (OperationalError "LIKE or GLOB pattern too complex").
Proof.
  intros Hlen Hne. destruct rs as [|[i p] rs]; [done|]. simpl. unfold Like.sqlite_like.
  replace (Like.max_like_pattern_length <? Like.utf8_len pat)%N with true
    by (symmetry; apply N.ltb_lt; lia). done.
Qed.

(** ** Theorems *)

(** The two outcomes of an update: nothing, or the patient's row
    replaced (the id then in the 64-bit range). *)
Lemma update_patient_shape (i : Z) (n a ad c : string) (d d' : db) (ds : list dialog) :
  update_patient i n a ad c d = PyOk (d', ds) ->
  d' = d \/ (int64 i /\ exists p, d' = set_patients (Table.update_by_id i (fun _ => p) (patients d)) d).
Proof. intros H. unfold update_patient, reject in H. handler_cases H; auto. right. ok_facts. eauto. Qed.

(** A confirmed delete removes the row exactly when the id binds. *)
Lemma delete_patient_shape (i : Z) (d d' : db) (ds : list dialog) :
  delete_patient (Some i) true d = PyOk (d', ds) ->
  (~ int64 i /\ d' = d) \/ (int64 i /\ d' = set_patients (Table.delete_by_id i (patients d)) d).
Proof.
  unfold delete_patient, delete_selected, reject. intros H.
  destruct (bind_int i) eqn:E; simplify_eq.
  - apply bind_int_ok in E as [-> ?]. auto.
  - left. split; [|done]. intros Hi. apply bind_int_in in Hi. congruence.
Qed.

Lemma handles_pair (e1 e2 : event) (d d' : db) :
  handles d [e1; e2] d' ->
  exists dm ds1 ds2, handle e1 d = PyOk (dm, ds1) /\ handle e2 dm = PyOk (d', ds2).
Proof.
  intros H. inversion H as [|? ? ? dm ds1 ? H1 H2]; subst.
  inversion H2 as [|? ? ? d2 ds2 ? H3 H4]; subst. inversion H4; subst. eauto.
Qed.

(** C5: registering a patient whose four fields are filled and whose age
    parses as an integer of the 64-bit range (negative ages included)
    inserts the stripped fields under the next id, [sqlite_sequence + 1],
    at the end of the patient list, and reports success. *)
Theorem save_patient_spec (name age address contact : string) (n : Z) (d : db) :
  db_ok d ->
  truthy (strip name) && truthy (strip age) && truthy (strip address) && truthy (strip contact) = true ->
  py_int (strip age) = PyOk n -> int64 n -> Table.seq (patients d) < Table.max_rowid ->
  exists pt,
    save_patient name age address contact d =
      PyOk (set_patients pt d, [ShowInfo "Sucesso" "Paciente cadastrado com sucesso!"]) /\
    Table.select_all pt = Table.select_all (patients d) ++
      [(Table.seq (patients d) + 1, mk_patient (strip name) n (strip address) (strip contact))].
Proof.
  intros Hok Hv Hn Hr Hseq. unfold save_patient. cbv zeta. rewrite Hv. simpl.
  rewrite (parse_age_ok _ _ Hn), py_bind_ok. simpl. rewrite bind_int_in, py_bind_ok by done.
  rewrite Table.insert_spec by apply Hok. apply Z.ltb_lt in Hseq. rewrite Hseq, py_bind_ok.
  by eexists.
Qed.

(** C18: registering a doctor: when the three stripped fields are all
    non-empty, the stripped fields are inserted under the next id,
    [sqlite_sequence + 1], at the end of the doctor list, and success is
    reported; when one is empty, "Por favor, preencha todos os campos."
    is shown and nothing is inserted. *)
Theorem save_doctor_spec (name specialty schedule : string) (d : db) :
  db_ok d -> Table.seq (doctors d) < Table.max_rowid ->
  (truthy (strip name) && truthy (strip specialty) && truthy (strip schedule) = true ->
   exists dt,
     save_doctor name specialty schedule d =
       PyOk (set_doctors dt d, [ShowInfo "Sucesso" "Médico cadastrado com sucesso!"]) /\
     Table.select_all dt = Table.select_all (doctors d) ++
       [(Table.seq (doctors d) + 1, mk_doctor (strip name) (strip specialty) (strip schedule))]) /\
  (truthy (strip name) && truthy (strip specialty) && truthy (strip schedule) = false ->
   save_doctor name specialty schedule d = PyOk (d, [ShowError "Erro" msg_fill])).
Proof.
  intros Hok Hseq. unfold save_doctor. cbv zeta. split; intros Hv; rewrite Hv; [|done]. simpl.
  rewrite Table.insert_spec by apply Hok. apply Z.ltb_lt in Hseq. rewrite Hseq, py_bind_ok.
  by eexists.
Qed.

(** C19: a patient whose age does not parse as an integer is refused with
    "A idade deve ser um número." and nothing is inserted. *)
Theorem save_patient_bad_age (name age address contact : string) (m : string) (d : db) :
  truthy (strip name) && truthy (strip age) && truthy (strip address) && truthy (strip contact) = true ->
  py_int (strip age) = PyRaise (ValueError m) ->
  save_patient name age address contact d = PyOk (d, [ShowError "Erro" msg_age]).
Proof.
  intros Hv Hn. unfold save_patient. cbv zeta. rewrite Hv. simpl.
  unfold parse_age. by rewrite Hn.
Qed.

(** C20: an age that parses but falls outside the 64-bit range is not
    caught by [save_patient]: the [OverflowError] of the parameter binding
    escapes the callback; [update_patient] catches the same error and shows
    it in a dialog.  In both cases nothing is written. *)
Theorem age_overflow_handling (i : Z) (name age address contact : string) (n : Z) (d : db) :
  truthy (strip name) && truthy (strip age) && truthy (strip address) && truthy (strip contact) = true ->
  py_int (strip age) = PyOk n -> ~ int64 n ->
  save_patient name age address contact d =
    PyRaise (OverflowError "Python int too large to convert to SQLite INTEGER") /\
  update_patient i name age address contact d =
    PyOk (d, [ShowError "Erro" ("Ocorreu um erro ao atualizar o paciente: " +:+
                                "Python int too large to convert to SQLite INTEGER")]).
Proof.
  intros Hv Hn Hr. unfold save_patient, update_patient. cbv zeta. rewrite Hv. simpl.
  rewrite (parse_age_ok _ _ Hn), !py_bind_ok. simpl. rewrite bind_int_out by done. done.
Qed.

(** C11: submitting the edit form exactly as [edit_patient] filled it
    (stored name, [str] of the stored age, address, contact) reports success
    and leaves the patients table as it was: the form round-trips every
    row the forms can have written. *)
Theorem edit_update_roundtrip (i : Z) (f : patient_form) (d : db) :
  db_ok d -> edit_patient i d = inr f ->
  exists d',
    update_patient i (f_name f) (f_age f) (f_address f) (f_contact f) d =
      PyOk (d', [ShowInfo "Sucesso" "Paciente atualizado com sucesso!"]) /\
    Table.abs (patients d') = Table.abs (patients d) /\ doctors d' = doctors d /\
    appointments d' = appointments d /\ users d' = users d.
Proof.
  intros Hok. unfold edit_patient. destruct (Table.select_by_id i (patients d)) as [p|] eqn:Hp;
    [|discriminate]. intros [= <-]. simpl.
  pose proof (Table.select_by_id_satisfy _ _ _ _ (ok_patients _ Hok) Hp)
    as ([Hn1 Hn2] & Hage & [Ha1 Ha2] & [Hc1 Hc2]).
  destruct (py_str_int_field (p_age p)) as [Hs1 Hs2].
  unfold update_patient. cbv zeta. rewrite Hn1, Hs1, Ha1, Hc1, Hs2.
  replace (truthy (p_name p)) with true by (by destruct (p_name p)).
  replace (truthy (p_address p)) with true by (by destruct (p_address p)).
  replace (truthy (p_contact p)) with true by (by destruct (p_contact p)). simpl.
  rewrite (parse_age_ok _ (p_age p)) by (apply py_int_str, int64_digits, Hage).
  rewrite py_bind_ok. simpl. rewrite (bind_int_in (p_age p) Hage), py_bind_ok.
  rewrite (bind_int_in i (seq_int64 _ _ _ (wf_patients _ (ok_wf _ Hok)) Hp)), py_bind_ok.
  eexists. split; [done|]. simpl. split_and!; try done.
  destruct p. by apply Table.update_abs_same.
Qed.

(** C12: an edit window and a list window open on the same patient can
    be used in either order: updating the patient then deleting it, or
    deleting it then pressing update on the stale edit form, leave the
    same tables (the patients' table up to row order, [Table.tequiv]);
    the update never brings a deleted patient back. *)
Theorem delete_update_commute (i : Z) (n a ad c : string) (d d1 d2 : db) :
  handles d [EUpdatePatient i n a ad c; EDeletePatient (Some i) true] d1 ->
  handles d [EDeletePatient (Some i) true; EUpdatePatient i n a ad c] d2 ->
  Table.tequiv (patients d1) (patients d2) /\ doctors d1 = doctors d2 /\
  appointments d1 = appointments d2 /\ users d1 = users d2 /\
  (int64 i -> Table.select_by_id i (patients d1) = None).
Proof.
  intros (dm & ? & ? & Hu1%update_patient_shape & Hd1%delete_patient_shape)%handles_pair
         (dm' & ? & ? & Hd2%delete_patient_shape & Hu2%update_patient_shape)%handles_pair.
  destruct Hd2 as [[Hn ->] | [Hi ->]].
  - destruct Hu1 as [-> | [? _]]; [|done]. destruct Hd1 as [[_ ->] | [? _]]; [|done].
    destruct Hu2 as [-> | [? _]]; [|done]. split_and!; done.
  - destruct Hd1 as [[? _] | [_ ->]]; [done|].
    destruct Hu1 as [-> | (_ & p & ->)], Hu2 as [-> | (_ & p' & ->)]; simpl;
      (split_and!; [| done.. | intros _; rewrite Table.select_delete; by rewrite decide_True]);
      rewrite ?Table.delete_update_tequiv, ?Table.update_delete_tequiv; reflexivity.
Qed.

(** C21: updating a patient that no longer exists (deleted after its edit
    form was opened) reports "Paciente atualizado com sucesso!" and changes
    nothing: the [UPDATE] matches no row and its row count is not
    checked. *)
Theorem update_missing_reports_success (i : Z) (name age address contact : string) (n : Z) (d : db) :
  Table.select_by_id i (patients d) = None -> int64 i ->
  truthy (strip name) && truthy (strip age) && truthy (strip address) && truthy (strip contact) = true ->
  py_int (strip age) = PyOk n -> int64 n ->
  exists d',
    update_patient i name age address contact d =
      PyOk (d', [ShowInfo "Sucesso" "Paciente atualizado com sucesso!"]) /\
    Table.abs (patients d') = Table.abs (patients d) /\ doctors d' = doctors d /\
    appointments d' = appointments d /\ users d' = users d.
Proof.
  intros Hp Hi Hv Hn Hr. unfold update_patient. cbv zeta. rewrite Hv. simpl.
  rewrite (parse_age_ok _ _ Hn), py_bind_ok. simpl. rewrite !bind_int_in, !py_bind_ok by done.
  eexists. split; [done|]. simpl. split_and!; try done. by apply Table.update_abs_absent.
Qed.

(** C22: a confirmed delete of the selected patient removes exactly that
    id and reports success, whether or not a row had that id: deleting an
    id that is already gone is a silent no-op reported as a success. *)
Theorem delete_patient_spec (i : Z) (d : db) :
  int64 i ->
  exists d',
    delete_patient (Some i) true d = PyOk (d', [ShowInfo "Sucesso" "Paciente deletado com sucesso!"]) /\
    Table.select_by_id i (patients d') = None /\
    (forall j, j <> i -> Table.select_by_id j (patients d') = Table.select_by_id j (patients d)) /\
    (Table.select_by_id i (patients d) = None -> Table.abs (patients d') = Table.abs (patients d)) /\
    doctors d' = doctors d /\ appointments d' = appointments d.
Proof.
  intros Hi. unfold delete_patient, delete_selected. rewrite bind_int_in by done.
  eexists. split; [done|]. simpl. split_and!; try done.
  - rewrite Table.select_delete. by case_decide.
  - intros j Hj. rewrite Table.select_delete. by case_decide.
  - apply Table.delete_abs_absent.
Qed.

(** C10: deleting a doctor that an appointment references succeeds and does
    not touch the appointment: its row stays, its doctor reference no
    longer resolves, and the appointment list no longer shows it. *)
Theorem delete_doctor_leaves_dangling (d d' : db) (i j : Z) (a : appointment) (ds : list dialog) :
  db_ok d -> Table.select_by_id j (appointments d) = Some a -> a_doctor_id a = i ->
  delete_doctor (Some i) true d = PyOk (d', ds) ->
  Table.select_by_id j (appointments d') = Some a /\ dangling d' a /\
  ~ (exists r, r ∈ view_appointments d' /\ r_id r = j).
Proof.
  intros Hok Ha Hi H. pose proof (Table.select_by_id_satisfy _ _ _ _ (ok_appointments _ Hok) Ha)
    as (_ & Hint & _).
  unfold delete_doctor, delete_selected in H. rewrite Hi in Hint. rewrite bind_int_in in H by done.
  injection H as <- _.
  assert (Hd : dangling (set_doctors (Table.delete_by_id i (doctors d)) d) a).
  { right. simpl. rewrite Table.select_delete, Hi. by case_decide. }
  split_and!; [done | done |].
  rewrite (join_resolved _ j a); [tauto | | done].
  apply (ok_wf _ (ok_delete_doctor d i Hok)).
Qed.

(** C6: saving the scheduling form with its initial selections (the first
    patient and the first doctor, as [f"{id}: {name}"] options) and a date
    and time of the right shape inserts an appointment that references
    exactly those two ids, under the next id.  The digits are not checked
    as a calendar date or a time of day: ["15/13/2024"] and ["99:99"] are
    stored. *)
Theorem schedule_then_save (d : db) (f : appt_form) (date time : string) :
  db_ok d -> schedule_appointment d = inr f ->
  Regex.date_shape (strip date) = true -> Regex.time_shape (strip time) = true ->
  Table.seq (appointments d) < Table.max_rowid ->
  exists pid p did dr t,
    head (Table.select_all (patients d)) = Some (pid, p) /\
    head (Table.select_all (doctors d)) = Some (did, dr) /\
    save_appointment (sel_patient f) (sel_doctor f) date time d =
      PyOk (set_appointments t d, [ShowInfo "Sucesso" "Consulta agendada com sucesso!"]) /\
    Table.select_all t = Table.select_all (appointments d) ++
      [(Table.seq (appointments d) + 1, mk_appointment pid did (strip date) (strip time))].
Proof.
  intros Hok Hf Hdate Htime Hseq. unfold schedule_appointment in Hf.
  destruct (Table.select_all (patients d)) as [|[pid p] ps] eqn:Hps; [discriminate|].
  destruct (Table.select_all (doctors d)) as [|[did dr] drs] eqn:Hds; [discriminate|].
  injection Hf as <-. simpl.
  assert (Hpi : int64 pid).
  { eapply (seq_int64 (patients d)); [apply Hok|]. apply head_select; [apply Hok|]. by rewrite Hps. }
  assert (Hdi : int64 did).
  { eapply (seq_int64 (doctors d)); [apply Hok|]. apply head_select; [apply Hok|]. by rewrite Hds. }
  unfold save_appointment, parse_selection. cbv zeta.
  rewrite !truthy_format_option, !shape_truthy by auto. simpl.
  rewrite !option_id by (apply int64_digits; done). rewrite !py_bind_ok.
  rewrite Regex.re_match_date, Hdate, Regex.re_match_time_stripped, Htime. simpl.
  rewrite (bind_int_in pid Hpi), py_bind_ok, (bind_int_in did Hdi), py_bind_ok.
  rewrite Table.insert_spec by apply Hok. apply Z.ltb_lt in Hseq. rewrite Hseq, py_bind_ok.
  do 5 eexists. split_and!; [done | done | done | done].
Qed.

(** C2: every database reached from a consistent one by any sequence of
    handled callbacks is consistent: its tables are well formed and every
    row satisfies the checks of the form that wrote it. *)
Theorem handles_ok (d d' : db) (es : list event) :
  db_ok d -> handles d es d' -> db_ok d'.
Proof. intros Hok H. induction H; eauto using handle_ok. Qed.

(** C23: for a search term with no [%] or [_] and a pattern within
    SQLite's 50000-byte limit, the search shows exactly the patients whose
    name contains the stripped term, ASCII letters compared without case,
    in id order, and an information box when there is none. *)
Theorem perform_search_spec (term : string) (d : db) :
  Like.no_wildcard (strip term) = true ->
  (Like.utf8_len (Like.search_pattern (strip term)) <= Like.max_like_pattern_length)%N ->
  exists rs,
    perform_search term d =
      PyOk (rs, match rs with
                | [] => [ShowInfo "Resultado da Busca" "Nenhum paciente encontrado com o nome especificado."]
                | _ => [] end) /\
    forall i p, (i, p) ∈ rs <->
      (i, p) ∈ Table.select_all (patients d) /\
      exists a b c, p_name p = a +:+ b +:+ c /\ Like.fold_str b = Like.fold_str (strip term).
Proof.
  intros Hw Hlen. unfold perform_search. cbv zeta. rewrite like_filter_ok, py_bind_ok by done.
  set (rs := filter _ (Table.select_all (patients d))). exists rs. split; [by destruct rs|].
  intros i p. unfold rs.
  rewrite list_elem_of_filter. cbn beta. rewrite Like.like_substring by done. tauto.
Qed.

(** C24: a search term whose pattern exceeds SQLite's 50000-byte LIKE
    limit makes the query fail as soon as one patient exists; the
    [OperationalError] is not caught by [perform_search].  With no patient
    the query returns no row and no error. *)
Theorem perform_search_too_long (term : string) (d : db) :
  (Like.max_like_pattern_length < Like.utf8_len (Like.search_pattern (strip term)))%N ->
  perform_search term d =
    match Table.select_all (patients d) with
    | [] => PyOk ([], [ShowInfo "Resultado da Busca" "Nenhum paciente encontrado com o nome especificado."])
    | _ => PyRaise (OperationalError "LIKE or GLOB pattern too complex")
    end.
Proof.
  intros Hlen. unfold perform_search. cbv zeta.
  destruct (Table.select_all (patients d)) eqn:E; [done|].
  rewrite like_filter_long; [done | done | discriminate].
Qed.

(** ** Witnesses *)

(** Well-formedness and the row checks of a concrete database, by
    evaluation. *)
Ltac solve_db_ok :=
  match goal with |- db_ok ?x => let y := eval vm_compute in x in change (db_ok y) end;
  split; [split|..];
  try (split; unfold Table.keys, Table.max_rowid; cbn; repeat constructor; lia);
  unfold Table.rows_satisfy; cbn; repeat constructor; cbn; first [discriminate | lia].

(** Handle a list of events one by one, by evaluation. *)
Ltac run_events := repeat (econstructor; [reflexivity|]); first [constructor | vm_compute; constructor].

Lemma handles_ok_witness :
  exists d', handles sample_db [ESavePatient " Ana " "-5" "Rua B" "9"; EDeleteDoctor (Some 3) true;
                               ESaveAppointment "1: Ana" "2: Dr Rui" "15/13/2024" "99:99"] d' /\
             db_ok d'.
Proof.
  eexists. split; [run_events|].
  eapply (handles_ok sample_db _ [ESavePatient " Ana " "-5" "Rua B" "9"; EDeleteDoctor (Some 3) true;
                               ESaveAppointment "1: Ana" "2: Dr Rui" "15/13/2024" "99:99"]);
    [solve_db_ok | run_events].
Defined.

Lemma delete_update_commute_witness :
  exists d1 d2,
    handles sample_db [EUpdatePatient 1 "Ana Maria" "31" "Rua A" "555"; EDeletePatient (Some 1) true] d1 /\
    handles sample_db [EDeletePatient (Some 1) true; EUpdatePatient 1 "Ana Maria" "31" "Rua A" "555"] d2 /\
    Table.tequiv (patients d1) (patients d2) /\ doctors d1 = doctors d2 /\
    appointments d1 = appointments d2 /\ users d1 = users d2 /\
    (int64 1 -> Table.select_by_id 1 (patients d1) = None).
Proof.
  do 2 eexists. split; [run_events|]. split; [run_events|].
  eapply (delete_update_commute 1 "Ana Maria" "31" "Rua A" "555" sample_db); run_events.
Defined.

Lemma save_patient_spec_witness :
  exists pt,
    save_patient " Ana " "-5" "Rua B" "9" sample_db =
      PyOk (set_patients pt sample_db, [ShowInfo "Sucesso" "Paciente cadastrado com sucesso!"]) /\
    Table.select_all pt = Table.select_all (patients sample_db) ++
      [(Table.seq (patients sample_db) + 1, mk_patient (strip " Ana ") (-5) (strip "Rua B") (strip "9"))].
Proof.
  apply (save_patient_spec " Ana " "-5" "Rua B" "9" (-5) sample_db);
    [solve_db_ok | reflexivity | reflexivity | unfold int64; lia | vm_compute; reflexivity].
Defined.

Lemma save_doctor_spec_witness :
  (truthy (strip " Rui ") && truthy (strip "Cardiologia") && truthy (strip "8-12") = true ->
   exists dt,
     save_doctor " Rui " "Cardiologia" "8-12" sample_db =
       PyOk (set_doctors dt sample_db, [ShowInfo "Sucesso" "Médico cadastrado com sucesso!"]) /\
     Table.select_all dt = Table.select_all (doctors sample_db) ++
       [(Table.seq (doctors sample_db) + 1, mk_doctor (strip " Rui ") (strip "Cardiologia") (strip "8-12"))]) /\
  (truthy (strip " Rui ") && truthy (strip "Cardiologia") && truthy (strip "8-12") = false ->
   save_doctor " Rui " "Cardiologia" "8-12" sample_db = PyOk (sample_db, [ShowError "Erro" msg_fill])).
Proof.
  apply (save_doctor_spec " Rui " "Cardiologia" "8-12" sample_db); [solve_db_ok | vm_compute; reflexivity].
Defined.

Lemma schedule_then_save_witness :
  exists pid p did dr t,
    head (Table.select_all (patients sample_db)) = Some (pid, p) /\
    head (Table.select_all (doctors sample_db)) = Some (did, dr) /\
    save_appointment "1: Ana" "2: Dr Rui" "15/13/2024" "99:99" sample_db =
      PyOk (set_appointments t sample_db, [ShowInfo "Sucesso" "Consulta agendada com sucesso!"]) /\
    Table.select_all t = Table.select_all (appointments sample_db) ++
      [(Table.seq (appointments sample_db) + 1,
        mk_appointment pid did (strip "15/13/2024") (strip "99:99"))].
Proof.
  apply (schedule_then_save sample_db (mk_appt_form ["1: Ana"] ["2: Dr Rui"; "3: Dr Eva"]
    "1: Ana" "2: Dr Rui")); [solve_db_ok | reflexivity | reflexivity | reflexivity
    | vm_compute; reflexivity].
Defined.

Lemma delete_doctor_leaves_dangling_witness :
  exists d' ds, delete_doctor (Some 3) true sample_db = PyOk (d', ds) /\
    Table.select_by_id 1 (appointments d') = Some (mk_appointment 1 3 "01/02/2024" "09:30") /\
    dangling d' (mk_appointment 1 3 "01/02/2024" "09:30") /\
    ~ (exists r, r ∈ view_appointments d' /\ r_id r = 1).
Proof.
  do 2 eexists. split; [reflexivity|].
  eapply (delete_doctor_leaves_dangling sample_db _ 3 1); [solve_db_ok | reflexivity | reflexivity
    | reflexivity].
Defined.

Lemma edit_update_roundtrip_witness :
  exists d',
    update_patient 1 "Ana" "30" "Rua A" "555" sample_db =
      PyOk (d', [ShowInfo "Sucesso" "Paciente atualizado com sucesso!"]) /\
    Table.abs (patients d') = Table.abs (patients sample_db) /\ doctors d' = doctors sample_db /\
    appointments d' = appointments sample_db /\ users d' = users sample_db.
Proof.
  apply (edit_update_roundtrip 1 (mk_patient_form "Ana" "30" "Rua A" "555") sample_db);
    [solve_db_ok | reflexivity].
Defined.

Lemma save_patient_bad_age_witness :
  save_patient "Ana" "trinta" "Rua A" "555" sample_db = PyOk (sample_db, [ShowError "Erro" msg_age]).
Proof. apply (save_patient_bad_age _ _ _ _ "invalid literal for int() with base 10"); reflexivity. Defined.

Lemma age_overflow_handling_witness :
  save_patient "Ana" "99999999999999999999" "Rua A" "555" sample_db =
    PyRaise (OverflowError "Python int too large to convert to SQLite INTEGER") /\
  update_patient 1 "Ana" "99999999999999999999" "Rua A" "555" sample_db =
    PyOk (sample_db, [ShowError "Erro" ("Ocorreu um erro ao atualizar o paciente: " +:+
                                        "Python int too large to convert to SQLite INTEGER")]).
Proof.
  apply (age_overflow_handling _ _ _ _ _ 99999999999999999999);
    [reflexivity | reflexivity | unfold int64; lia].
Defined.

Lemma update_missing_reports_success_witness :
  exists d',
    update_patient 7 "Bia" "41" "Rua C" "777" sample_db =
      PyOk (d', [ShowInfo "Sucesso" "Paciente atualizado com sucesso!"]) /\
    Table.abs (patients d') = Table.abs (patients sample_db) /\ doctors d' = doctors sample_db /\
    appointments d' = appointments sample_db /\ users d' = users sample_db.
Proof.
  apply (update_missing_reports_success 7 _ _ _ _ 41);
    [reflexivity | unfold int64; lia | reflexivity | reflexivity | unfold int64; lia].
Defined.

Lemma delete_patient_spec_witness :
  exists d',
    delete_patient (Some 7) true sample_db =
      PyOk (d', [ShowInfo "Sucesso" "Paciente deletado com sucesso!"]) /\
    Table.select_by_id 7 (patients d') = None /\
    (forall j, j <> 7 -> Table.select_by_id j (patients d') = Table.select_by_id j (patients sample_db)) /\
    (Table.select_by_id 7 (patients sample_db) = None ->
     Table.abs (patients d') = Table.abs (patients sample_db)) /\
    doctors d' = doctors sample_db /\ appointments d' = appointments sample_db.
Proof. apply delete_patient_spec. unfold int64. lia. Defined.

Lemma perform_search_spec_witness :
  exists rs,
    perform_search " an " sample_db =
      PyOk (rs, match rs with
                | [] => [ShowInfo "Resultado da Busca" "Nenhum paciente encontrado com o nome especificado."]
                | _ => [] end) /\
    forall i p, (i, p) ∈ rs <->
      (i, p) ∈ Table.select_all (patients sample_db) /\
      exists a b c, p_name p = a +:+ b +:+ c /\ Like.fold_str b = Like.fold_str (strip " an ").
Proof. apply perform_search_spec; vm_compute; [reflexivity | discriminate]. Defined.

Lemma perform_search_too_long_witness :
  perform_search (srepeat 25001 "233"%char) sample_db =
    PyRaise (OperationalError "LIKE or GLOB pattern too complex").
Proof. apply (perform_search_too_long _ sample_db). vm_compute. reflexivity. Defined.

End Handlers.
