(* ===== verification/Files.v ===== *)
(** * Files: the CSV export, the backup and the restore

    Three callbacks of src/programa_hospital.py work on files rather than
    on the tables: [export_appointments_to_csv] (lines 79-106) writes the
    appointment join to a CSV file, [backup_database] (lines 109-118)
    copies [hospital.db] to a file the user picks, [restore_database]
    (lines 121-132) copies a file the user picks over [hospital.db].

    The file system is [fsys]: a map from paths to contents ([FDb d] for
    an SQLite database file holding [d], [FText s] for a text file) and
    the set of paths the process may not write.  Paths are absolute and
    canonical: [db_path] is the path of [hospital.db] in the working
    directory, and the dialogs [asksaveasfilename] and [askopenfilename]
    return a path or the empty string on cancel.  [shutil.copy] and
    [open(..., 'w')] are modelled with the errors the callbacks can meet:
    a missing source ([FileNotFoundError]), the same file as source and
    destination ([shutil.SameFileError]) and a destination that may not be
    written ([PermissionError]); each is an [OSError] the callbacks catch.

    Theorems: the export writes a file that reads back as the header and
    the rows of the join, and reports success; a backup restored later
    brings the database back; a backup onto [hospital.db] itself is
    refused and reported.  What an export onto [hospital.db] does to the
    running interface is a theorem of [App]. *)

From S2P Require Import Prelude PyStr Csv Table Db Handlers.

Module Files.
Import PyStr Db Handlers.

(** ** The file system *)

Inductive file :=
  | FDb (d : db)
  | FText (s : string).

Record fsys := mk_fsys { files : gmap string file; locked : gset string }.

Definition set_files (m : gmap string file) (f : fsys) : fsys := mk_fsys m (locked f).

Definition db_path : string := "hospital.db".

(** [repr] of a path without quotes in it, as the error messages show it. *)
Definition pyrepr (p : string) : string := "'" +:+ p +:+ "'".

Definition err_not_found (p : string) : PyExc :=
  OSError ("[Errno 2] No such file or directory: " +:+ pyrepr p).
Definition err_denied (p : string) : PyExc :=
  OSError ("[Errno 13] Permission denied: " +:+ pyrepr p).
Definition err_same (src dst : string) : PyExc :=
  OSError (pyrepr src +:+ " and " +:+ pyrepr dst +:+ " are the same file").

(** [sqlite3.connect("hospital.db")] followed by a statement on [table]:
    a file of zero bytes is an empty database, without tables, as is a
    missing file (which [connect] creates empty); any other text file is
    not a database. *)
Definition open_db (table : string) (f : fsys) : py db :=
  match files f !! db_path with
  | Some (FDb d) => PyOk d
  | Some (FText EmptyString) | None => PyRaise (OperationalError ("no such table: " +:+ table))
  | Some (FText _) => PyRaise (DatabaseError "file is not a database")
  end.

(** [open(p, 'w')] and writing [x]. *)
Definition write_file (p : string) (x : file) (f : fsys) : py fsys :=
  if decide (p ∈ locked f) then PyRaise (err_denied p)
  else PyOk (set_files (<[p := x]> (files f)) f).

(** [shutil.copy(src, dst)]: [_samefile] is checked first, and only
    between existing files. *)
Definition shutil_copy (src dst : string) (f : fsys) : py fsys :=
  match files f !! src with
  | None => PyRaise (err_not_found src)
  | Some x => if String.eqb src dst then PyRaise (err_same src dst) else write_file dst x f
  end.

Definition fresult := py (fsys * list dialog).

(** ** [export_appointments_to_csv] *)

(** The header row of line 102, as the code points of its literals. *)
Definition csv_header : list string := map latin1_of_utf8 ["ID"; "Paciente"; "Médico"; "Data"; "Hora"].

(** A row of the join as [csv.writer] writes it: the id through [str()]. *)
Definition csv_record (r : appt_row) : list string :=
  [py_str_int (r_id r); r_patient r; r_doctor r; r_date r; r_time r].

Definition export_text (rows : list appt_row) : string :=
  Csv.writerow csv_header +:+ Csv.writerows (map csv_record rows).

(** The query runs before the [try]; opening and writing the file are in
    it. *)
Definition export_appointments_to_csv (file_path : string) (f : fsys) : fresult :=
  d ← open_db "appointments" f;
  match appointments_join d with
  | [] => PyOk (f, [ShowError "Erro" "Nenhuma consulta para exportar."])
  | rows =>
      if truthy file_path then
        match write_file file_path (FText (export_text rows)) f with
        | PyOk f' => PyOk (f', [ShowInfo "Sucesso"
                                 ("Consultas exportadas para " +:+ file_path +:+ " com sucesso!")])
        | PyRaise e => PyOk (f, [ShowError "Erro" ("Ocorreu um erro ao exportar as consultas: " +:+ exc_msg e)])
        end
      else PyOk (f, [])
  end.

(** ** [backup_database] and [restore_database] *)

Definition backup_database (backup_path : string) (f : fsys) : fresult :=
  if truthy backup_path then
    match shutil_copy db_path backup_path f with
    | PyOk f' => PyOk (f', [ShowInfo "Sucesso" ("Backup realizado com sucesso em " +:+ backup_path)])
    | PyRaise e => PyOk (f, [ShowError "Erro" ("Ocorreu um erro ao realizar o backup: " +:+ exc_msg e)])
    end
  else PyOk (f, []).

Definition restore_database (restore_path : string) (confirm : bool) (f : fsys) : fresult :=
  if truthy restore_path then
    if confirm then
      match shutil_copy restore_path db_path f with
      | PyOk f' => PyOk (f', [ShowInfo "Sucesso" "Banco de dados restaurado com sucesso!"])
      | PyRaise e => PyOk (f, [ShowError "Erro" ("Ocorreu um erro ao restaurar o banco de dados: " +:+ exc_msg e)])
      end
    else PyOk (f, [])
  else PyOk (f, []).

(** ** Sample file systems *)

(** The working directory with [hospital.db] holding [Handlers.sample_db];
    the same after a backup to [/tmp/b.db]; and after [hospital.db] was
    then overwritten by a text file. *)
Definition sample_fs : fsys := mk_fsys {[db_path := FDb sample_db]} ∅.
Definition backup_fs : fsys := set_files (<["/tmp/b.db" := FDb sample_db]> (files sample_fs)) sample_fs.
Definition clobbered_fs : fsys := set_files (<[db_path := FText "ID,Paciente"]> (files backup_fs)) backup_fs.

(** ** Lemmas *)

Lemma write_file_ok (p : string) (x : file) (f : fsys) :
  p ∉ locked f -> write_file p x f = PyOk (set_files (<[p := x]> (files f)) f).
Proof. intros H. unfold write_file. by rewrite decide_False. Qed.

Lemma shutil_copy_ok (src dst : string) (x : file) (f : fsys) :
  files f !! src = Some x -> src <> dst -> dst ∉ locked f ->
  shutil_copy src dst f = PyOk (set_files (<[dst := x]> (files f)) f).
Proof.
  intros Hx Hne Hl. unfold shutil_copy. rewrite Hx.
  destruct (String.eqb_spec src dst); [done|]. by apply write_file_ok.
Qed.

(** What [shutil_copy] leaves: the destination holds the source's
    content, every other path is unchanged. *)
Lemma shutil_copy_inv (src dst : string) (f f' : fsys) :
  shutil_copy src dst f = PyOk f' ->
  exists x, files f !! src = Some x /\ src <> dst /\ dst ∉ locked f /\
    f' = set_files (<[dst := x]> (files f)) f.
Proof.
  unfold shutil_copy, write_file. destruct (files f !! src) as [x|]; [|discriminate].
  destruct (String.eqb_spec src dst); [discriminate|].
  case_decide; [discriminate|]. intros [= <-]. eauto.
Qed.

(** The exported text reads back as the header and the join's rows. *)
Lemma export_text_read (rows : list appt_row) :
  Csv.read (export_text rows) = csv_header :: map csv_record rows.
Proof.
  unfold export_text, Csv.read. rewrite Csv.read_writerow. f_equal. apply Csv.csv_roundtrip_lemma.
Qed.

(** The exported text is never empty: the header row comes first. *)
Lemma export_text_nonempty (rows : list appt_row) : export_text rows <> "".
Proof. unfold export_text. intros [H _]%sapp_nil_inv. discriminate. Qed.

(** The success path of the export: the text of the join written to [p]. *)
Lemma export_ok (p : string) (f : fsys) (d : db) :
  files f !! db_path = Some (FDb d) -> appointments_join d <> [] ->
  truthy p = true -> p ∉ locked f ->
  export_appointments_to_csv p f =
    PyOk (set_files (<[p := FText (export_text (appointments_join d))]> (files f)) f,
          [ShowInfo "Sucesso" ("Consultas exportadas para " +:+ p +:+ " com sucesso!")]).
Proof.
  intros Hd Hne Hp Hl. unfold export_appointments_to_csv, open_db. rewrite Hd. simpl.
  destruct (appointments_join d) as [|r rs]; [done|]. by rewrite Hp, write_file_ok.
Qed.

(** ** Theorems *)

(** C8: with the database in place, at least one listed appointment and a
    writable path, the export writes a text that reads back (RFC 4180) as
    the header row and one row per appointment of the join, ids as
    [str()] writes them, and reports success. *)
Theorem export_spec (p : string) (f : fsys) (d : db) :
  files f !! db_path = Some (FDb d) -> appointments_join d <> [] ->
  truthy p = true -> p ∉ locked f ->
  exists t,
    export_appointments_to_csv p f =
      PyOk (set_files (<[p := FText t]> (files f)) f,
            [ShowInfo "Sucesso" ("Consultas exportadas para " +:+ p +:+ " com sucesso!")]) /\
    Csv.read t = csv_header :: map csv_record (appointments_join d).
Proof.
  intros Hd Hne Hp Hl. exists (export_text (appointments_join d)).
  split; [by apply export_ok | apply export_text_read].
Qed.

(** C9: a backup that reported success, restored later from the same
    file (untouched in between, [hospital.db] writable), puts back the
    database file as it was when the backup was made, whatever happened
    to [hospital.db] in between. *)
Theorem backup_restore (p : string) (f f1 f2 : fsys) :
  backup_database p f = PyOk (f1, [ShowInfo "Sucesso" ("Backup realizado com sucesso em " +:+ p)]) ->
  files f2 !! p = files f1 !! p -> db_path ∉ locked f2 ->
  exists x, files f !! db_path = Some x /\
    restore_database p true f2 =
      PyOk (set_files (<[db_path := x]> (files f2)) f2,
            [ShowInfo "Sucesso" "Banco de dados restaurado com sucesso!"]).
Proof.
  unfold backup_database. destruct (truthy p) eqn:Hp; [|discriminate].
  destruct (shutil_copy db_path p f) as [f1'|e] eqn:Hc; [|discriminate].
  intros [= ->] Hsame Hl. apply shutil_copy_inv in Hc as (x & Hx & Hne & _ & ->).
  exists x. split; [done|]. unfold restore_database. rewrite Hp.
  rewrite shutil_copy_ok with (x := x); [done | | congruence | done].
  rewrite Hsame. simpl. by rewrite lookup_insert_eq.
Qed.

(** C34: a backup onto [hospital.db] itself is refused by [shutil.copy]
    ([SameFileError]) and reported; nothing changes. *)
Theorem backup_onto_itself (f : fsys) (x : file) :
  files f !! db_path = Some x ->
  backup_database db_path f =
    PyOk (f, [ShowError "Erro" ("Ocorreu um erro ao realizar o backup: " +:+
                                exc_msg (err_same db_path db_path))]).
Proof. intros Hx. unfold backup_database, shutil_copy. simpl. by rewrite Hx. Qed.

(** ** Witnesses *)

Lemma export_spec_witness :
  exists t,
    export_appointments_to_csv "/tmp/consultas.csv" sample_fs =
      PyOk (set_files (<["/tmp/consultas.csv" := FText t]> (files sample_fs)) sample_fs,
            [ShowInfo "Sucesso" ("Consultas exportadas para " +:+ "/tmp/consultas.csv" +:+ " com sucesso!")]) /\
    Csv.read t = csv_header :: map csv_record (appointments_join sample_db).
Proof.
  apply (export_spec "/tmp/consultas.csv" sample_fs sample_db);
    [reflexivity | vm_compute; discriminate | reflexivity | set_solver].
Defined.

Lemma backup_restore_witness :
  exists x, files sample_fs !! db_path = Some x /\
    restore_database "/tmp/b.db" true clobbered_fs =
      PyOk (set_files (<[db_path := x]> (files clobbered_fs)) clobbered_fs,
            [ShowInfo "Sucesso" "Banco de dados restaurado com sucesso!"]).
Proof.
  apply (backup_restore "/tmp/b.db" sample_fs backup_fs clobbered_fs);
    [reflexivity | reflexivity | set_solver].
Defined.

Lemma backup_onto_itself_witness :
  backup_database db_path sample_fs =
    PyOk (sample_fs, [ShowError "Erro" ("Ocorreu um erro ao realizar o backup: " +:+
                                        exc_msg (err_same db_path db_path))]).
Proof. apply (backup_onto_itself sample_fs (FDb sample_db)). reflexivity. Defined.

End Files.
