(* ===== verification/App.v ===== *)
(** * The application: module namespace, menu, windows and their callbacks

    src/programa_hospital.py defines its functions at module level, in
    order; [main_window] (lines 135-236) builds the menu bar and the main
    frame, whose items call module-level functions by their global names,
    looked up when [main_window] runs, after the whole module has been
    executed.  [view_doctors] is defined twice (lines 603-677 and 925-928):
    the second definition, a stub, is the one the name denotes.

    - [module_defs] lists the module-level [def]s in the order of the file
      and [bind_globals] executes them: the later binding of a name wins.
    - [call] is what calling one of them from the menu does: open a
      window ([window], with the rows its tree was filled with), or run
      the export, backup or restore of [Files].  The three list functions
      ([open_view_patients], [open_view_doctors],
      [open_view_appointments]) open their window before they query and
      pack its tree and buttons after it, so a failing query leaves an
      empty window ([WEmpty]) that can only be closed.
    - [ui] is the state of the running interface: the file system, the
      open windows, whether the main loop still runs.  [ui_step g] is one
      user action under the namespace [g]: a menu item, closing a window,
      or a button or double click in an open window, labelled with the
      callback it runs ([LEvent e] for the handlers of [Handlers]).
      Callbacks connect to [hospital.db] through [run_db]; a callback that
      raises changes no file and no window, except the search, which
      clears its tree before it queries.
    - [main] is the [__main__] block (lines 930-932): [setup_fs] runs
      [setup_database] on the working directory ([sqlite3.connect]
      creates a missing [hospital.db]), then [main_window] starts the
      main loop in the state [initial], with no window open.

    Windows keep the rows they were opened with: a list can show rows
    that another window has since deleted, and its buttons act on those
    stale ids.  When [hospital.db] is not a database file (after an
    export or a restore onto it), a callback's result is the
    [DatabaseError] of its first statement; the validation dialogs such
    a callback may show before it connects are not distinguished.

    The dialogs are not part of [ui]: a callback that shows an error or
    raises changes neither a file nor a window, so the order in which a
    callback validates and connects does not change the states modelled.

    Theorems: every reachable state keeps every database file within the
    data invariant [Handlers.db_ok], interleavings and stale windows
    included; the interface refines the handler model (a run without
    file operations changes [hospital.db] exactly as [Handlers.handles]
    does for the callbacks it ran); with the namespace the file builds,
    no reachable action runs [update_doctor] or [delete_doctor] (the
    example [doctor_delete_reachable_without_stub] shows that without
    the stub one does); [__main__] starts the interface on a set-up
    database, after which the invariant holds in every reachable state,
    and a first run seeds exactly [admin]; an export onto [hospital.db]
    reports success and leaves an interface in which no form or list
    callback can run until the next file operation. *)

From S2P Require Import Prelude PyStr Table Db Handlers Files.

Module App.
Import PyStr Db Handlers Files.

(** ** The module namespace *)

Inductive pydef :=
  | DSetupDatabase | DConfigureStyles | DExport | DBackup | DRestore | DMainWindow
  | DRegisterPatient | DRegisterDoctor | DScheduleAppointment | DViewPatients | DEditPatient
  | DViewDoctors | DEditDoctor | DViewAppointments | DSearchPatients
  | DViewDoctorsStub.

(** The [def] statements at module level, in the order of the file. *)
Definition module_defs : list (string * pydef) :=
  [("setup_database", DSetupDatabase); ("configure_styles", DConfigureStyles);
   ("export_appointments_to_csv", DExport); ("backup_database", DBackup);
   ("restore_database", DRestore); ("main_window", DMainWindow);
   ("register_patient", DRegisterPatient); ("register_doctor", DRegisterDoctor);
   ("schedule_appointment", DScheduleAppointment); ("view_patients", DViewPatients);
   ("edit_patient", DEditPatient); ("view_doctors", DViewDoctors); ("edit_doctor", DEditDoctor);
   ("view_appointments", DViewAppointments); ("search_patients", DSearchPatients);
   ("view_doctors", DViewDoctorsStub)].

Definition bind_globals (defs : list (string * pydef)) : gmap string pydef :=
  foldl (fun g '(n, x) => <[n := x]> g) ∅ defs.

Definition globals : gmap string pydef := bind_globals module_defs.

(** The namespace without the last [def], the stub of [view_doctors]:
    what the file would bind if the stub were removed. *)
Definition intended_globals : gmap string pydef := bind_globals (removelast module_defs).

(** ** The menu *)

(** The menu items and the main frame's buttons (the same functions). *)
Inductive command :=
  | MRegisterPatient | MViewPatients | MSearchPatients | MRegisterDoctor | MViewDoctors
  | MScheduleAppointment | MViewAppointments | MExport | MBackup | MRestore.

Definition command_target (c : command) : string :=
  match c with
  | MRegisterPatient => "register_patient"
  | MViewPatients => "view_patients"
  | MSearchPatients => "search_patients"
  | MRegisterDoctor => "register_doctor"
  | MViewDoctors => "view_doctors"
  | MScheduleAppointment => "schedule_appointment"
  | MViewAppointments => "view_appointments"
  | MExport => "export_appointments_to_csv"
  | MBackup => "backup_database"
  | MRestore => "restore_database"
  end.

(** The answers to the file dialogs and the confirmation box a menu
    function may ask. *)
Record answers := mk_answers { ans_path : string; ans_confirm : bool }.

(** ** Windows *)

Inductive window :=
  | WRegisterPatient
  | WRegisterDoctor
  | WSchedule (form : appt_form)
  | WViewPatients (rows : list (Z * patient))
  | WEditPatient (patient_id : Z) (form : patient_form)
  | WSearch (rows : list (Z * patient))
  | WViewDoctors (rows : list (Z * doctor))
  | WEditDoctor (doctor_id : Z) (form : doctor_form)
  | WViewAppointments (rows : list appt_row)
  | WEmpty.  (** a list window whose query raised: its tree and buttons,
                 packed after the query, never appear *)

Record ui := mk_ui { ui_fs : fsys; wins : list window; running : bool }.

(** The interface [main_window] starts with. *)
Definition initial (f : fsys) : ui := mk_ui f [] true.

(** ** Calls *)

(** A callback on [hospital.db]: connect, run, commit. *)
Definition run_db (table : string) (h : db -> result) (f : fsys) : fresult :=
  d ← open_db table f;
  '(d', ds) ← h d;
  PyOk (set_files (<[db_path := FDb d']> (files f)) f, ds).

(** The functions that open a window.  [register_patient],
    [register_doctor] and [search_patients] open their form; the three
    lists open their [Toplevel] first, then query, and pack the tree and
    the buttons only after the query: when the query raises, the
    exception escapes to Tk and the window stays open, empty. *)
Definition open_register_patient : list window := [WRegisterPatient].
Definition open_register_doctor : list window := [WRegisterDoctor].
Definition open_search_patients : list window := [WSearch []].

Definition open_view_patients (f : fsys) : list window * option PyExc :=
  match open_db "patients" f with
  | PyOk d => ([WViewPatients (view_patients d)], None)
  | PyRaise e => ([WEmpty], Some e)
  end.

Definition open_view_doctors (f : fsys) : list window * option PyExc :=
  match open_db "doctors" f with
  | PyOk d => ([WViewDoctors (view_doctors d)], None)
  | PyRaise e => ([WEmpty], Some e)
  end.

Definition open_view_appointments (f : fsys) : list window * option PyExc :=
  match open_db "appointments" f with
  | PyOk d => ([WViewAppointments (view_appointments d)], None)
  | PyRaise e => ([WEmpty], Some e)
  end.

(** Calling a module-level function with no argument from the menu (or
    from a callback that refreshes a list): the file system after it, the
    windows it opened, the dialogs it showed.  An exception escaping a
    list function after its window opened is printed by Tk and leaves
    the window. *)
Definition call (x : pydef) (a : answers) (f : fsys) : py (fsys * list window * list dialog) :=
  match x with
  | DRegisterPatient => PyOk (f, open_register_patient, [])
  | DRegisterDoctor => PyOk (f, open_register_doctor, [])
  | DSearchPatients => PyOk (f, open_search_patients, [])
  | DViewPatients => PyOk (f, (open_view_patients f).1, [])
  | DViewDoctors => PyOk (f, (open_view_doctors f).1, [])
  | DViewAppointments => PyOk (f, (open_view_appointments f).1, [])
  | DScheduleAppointment =>
      d ← open_db "patients" f;
      PyOk (match schedule_appointment d with
            | inl m => (f, [], [m])
            | inr fm => (f, [WSchedule fm], [])
            end)
  | DExport => '(f', ds) ← export_appointments_to_csv (ans_path a) f; PyOk (f', [], ds)
  | DBackup => '(f', ds) ← backup_database (ans_path a) f; PyOk (f', [], ds)
  | DRestore => '(f', ds) ← restore_database (ans_path a) (ans_confirm a) f; PyOk (f', [], ds)
  | DViewDoctorsStub => PyOk (f, [], [])
  | DSetupDatabase | DConfigureStyles | DMainWindow | DEditPatient | DEditDoctor => PyOk (f, [], [])
  end.

(** [view_patients()] or [view_doctors()] at the end of a successful
    update, looked up in the namespace [g]. *)
Definition refresh (g : gmap string pydef) (name : string) (f : fsys) : list window :=
  match g !! name with
  | Some x => match call x (mk_answers "" false) f with PyOk (_, ws, _) => ws | PyRaise _ => [] end
  | None => []
  end.

(** The delete button of a list window, pressed with no row selected:
    the handler shows its error before asking for confirmation. *)
Definition delete_unselected (w : window) : option (string * event) :=
  match w with
  | WViewPatients _ => Some ("patients", EDeletePatient None false)
  | WSearch _ => Some ("patients", EDeletePatientSearch None false)
  | WViewDoctors _ => Some ("doctors", EDeleteDoctor None false)
  | WViewAppointments _ => Some ("appointments", EDeleteAppointment None false)
  | _ => None
  end.

(** A callback whose first dialog is [showinfo] took its success path. *)
Definition success (ds : list dialog) : bool :=
  match ds with ShowInfo _ _ :: _ => true | _ => false end.

(** The search: the tree is cleared, then filled with the results. *)
Definition search_rows (term : string) (f : fsys) : list (Z * patient) :=
  match d ← open_db "patients" f; perform_search term d with
  | PyOk (rs, _) => rs
  | PyRaise _ => []
  end.

(** [setup_database()] on the working directory: [sqlite3.connect]
    opens [hospital.db], creating it (empty) when it is missing and its
    directory may be written; an empty file is an empty database; the
    statements then run on the database and are committed. *)
Definition setup_fresh (err : string) (f : fsys) : py fsys :=
  if decide (db_path ∈ locked f) then PyRaise (OperationalError err)
  else d' ← setup_database None; PyOk (set_files (<[db_path := FDb d']> (files f)) f).

Definition setup_fs (f : fsys) : py fsys :=
  match files f !! db_path with
  | Some (FDb d) => d' ← setup_database (Some d); PyOk (set_files (<[db_path := FDb d']> (files f)) f)
  | Some (FText EmptyString) => setup_fresh "attempt to write a readonly database" f
  | Some (FText _) => PyRaise (DatabaseError "file is not a database")
  | None => setup_fresh "unable to open database file" f
  end.

(** [__main__] (lines 930-932): [setup_database()], then [main_window()],
    whose main loop starts with no window open; an exception of the
    setup ends the program before the interface starts. *)
Definition main (f : fsys) : py ui :=
  f' ← setup_fs f; PyOk (initial f').

(** ** Steps of the interface *)

Inductive label :=
  | LEvent (e : event)   (** a handler of [Handlers] ran *)
  | LFiles               (** the export, the backup or the restore ran *)
  | LQuiet.              (** any other action *)

(** The label of a menu item: whether it runs a file operation. *)
Definition menu_label (x : pydef) : label :=
  match x with DExport | DBackup | DRestore => LFiles | _ => LQuiet end.

Section Steps.
Variable g : gmap string pydef.

(** One user action while the main loop runs.  [k] is the position of
    the window acted on; a selection in a tree is the position [j] of the
    row among the rows the tree shows. *)
Inductive ui_step : ui -> label -> ui -> Prop :=
  | st_menu u c x a f' ws ds :
      running u = true -> g !! command_target c = Some x -> call x a (ui_fs u) = PyOk (f', ws, ds) ->
      ui_step u (menu_label x) (mk_ui f' (wins u ++ ws) true)
  | st_quit u :
      running u = true -> ui_step u LQuiet (mk_ui (ui_fs u) (wins u) false)
  | st_close u k w :
      running u = true -> wins u !! k = Some w ->
      ui_step u LQuiet (mk_ui (ui_fs u) (delete k (wins u)) true)
  | st_save_patient u k n a ad c f' ds :
      running u = true -> wins u !! k = Some WRegisterPatient ->
      run_db "patients" (handle (ESavePatient n a ad c)) (ui_fs u) = PyOk (f', ds) ->
      ui_step u (LEvent (ESavePatient n a ad c))
        (mk_ui f' (if success ds then delete k (wins u) else wins u) true)
  | st_save_doctor u k n sp sc f' ds :
      running u = true -> wins u !! k = Some WRegisterDoctor ->
      run_db "doctors" (handle (ESaveDoctor n sp sc)) (ui_fs u) = PyOk (f', ds) ->
      ui_step u (LEvent (ESaveDoctor n sp sc))
        (mk_ui f' (if success ds then delete k (wins u) else wins u) true)
  | st_save_appointment u k fm sp sd dt tm f' ds :
      running u = true -> wins u !! k = Some (WSchedule fm) ->
      sp ∈ patient_options fm -> sd ∈ doctor_options fm ->
      run_db "appointments" (handle (ESaveAppointment sp sd dt tm)) (ui_fs u) = PyOk (f', ds) ->
      ui_step u (LEvent (ESaveAppointment sp sd dt tm))
        (mk_ui f' (if success ds then delete k (wins u) else wins u) true)
  | st_open_edit_patient u k rs j i p d fm :
      running u = true -> (wins u !! k = Some (WViewPatients rs) \/ wins u !! k = Some (WSearch rs)) ->
      rs !! j = Some (i, p) -> open_db "patients" (ui_fs u) = PyOk d -> edit_patient i d = inr fm ->
      ui_step u LQuiet (mk_ui (ui_fs u) (wins u ++ [WEditPatient i fm]) true)
  | st_update_patient u k i fm n a ad c f' ds :
      running u = true -> wins u !! k = Some (WEditPatient i fm) ->
      run_db "patients" (handle (EUpdatePatient i n a ad c)) (ui_fs u) = PyOk (f', ds) ->
      ui_step u (LEvent (EUpdatePatient i n a ad c))
        (mk_ui f' (if success ds then delete k (wins u) ++ refresh g "view_patients" f' else wins u) true)
  | st_delete_patient u k rs j i p ok f' ds :
      running u = true -> wins u !! k = Some (WViewPatients rs) -> rs !! j = Some (i, p) ->
      run_db "patients" (handle (EDeletePatient (Some i) ok)) (ui_fs u) = PyOk (f', ds) ->
      ui_step u (LEvent (EDeletePatient (Some i) ok))
        (mk_ui f' (if success ds then <[k := WViewPatients (delete j rs)]> (wins u) else wins u) true)
  | st_search u k rs term :
      running u = true -> wins u !! k = Some (WSearch rs) ->
      ui_step u LQuiet (mk_ui (ui_fs u) (<[k := WSearch (search_rows term (ui_fs u))]> (wins u)) true)
  | st_delete_patient_search u k rs j i p ok f' ds :
      running u = true -> wins u !! k = Some (WSearch rs) -> rs !! j = Some (i, p) ->
      run_db "patients" (handle (EDeletePatientSearch (Some i) ok)) (ui_fs u) = PyOk (f', ds) ->
      ui_step u (LEvent (EDeletePatientSearch (Some i) ok))
        (mk_ui f' (if success ds then <[k := WSearch (delete j rs)]> (wins u) else wins u) true)
  | st_open_edit_doctor u k rs j i dr d fm :
      running u = true -> wins u !! k = Some (WViewDoctors rs) -> rs !! j = Some (i, dr) ->
      open_db "doctors" (ui_fs u) = PyOk d -> edit_doctor i d = inr fm ->
      ui_step u LQuiet (mk_ui (ui_fs u) (wins u ++ [WEditDoctor i fm]) true)
  | st_update_doctor u k i fm n sp sc f' ds :
      running u = true -> wins u !! k = Some (WEditDoctor i fm) ->
      run_db "doctors" (handle (EUpdateDoctor i n sp sc)) (ui_fs u) = PyOk (f', ds) ->
      ui_step u (LEvent (EUpdateDoctor i n sp sc))
        (mk_ui f' (if success ds then delete k (wins u) ++ refresh g "view_doctors" f' else wins u) true)
  | st_delete_doctor u k rs j i dr ok f' ds :
      running u = true -> wins u !! k = Some (WViewDoctors rs) -> rs !! j = Some (i, dr) ->
      run_db "doctors" (handle (EDeleteDoctor (Some i) ok)) (ui_fs u) = PyOk (f', ds) ->
      ui_step u (LEvent (EDeleteDoctor (Some i) ok))
        (mk_ui f' (if success ds then <[k := WViewDoctors (delete j rs)]> (wins u) else wins u) true)
  | st_delete_unselected u k w t e f' ds :
      running u = true -> wins u !! k = Some w -> delete_unselected w = Some (t, e) ->
      run_db t (handle e) (ui_fs u) = PyOk (f', ds) ->
      ui_step u (LEvent e) (mk_ui f' (wins u) true)
  | st_delete_appointment u k rs j r ok f' ds :
      running u = true -> wins u !! k = Some (WViewAppointments rs) -> rs !! j = Some r ->
      run_db "appointments" (handle (EDeleteAppointment (Some (r_id r)) ok)) (ui_fs u) = PyOk (f', ds) ->
      ui_step u (LEvent (EDeleteAppointment (Some (r_id r)) ok))
        (mk_ui f' (if success ds then <[k := WViewAppointments (delete j rs)]> (wins u) else wins u) true).

(** The states reachable from [u] by any sequence of actions. *)
Definition reachable (u u' : ui) : Prop := rtc (fun x y => exists l, ui_step x l y) u u'.

(** A run of the interface with the labels of its actions. *)
Inductive ui_run : ui -> list label -> ui -> Prop :=
  | run_nil u : ui_run u [] u
  | run_cons u l u' ls u'' : ui_step u l u' -> ui_run u' ls u'' -> ui_run u (l :: ls) u''.

End Steps.

(** The callbacks a run executed, in order. *)
Definition events_of (ls : list label) : list event :=
  omap (fun l => match l with LEvent e => Some e | _ => None end) ls.

(** ** Invariants *)

(** Every database file of the file system satisfies the data invariant. *)
Definition file_ok (x : file) : Prop :=
  match x with FDb d => db_ok d | FText _ => True end.

Definition fs_ok (f : fsys) : Prop := map_Forall (fun _ => file_ok) (files f).

Definition doctor_window (w : window) : bool :=
  match w with WViewDoctors _ | WEditDoctor _ _ => true | _ => false end.

Definition no_doctor_windows (u : ui) : Prop := Forall (fun w => doctor_window w = false) (wins u).

(** The last binding of [n] in [defs]. *)
Definition last_binding (n : string) (defs : list (string * pydef)) : option pydef :=
  foldl (fun acc '(m, x) => if String.eqb m n then Some x else acc) None defs.

(** ** Lemmas: the namespace *)

Lemma bind_globals_go (defs : list (string * pydef)) (g : gmap string pydef) (n : string) :
  foldl (fun g '(m, x) => <[m := x]> g) g defs !! n =
  foldl (fun acc '(m, x) => if String.eqb m n then Some x else acc) (g !! n) defs.
Proof.
  revert g. induction defs as [|[m x] defs IH]; intros g; [done|]. simpl. rewrite IH.
  f_equal. destruct (String.eqb_spec m n) as [->|Hne].
  - apply lookup_insert_eq.
  - by apply lookup_insert_ne.
Qed.

Lemma bind_globals_lookup (defs : list (string * pydef)) (n : string) :
  bind_globals defs !! n = last_binding n defs.
Proof. apply bind_globals_go. Qed.

Lemma last_binding_snoc (n : string) (defs : list (string * pydef)) (m : string) (x : pydef) :
  last_binding n (defs ++ [(m, x)]) = if String.eqb m n then Some x else last_binding n defs.
Proof. unfold last_binding. by rewrite foldl_app. Qed.

Lemma last_binding_in (n : string) (defs : list (string * pydef)) (x : pydef) :
  last_binding n defs = Some x -> (n, x) ∈ defs.
Proof.
  induction defs as [|[m y] defs IH] using rev_ind; [discriminate|].
  rewrite last_binding_snoc, elem_of_app, list_elem_of_singleton.
  destruct (String.eqb_spec m n) as [->|]; [intros [= ->]; by right | auto].
Qed.

(** No name of the module denotes the full [view_doctors]: the only
    name bound to it is bound again, to the stub, at the end. *)
Lemma globals_not_view_doctors (n : string) : globals !! n <> Some DViewDoctors.
Proof.
  unfold globals. rewrite bind_globals_lookup.
  change module_defs with (removelast module_defs ++ [("view_doctors", DViewDoctorsStub)]).
  rewrite last_binding_snoc. destruct (String.eqb_spec "view_doctors" n) as [<-|Hn]; [discriminate|].
  intros Hin%last_binding_in. cbn in Hin.
  repeat (apply elem_of_cons in Hin as [Hin|Hin]; [simplify_eq|]). by apply elem_of_nil in Hin.
Qed.

(** ** Lemmas: the data invariant *)

Lemma fs_ok_insert (f : fsys) (p : string) (x : file) :
  fs_ok f -> file_ok x -> fs_ok (set_files (<[p := x]> (files f)) f).
Proof. intros Hf Hx. by apply map_Forall_insert_2. Qed.

Lemma open_db_ok (t : string) (f : fsys) (d : db) : fs_ok f -> open_db t f = PyOk d -> db_ok d.
Proof.
  unfold open_db. intros Hf. destruct (files f !! db_path) as [[d'|[]]|] eqn:E; try discriminate.
  intros [= <-]. exact (Hf _ _ E).
Qed.

Lemma run_db_ok (t : string) (e : event) (f f' : fsys) (ds : list dialog) :
  fs_ok f -> run_db t (handle e) f = PyOk (f', ds) -> fs_ok f'.
Proof.
  unfold run_db. intros Hf (d & Hd & H)%py_bind_eq_ok.
  apply py_bind_eq_ok in H as ([d' ds'] & He & [= <- _]).
  apply fs_ok_insert; [done|]. eapply handle_ok; [|exact He]. by eapply open_db_ok.
Qed.

Lemma write_file_fs_ok (p : string) (x : file) (f f' : fsys) :
  fs_ok f -> file_ok x -> write_file p x f = PyOk f' -> fs_ok f'.
Proof. unfold write_file. intros Hf Hx. case_decide; [discriminate|]. intros [= <-]. by apply fs_ok_insert. Qed.

Lemma shutil_copy_fs_ok (src dst : string) (f f' : fsys) :
  fs_ok f -> shutil_copy src dst f = PyOk f' -> fs_ok f'.
Proof.
  intros Hf (x & Hx & _ & _ & ->)%shutil_copy_inv. apply fs_ok_insert; [done|]. exact (Hf _ _ Hx).
Qed.

Lemma export_fs_ok (p : string) (f f' : fsys) ds :
  fs_ok f -> export_appointments_to_csv p f = PyOk (f', ds) -> fs_ok f'.
Proof.
  unfold export_appointments_to_csv. intros Hf (d & _ & H)%py_bind_eq_ok.
  destruct (appointments_join d); [by simplify_eq|]. destruct (truthy p); [|by simplify_eq].
  destruct (write_file _ _ f) eqn:Hw; simplify_eq; [|done]. exact (write_file_fs_ok _ (FText _) _ _ Hf I Hw).
Qed.

Lemma backup_fs_ok (p : string) (f f' : fsys) ds :
  fs_ok f -> backup_database p f = PyOk (f', ds) -> fs_ok f'.
Proof.
  unfold backup_database. intros Hf. destruct (truthy p); [|by intros; simplify_eq].
  destruct (shutil_copy _ _ f) eqn:Hc; intros; simplify_eq; [|done]. by eapply shutil_copy_fs_ok.
Qed.

Lemma restore_fs_ok (p : string) (ok : bool) (f f' : fsys) ds :
  fs_ok f -> restore_database p ok f = PyOk (f', ds) -> fs_ok f'.
Proof.
  unfold restore_database. intros Hf. destruct (truthy p), ok; try by intros; simplify_eq.
  destruct (shutil_copy _ _ f) eqn:Hc; intros; simplify_eq; [|done]. by eapply shutil_copy_fs_ok.
Qed.

(** Which file a call changes: only the export, the backup and the
    restore write one. *)
Lemma call_fs_ok (x : pydef) (a : answers) (f f' : fsys) ws ds :
  fs_ok f -> call x a f = PyOk (f', ws, ds) -> fs_ok f'.
Proof.
  intros Hf. destruct x; cbn [call open_view_patients open_view_doctors open_view_appointments];
    try (intros ([f1 ds1] & Hx & [= <- _ _])%py_bind_eq_ok;
         by eauto using export_fs_ok, backup_fs_ok, restore_fs_ok);
    try (intros (d & _ & H)%py_bind_eq_ok; revert H); try case_match; intros; by simplify_eq.
Qed.

Lemma step_fs_ok (g : gmap string pydef) (u u' : ui) (l : label) :
  ui_step g u l u' -> fs_ok (ui_fs u) -> fs_ok (ui_fs u').
Proof. destruct 1; simpl; eauto using call_fs_ok, run_db_ok. Qed.

(** ** Lemmas: the doctor windows *)

Lemma call_no_doctor_windows (x : pydef) (a : answers) (f f' : fsys) ws ds :
  x <> DViewDoctors -> call x a f = PyOk (f', ws, ds) -> Forall (fun w => doctor_window w = false) ws.
Proof.
  intros Hx. destruct x; cbn [call open_view_patients open_view_doctors open_view_appointments
    open_register_patient open_register_doctor open_search_patients]; try congruence;
    try (intros ([f1 ds1] & _ & [= _ <- _])%py_bind_eq_ok; by constructor);
    try (intros (d & _ & H)%py_bind_eq_ok; revert H); try case_match; intros; simplify_eq/=;
    unfold open_view_patients, open_view_appointments; try case_match; repeat constructor.
Qed.

Lemma refresh_no_doctor_windows (n : string) (f : fsys) :
  Forall (fun w => doctor_window w = false) (refresh globals n f).
Proof.
  unfold refresh. destruct (globals !! n) as [x|] eqn:Hx; [|done].
  destruct (call x _ f) as [[[f' ws] ds]|e] eqn:Hc; [|done].
  eapply call_no_doctor_windows; [|exact Hc]. intros ->. by eapply globals_not_view_doctors.
Qed.

(** Under the module's namespace, no action opens a doctor window. *)
Lemma step_no_doctor_windows (u u' : ui) (l : label) :
  ui_step globals u l u' -> no_doctor_windows u -> no_doctor_windows u'.
Proof.
  unfold no_doctor_windows. intros Hs Hu. destruct Hs; simpl;
    repeat match goal with
    | H : wins _ !! _ = Some (WViewDoctors _) |- _ => pose proof (proj1 (Forall_lookup _ _) Hu _ _ H); discriminate
    | H : wins _ !! _ = Some (WEditDoctor _ _) |- _ => pose proof (proj1 (Forall_lookup _ _) Hu _ _ H); discriminate
    end;
    repeat first [case_match | apply Forall_app_2 | apply Forall_insert | apply Forall_delete];
    eauto using refresh_no_doctor_windows; try done; try by repeat constructor.
  eapply call_no_doctor_windows; [|eassumption]. intros ->. by eapply globals_not_view_doctors.
Qed.

(** ** Lemmas: the interface refines the handlers *)

(** The menu items other than the export, the backup and the restore
    change no file. *)
Lemma call_keeps_fs (x : pydef) (a : answers) (f f' : fsys) ws ds :
  menu_label x = LQuiet -> call x a f = PyOk (f', ws, ds) -> f' = f.
Proof.
  destruct x; cbn [call menu_label]; try discriminate; intros _;
    try (intros [= <- _ _]; done);
    try (intros (d & _ & H)%py_bind_eq_ok; revert H); try case_match; intros; by simplify_eq.
Qed.

(** A callback run through [run_db] is its handler on the database the
    file holds, committed back to the file. *)
Lemma run_db_inv (t : string) (e : event) (f f' : fsys) ds :
  run_db t (handle e) f = PyOk (f', ds) ->
  exists d d', files f !! db_path = Some (FDb d) /\ handle e d = PyOk (d', ds) /\
    f' = set_files (<[db_path := FDb d']> (files f)) f.
Proof.
  unfold run_db, open_db. intros (d & Hd & H)%py_bind_eq_ok.
  apply py_bind_eq_ok in H as ([d' ds'] & He & [= <- <-]).
  destruct (files f !! db_path) as [[d0|[]]|] eqn:E; simplify_eq. eauto.
Qed.



(** The simulation step: an action that is not a file operation either
    runs one handler on the database file, or leaves every file as it
    was. *)
Lemma step_refines (g : gmap string pydef) (u u' : ui) (l : label) (d : db) :
  ui_step g u l u' -> l <> LFiles -> files (ui_fs u) !! db_path = Some (FDb d) ->
  match l with
  | LEvent e => exists d' ds, handle e d = PyOk (d', ds) /\
      ui_fs u' = set_files (<[db_path := FDb d']> (files (ui_fs u))) (ui_fs u)
  | _ => ui_fs u' = ui_fs u
  end.
Proof.
  intros Hs Hl Hd. destruct Hs; simpl; try done;
    repeat match goal with
    | H : run_db _ _ _ = PyOk _ |- _ => apply run_db_inv in H as (d0 & d' & Hd0 & He & ->)
    end;
    try (rewrite Hd in Hd0; simplify_eq; by eauto).
  destruct (menu_label x) eqn:Hx; [destruct x; discriminate | done |].
  by eapply call_keeps_fs.
Qed.

(** A property every action preserves holds in every reachable state. *)
Lemma reachable_inv (g : gmap string pydef) (P : ui -> Prop) (u u' : ui) :
  (forall x l y, ui_step g x l y -> P x -> P y) -> reachable g u u' -> P u -> P u'.
Proof. intros Hstep. induction 1 as [|x y z [l Hxy] _ IH]; eauto. Qed.

(** [setup_database] on a file within the invariant yields a file within
    the invariant, with at least one user. *)
Lemma setup_ok (fo : option db) (d : db) :
  db_ok (create_tables fo) -> setup_database fo = PyOk d ->
  db_ok d /\ Table.select_all (users d) <> [].
Proof.
  intros Hok Hs. destruct (setup_spec fo d (ok_wf _ Hok) Hs) as (Hp & Hd & Ha & Hu & Hwf).
  split; [split; [done | rewrite Hp; apply Hok | rewrite Hd; apply Hok | rewrite Ha; apply Hok]|].
  rewrite Hu. by case_match.
Qed.

Lemma empty_db_ok : db_ok (create_tables None).
Proof. split; [apply empty_db_wf | constructor | constructor | constructor]. Qed.

(** The setup on the working directory: [hospital.db] becomes a database
    within the invariant with at least one user; no other file changes. *)
Lemma setup_fs_ok (f f' : fsys) :
  fs_ok f -> setup_fs f = PyOk f' ->
  fs_ok f' /\ exists d, files f' !! db_path = Some (FDb d) /\ Table.select_all (users d) <> [].
Proof.
  intros Hf.
  assert (Hset : forall fo, db_ok (create_tables fo) ->
    (d' ← setup_database fo; PyOk (set_files (<[db_path := FDb d']> (files f)) f)) = PyOk f' ->
    fs_ok f' /\ exists d, files f' !! db_path = Some (FDb d) /\ Table.select_all (users d) <> []).
  { intros fo Hok (d' & Hs & [= <-])%py_bind_eq_ok. destruct (setup_ok fo d' Hok Hs) as [Hok' Hu].
    split; [by apply fs_ok_insert | exists d'; split; [apply lookup_insert_eq | done]]. }
  unfold setup_fs, setup_fresh.
  destruct (files f !! db_path) as [[d|[]]|] eqn:E; try discriminate;
    try case_decide; try discriminate; eauto using empty_db_ok.
  apply Hset. exact (Hf _ _ E).
Qed.

(** ** Theorems *)

(** C1: the data invariant holds in every reachable state of the
    interface: from a file system whose database files all satisfy
    [db_ok], any sequence of user actions (menu items, forms, stale list
    windows acting on deleted rows, exports, backups, restores), under any
    namespace, leaves every database file satisfying [db_ok]. *)
Theorem reachable_fs_ok (g : gmap string pydef) (u u' : ui) :
  reachable g u u' -> fs_ok (ui_fs u) -> fs_ok (ui_fs u').
Proof. apply (reachable_inv g (fun x => fs_ok (ui_fs x))). intros x l y. apply step_fs_ok. Qed.

(** C4: because the second [def view_doctors] (a stub) replaces the
    first, no state reachable from the main window ever runs
    [update_doctor] or [delete_doctor]: the doctor list and the doctor
    edit form never open. *)
Theorem doctor_callbacks_unreachable (f : fsys) (u u' : ui) (e : event) :
  reachable globals (initial f) u -> ui_step globals u (LEvent e) u' ->
  match e with EUpdateDoctor _ _ _ _ | EDeleteDoctor _ _ => False | _ => True end.
Proof.
  intros Hr Hs.
  assert (Hu : no_doctor_windows u).
  { eapply reachable_inv; [|exact Hr|constructor]. intros x l y. apply step_no_doctor_windows. }
  inversion Hs; subst; try exact I;
    try match goal with H : menu_label ?x = LEvent _ |- _ => destruct x; discriminate end;
    try match goal with H : delete_unselected ?w = Some _ |- _ =>
          destruct w; simpl in H; simplify_eq; try exact I end;
    match goal with H : wins _ !! _ = Some _ |- _ => pose proof (proj1 (Forall_lookup _ _) Hu _ _ H) end;
    discriminate.
Qed.

(** C3: the interface refines the handler model: along any run of the
    interface without a file operation (export, backup, restore),
    [hospital.db] evolves exactly as [Handlers.handles] prescribes for
    the callbacks the run executed, in their order, whatever windows,
    stale lists and menu items are involved; no other file changes. *)
Theorem ui_refines_handles (g : gmap string pydef) (u u' : ui) (ls : list label) (d : db) :
  ui_run g u ls u' -> LFiles ∉ ls -> files (ui_fs u) !! db_path = Some (FDb d) ->
  exists d', handles d (events_of ls) d' /\ files (ui_fs u') !! db_path = Some (FDb d') /\
    forall p, p <> db_path -> files (ui_fs u') !! p = files (ui_fs u) !! p.
Proof.
  intros Hr. revert d. induction Hr as [u|u l u1 ls u2 Hs Hr IH]; intros d Hno Hd.
  - exists d. split; [constructor | auto].
  - apply not_elem_of_cons in Hno as [Hl Hno].
    pose proof (step_refines _ _ _ _ d Hs (not_eq_sym Hl) Hd) as Hst.
    destruct l as [e| |]; [|done|].
    + destruct Hst as (d1 & ds & He & Hf).
      destruct (IH d1 Hno) as (d2 & Hh & Hd2 & Hp); [rewrite Hf; apply lookup_insert_eq|].
      exists d2. split; [econstructor; eauto|]. split; [done|].
      intros p Hp'. rewrite Hp, Hf by done. by apply lookup_insert_ne.
    + destruct (IH d Hno) as (d2 & Hh & Hd2 & Hp); [by rewrite Hst|].
      exists d2. rewrite <- Hst. auto.
Qed.

(** The stub is what hides the doctor list: in the namespace the file
    would build without it, a user who opens the doctor list from the
    menu can delete a doctor. *)
Example doctor_delete_reachable_without_stub :
  exists u u', reachable intended_globals (initial sample_fs) u /\
    ui_step intended_globals u (LEvent (EDeleteDoctor (Some 3%Z) true)) u'.
Proof.
  exists (mk_ui sample_fs [WViewDoctors (view_doctors sample_db)] true). eexists. split.
  - apply rtc_once. exists LQuiet.
    eapply (st_menu _ (initial sample_fs) MViewDoctors DViewDoctors (mk_answers "" false));
      reflexivity.
  - eapply (st_delete_doctor _ _ 0 _ 1 3%Z); reflexivity.
Qed.

(** C16: running the program ([__main__]) from a file system within
    the invariant either raises before the interface starts, or starts
    the main loop with no window open on a [hospital.db] that is a
    database holding at least one user (the seeded [admin]); and every
    state the user can then reach keeps every database file within the
    invariant. *)
Theorem main_setup (f : fsys) (u : ui) :
  fs_ok f -> main f = PyOk u ->
  wins u = [] /\ running u = true /\
  (exists d, files (ui_fs u) !! db_path = Some (FDb d) /\ Table.select_all (users d) <> []) /\
  forall u', reachable globals u u' -> fs_ok (ui_fs u').
Proof.
  unfold main. intros Hf (f' & Hs & [= <-])%py_bind_eq_ok.
  destruct (setup_fs_ok f f' Hf Hs) as [Hok Hd]. do 3 (split; [done|]).
  intros u' Hr. apply (reachable_inv globals (fun x => fs_ok (ui_fs x)) _ _ (fun x l y => step_fs_ok globals x y l) Hr Hok).
Qed.

(** C17: the first run of the program, in a directory without
    [hospital.db] (or with an empty one) that may be written, creates the
    database with its four tables, seeds the single user [admin] under
    id 1, and starts the interface on it with no window open; no other
    file changes. *)
Theorem main_fresh_start (f : fsys) :
  (files f !! db_path = None \/ files f !! db_path = Some (FText "")) -> db_path ∉ locked f ->
  main f = PyOk (initial (set_files (<[db_path := FDb first_run]> (files f)) f)).
Proof.
  intros Hd Hl. unfold main, setup_fs, setup_fresh.
  destruct Hd as [-> | ->]; rewrite decide_False by done; reflexivity.
Qed.


(** ** Witnesses *)

Lemma reachable_fs_ok_witness :
  fs_ok (ui_fs (mk_ui sample_fs [WViewDoctors (view_doctors sample_db)] true)).
Proof.
  apply (reachable_fs_ok intended_globals (initial sample_fs)).
  - apply rtc_once. exists LQuiet.
    eapply (st_menu _ (initial sample_fs) MViewDoctors DViewDoctors (mk_answers "" false));
      reflexivity.
  - apply map_Forall_singleton. simpl. solve_db_ok.
Defined.

Lemma doctor_callbacks_unreachable_witness :
  match ESavePatient "Bia" "41" "Rua C" "777" with
  | EUpdateDoctor _ _ _ _ | EDeleteDoctor _ _ => False | _ => True end.
Proof.
  eapply (doctor_callbacks_unreachable sample_fs (mk_ui sample_fs [WRegisterPatient] true)).
  - apply rtc_once. exists LQuiet.
    eapply (st_menu _ (initial sample_fs) MRegisterPatient DRegisterPatient (mk_answers "" false));
      reflexivity.
  - eapply (st_save_patient _ _ 0); reflexivity.
Defined.

(** Open the patient form from the menu, then save a patient. *)
Ltac run_register_patient :=
  econstructor;
  [eapply (st_menu _ (initial sample_fs) MRegisterPatient DRegisterPatient (mk_answers "" false));
   reflexivity|];
  econstructor; [eapply (st_save_patient _ _ 0); reflexivity|]; constructor.

Lemma ui_refines_handles_witness :
  exists u', ui_run globals (initial sample_fs) [LQuiet; LEvent (ESavePatient "Bia" "41" "Rua C" "777")] u' /\
  exists d', handles sample_db [ESavePatient "Bia" "41" "Rua C" "777"] d' /\
    files (ui_fs u') !! db_path = Some (FDb d') /\
    forall p, p <> db_path -> files (ui_fs u') !! p = files (ui_fs (initial sample_fs)) !! p.
Proof.
  eexists. split; [run_register_patient|].
  apply (ui_refines_handles globals (initial sample_fs) _ [LQuiet; LEvent (ESavePatient "Bia" "41" "Rua C" "777")]);
    [run_register_patient | | reflexivity].
  repeat (apply not_elem_of_cons; split; [discriminate|]). apply not_elem_of_nil.
Defined.

Lemma main_setup_witness :
  wins (initial (set_files (<[db_path := FDb first_run]> ∅) (mk_fsys ∅ ∅))) = [] /\
  running (initial (set_files (<[db_path := FDb first_run]> ∅) (mk_fsys ∅ ∅))) = true /\
  (exists d, files (ui_fs (initial (set_files (<[db_path := FDb first_run]> ∅) (mk_fsys ∅ ∅)))) !! db_path = Some (FDb d) /\
     Table.select_all (users d) <> []) /\
  forall u', reachable globals (initial (set_files (<[db_path := FDb first_run]> ∅) (mk_fsys ∅ ∅))) u' -> fs_ok (ui_fs u').
Proof. apply (main_setup (mk_fsys ∅ ∅)); [apply map_Forall_empty | reflexivity]. Defined.

Lemma main_fresh_start_witness :
  main (mk_fsys {["/tmp/notas.txt" := FText "x"]} ∅) =
    PyOk (initial (set_files (<[db_path := FDb first_run]> {["/tmp/notas.txt" := FText "x"]})
                             (mk_fsys {["/tmp/notas.txt" := FText "x"]} ∅))).
Proof. apply main_fresh_start; [left; reflexivity | set_solver]. Defined.


End App.
